(** * Shift rota generator: the constraint model of [generate_rota.py]

    A shallow embedding of [src/generate_rota.py]: the weekly off patterns,
    the employee loader, the CP-SAT model that [solve] builds, the driver
    around the solver call and the extraction of the code matrix, together
    with the properties of the schedules that [solve] returns. *)

From Stdlib Require Import String Ascii Decimal DecimalString.
From Stdlib Require Import ZArith List Bool Lia.
From Stdlib Require Import Sorted Permutation.
From Stdlib Require Import Floats.SpecFloat.
Import ListNotations.
Local Open Scope string_scope.
Local Open Scope list_scope.
Local Open Scope Z_scope.

(* ================================================================== *)
(** ** Python values the program manipulates *)

(** The exceptions that the modelled functions can raise. *)
Inductive Exception : Type :=
| ValueError (msg : string)
| RuntimeError (msg : string)
| IndexError
| OverflowError.

(** A computation that returns a value or raises. *)
Inductive Result (A : Type) : Type :=
| Ok (a : A)
| Raise (exn : Exception).



Arguments Ok {A} a.
Arguments Raise {A} exn.

Definition bind {A B : Type} (r : Result A) (k : A -> Result B) : Result B :=
  match r with
  | Ok a => k a
  | Raise exn => Raise exn
  end.



Notation "x <- r ;; k" := (bind r (fun x => k))
  (at level 61, r at next level, right associativity).
Notation "' pat <- r ;; k" := (bind r (fun x => match x with pat => k end))
  (at level 61, pat pattern, r at next level, right associativity).

(** [lst[i]] for a non-negative index: [IndexError] out of range. *)
Definition index {A : Type} (l : list A) (i : nat) : Result A :=
  match nth_error l i with
  | Some a => Ok a
  | None => Raise IndexError
  end.

(** [str(n)] for a Python int. *)
Definition py_str (n : Z) : string := NilZero.string_of_int (Z.to_int n).

(** *** Binary64 floats

    [max_off_pct] is a Python float; its product with the head count and
    [math.ceil] are modelled on the IEEE 754 binary64 format. *)
Module Float.

Definition prec : Z := 53.
Definition emax : Z := 1024.

Definition float : Type := spec_float.

(** [float(n)]: the conversion Python applies to the int operand of
    [float * int], rounding to nearest even; [OverflowError] when the int
    is too large for a float. *)
Definition of_int (n : Z) : Result float :=
  match binary_normalize prec emax n 0 false with
  | S754_infinity _ => Raise OverflowError
  | f => Ok f
  end.

Definition mul (x y : float) : float := SFmul prec emax x y.

(** [math.ceil(x)]: [ValueError] on NaN, [OverflowError] on infinities. *)
Definition ceil (x : float) : Result Z :=
  match x with
  | S754_zero _ => Ok 0
  | S754_infinity _ => Raise OverflowError
  | S754_nan => Raise (ValueError "cannot convert float NaN to integer")
  | S754_finite s m e =>
      let n := if s then Z.neg m else Z.pos m in
      match e with
      | Z0 => Ok n
      | Zpos p => Ok (n * 2 ^ Zpos p)
      | Zneg p => Ok (- ((- n) / 2 ^ Zpos p))
      end
  end.

(** The literal [0.30]: 0x3FD3333333333333. *)
Definition lit_0_30 : float := S754_finite false 5404319552844595 (-54).

(** The literal [1.0]. *)
Definition lit_1_0 : float := S754_finite false 4503599627370496 (-52).

(** The literal [120.0]. *)
Definition lit_120_0 : float := S754_finite false 8444249301319680 (-46).

End Float.

(* ================================================================== *)
(** ** Dates *)

(** A [datetime] at midnight is represented by its proleptic Gregorian
    ordinal ([date.toordinal()]); day 1 is Monday 0001-01-01. *)
Definition datetime : Type := Z.

(** [datetime.max.toordinal()], the ordinal of 9999-12-31: the dates are
    the ordinals from 1 to [MAXORDINAL]. *)
Definition MAXORDINAL : Z := 3652059.

Definition is_date (dt : Z) : Prop := 1 <= dt <= MAXORDINAL.

(** [dt.weekday()]: Monday is 0, Sunday is 6. *)
Definition weekday (dt : datetime) : Z := (dt + 6) mod 7.

(** [list(daterange(start, end))]: every day from [start] to [end]
    inclusive, one day apart.  This is the list for an [end] before
    9999-12-31; on that last day the generator raises [OverflowError]
    when it moves [d] past it, see [daterange_loop]. *)
Definition daterange (start stop : datetime) : list datetime :=
  map (fun i => start + Z.of_nat i) (seq 0 (Z.to_nat (stop - start + 1))).

(* ================================================================== *)
(** ** Weekly off patterns *)

(** Patterns A to G, Mon=0 ... Sun=6. *)
Definition OFF_PATTERNS : list (Z * Z) :=
  [ (5, 6);   (* A: Sat-Sun *)
    (6, 0);   (* B: Sun-Mon *)
    (0, 1);   (* C: Mon-Tue *)
    (1, 2);   (* D: Tue-Wed *)
    (2, 3);   (* E: Wed-Thu *)
    (3, 4);   (* F: Thu-Fri *)
    (4, 5) ]. (* G: Fri-Sat *)

(** Spread employees evenly across the 7 patterns. *)
Definition assign_patterns (num_employees : nat) : list nat :=
  map (fun i => (i mod length OFF_PATTERNS)%nat) (seq 0 num_employees).

(** One row of the off matrix: 1 on the days whose weekday is one of the
    two weekdays of the pattern, 0 elsewhere. *)
Definition off_row (pattern : Z * Z) (dates : list datetime) : list Z :=
  let '(off1, off2) := pattern in
  map (fun dt =>
         let wd := weekday dt in
         if (wd =? off1) || (wd =? off2) then 1 else 0) dates.

(** [off[e][d] = 1] if employee [e] is off on day [d].  The source fills a
    zero matrix in place; each cell is written at most once, so the rows
    are given directly.  The two subscripts [team_of_emp[e]] and
    [OFF_PATTERNS[...]] raise [IndexError] out of range. *)
Fixpoint off_rows (es : list nat) (dates : list datetime)
         (team_of_emp : list nat) : Result (list (list Z)) :=
  match es with
  | [] => Ok []
  | e :: es' =>
      team <- index team_of_emp e ;;
      pattern <- index OFF_PATTERNS team ;;
      rest <- off_rows es' dates team_of_emp ;;
      Ok (off_row pattern dates :: rest)
  end.

Definition compute_off_matrix (num_employees : nat) (dates : list datetime)
           (team_of_emp : list nat) : Result (list (list Z)) :=
  off_rows (seq 0 num_employees) dates team_of_emp.

(* ================================================================== *)
(** ** Load employees *)

(** A row of [csv.DictReader]: the fields of the header with the text read
    for each.  A field that the reader leaves at [None] (a short line) is
    absent from the row, which [row.get] does not tell apart. *)
Definition Row : Type := list (string * string).

(** [row.get(key)] *)
Fixpoint get (row : Row) (key : string) : option string :=
  match row with
  | [] => None
  | (k, v) :: rest => if String.eqb k key then Some v else get rest key
  end.

(** Truth value of [row.get(key)]: false for [None] and for the empty text. *)
Definition truthy (v : option string) : bool :=
  match v with
  | Some s => negb (String.eqb s "")
  | None => false
  end.

(** [v or ""] *)
Definition or_empty (v : option string) : string :=
  if truthy v then match v with Some s => s | None => "" end else "".

(** The two string builtins that [load_employees] calls: [str.strip] and
    [int] on a string ([None] when it raises [ValueError]). *)
Class StrBuiltins : Type := {
  py_strip : string -> string;
  py_int : string -> option Z
}.

Section LoadEmployees.

Context `{StrBuiltins}.

(** The reading loop: the first row without [emp_id] or [employee_name]
    raises. *)
Fixpoint read_rows (rows : list Row) : Result (list Row) :=
  match rows with
  | [] => Ok []
  | row :: rest =>
      if negb (truthy (get row "emp_id"))
         || negb (truthy (get row "employee_name"))
      then Raise (ValueError
                    "employees.csv must contain emp_id and employee_name")
      else
        employees <- read_rows rest ;;
        Ok (row :: employees)
  end.

(** The [try] block: [Some s] when [int(raw)] succeeds with [s] in
    (1, 2, 3), [None] when [ValueError] is raised, by [int] or by the
    membership test. *)
Definition try_starting_shift (emp : Row) : option Z :=
  let raw := py_strip (or_empty (get emp "starting_shift")) in
  match py_int raw with
  | Some s =>
      if (s =? 1) || (s =? 2) || (s =? 3) then Some s else None
  | None => None
  end.

(** The loop over the employees, threading [cur]; shifts are stored
    0-based. *)
Fixpoint assign_start_shifts (cur : Z) (employees : list Row) : list Z :=
  match employees with
  | [] => []
  | emp :: rest =>
      match try_starting_shift emp with
      | Some s => (s - 1) :: assign_start_shifts cur rest
      | None => (cur - 1) :: assign_start_shifts (1 + cur mod 3) rest
      end
  end.

(** [load_employees], on the rows that the CSV reader yields. *)
Definition load_employees (rows : list Row) : Result (list Row * list Z) :=
  employees <- read_rows rows ;;
  match employees with
  | [] => Raise (ValueError "employees.csv is empty")
  | _ => Ok (employees, assign_start_shifts 1 employees)
  end.

End LoadEmployees.

(** An instance of the builtins on plain ASCII text, for the sample runs:
    blanks are stripped and [int] reads an optional sign followed by
    decimal digits.  Python's [int] reads more: digits grouped with
    underscores, as in '0_3', and the decimal digits of other scripts.
    The theorems on [load_employees] hold for every instance. *)
Module AsciiText.

Definition is_space (c : ascii) : bool :=
  let n := nat_of_ascii c in
  ((9 <=? n) && (n <=? 13) || (28 <=? n) && (n <=? 32))%nat.

Fixpoint lstrip (s : string) : string :=
  match s with
  | String c rest => if is_space c then lstrip rest else s
  | EmptyString => s
  end.

Fixpoint rstrip (s : string) : string :=
  match s with
  | String c rest =>
      match rstrip rest with
      | EmptyString => if is_space c then EmptyString else String c EmptyString
      | rest' => String c rest'
      end
  | EmptyString => s
  end.

Definition strip (s : string) : string := rstrip (lstrip s).

Fixpoint digits (acc : Z) (s : string) : option Z :=
  match s with
  | EmptyString => Some acc
  | String c rest =>
      let n := Z.of_nat (nat_of_ascii c) in
      if (48 <=? n) && (n <=? 57) then digits (10 * acc + (n - 48)) rest
      else None
  end.

Definition unsigned (s : string) : option Z :=
  match s with
  | EmptyString => None
  | _ => digits 0 s
  end.

Definition int (s : string) : option Z :=
  match strip s with
  | String "+" rest => unsigned rest
  | String "-" rest => option_map Z.opp (unsigned rest)
  | t => unsigned t
  end.

End AsciiText.

#[export] Instance ascii_builtins : StrBuiltins :=
  {| py_strip := AsciiText.strip; py_int := AsciiText.int |}.

(** [math.ceil(max_off_pct * E)] *)
Definition max_off_cap (max_off_pct : Float.float) (E : nat) : Result Z :=
  fE <- Float.of_int (Z.of_nat E) ;;
  Float.ceil (Float.mul max_off_pct fE).

(* ================================================================== *)
(** ** The CP-SAT model *)

(** The integer variables that [solve] creates, one constructor per name
    pattern: [x_e{e}_d{d}_s{s}], [day_tot_d{d}_s{s}], [day_diff_d{d}_{i}{j}],
    [emp_tot_e{e}_s{s}], [emp_diff_e{e}_{i}{j}], [match_e{e}_d{d}] and
    [rot_pen_e{e}_d{d}]. *)
Inductive IntVar : Type :=
| x (e d s : nat)
| day_tot (d s : nat)
| day_diff (d i j : nat)
| emp_tot (e s : nat)
| emp_diff (e i j : nat)
| match_ (e d : nat)
| rot_pen (e d : nat).

(** Linear expressions over the variables. *)
Inductive LinearExpr : Type :=
| LConst (c : Z)
| LVar (v : IntVar)
| LAdd (a b : LinearExpr)
| LSub (a b : LinearExpr)
| LMul (k : Z) (a : LinearExpr).

(** [sum(...)] of expressions: Python adds them to 0 from the left. *)
Definition py_sum (l : list LinearExpr) : LinearExpr :=
  fold_left LAdd l (LConst 0).

(** The constraints [model.Add(a == b)], [model.Add(a <= b)],
    [model.Add(a >= b)] and [model.AddAbsEquality(target, expr)].  A
    comparison of two Python ints, which [model.Add] receives as a bool,
    is the same comparison of two constants. *)
Inductive Constraint : Type :=
| CEq (a b : LinearExpr)
| CLe (a b : LinearExpr)
| CGe (a b : LinearExpr)
| CAbsEq (target expr : LinearExpr).

(** A model: the declared variables with their bounds, the constraints
    and the expression to minimize. *)
Record CpModel : Type := {
  variables : list (IntVar * Z * Z);
  constraints : list Constraint;
  objective : LinearExpr
}.

(** Value of an expression under an assignment of the variables. *)
Fixpoint eval (val : IntVar -> Z) (ex : LinearExpr) : Z :=
  match ex with
  | LConst c => c
  | LVar v => val v
  | LAdd a b => eval val a + eval val b
  | LSub a b => eval val a - eval val b
  | LMul k a => k * eval val a
  end.

Definition holds (val : IntVar -> Z) (c : Constraint) : bool :=
  match c with
  | CEq a b => eval val a =? eval val b
  | CLe a b => eval val a <=? eval val b
  | CGe a b => eval val a >=? eval val b
  | CAbsEq target ex => eval val target =? Z.abs (eval val ex)
  end.

Definition in_domain (val : IntVar -> Z) (decl : IntVar * Z * Z) : bool :=
  let '(v, lo, hi) := decl in (lo <=? val v) && (val v <=? hi).

(** An assignment is a solution of the model when every variable is
    within its bounds and every constraint holds. *)
Definition satisfies (val : IntVar -> Z) (m : CpModel) : bool :=
  forallb (in_domain val) (variables m) && forallb (holds val) (constraints m).



(** [model.NewBoolVar] and [model.NewIntVar] *)
Definition NewBoolVar (v : IntVar) : IntVar * Z * Z := (v, 0, 1).
Definition NewIntVar (lo hi : Z) (v : IntVar) : IntVar * Z * Z := (v, lo, hi).

(** The solver: statuses, parameters and response of [CpSolver]. *)
Inductive CpSolverStatus : Type :=
| UNKNOWN | MODEL_INVALID | FEASIBLE | INFEASIBLE | OPTIMAL.

Record SatParameters : Type := {
  max_time_in_seconds : Float.float
}.

Record CpSolverResponse : Type := {
  status : CpSolverStatus;
  Value : IntVar -> Z
}.

(** [solver.Solve(model)] under the solver's parameters. *)
Definition CpSolver : Type := SatParameters -> CpModel -> CpSolverResponse.

(** [status in (cp_model.OPTIMAL, cp_model.FEASIBLE)] *)
Definition has_solution (st : CpSolverStatus) : bool :=
  match st with
  | OPTIMAL | FEASIBLE => true
  | _ => false
  end.

(** What CP-SAT guarantees of a response to a model: with status OPTIMAL
    or FEASIBLE the values it holds are a solution of the model. *)
Definition valid_response (m : CpModel) (r : CpSolverResponse) : Prop :=
  has_solution (status r) = true -> satisfies (Value r) m = true.

(* ================================================================== *)
(** ** Build and solve the model *)

(** [S = 3] shifts. *)
Definition num_shifts : nat := 3.

(** [off[e][d]] for [e < E] and [d < D]. *)
Definition off_at (off : list (list Z)) (e d : nat) : Z :=
  nth d (nth e off []) 0.

(** The pairs [(i, j)] of [for i in range(S): for j in range(i + 1, S)]. *)
Definition shift_pairs : list (nat * nat) :=
  flat_map (fun i => map (fun j => (i, j))
                         (seq (i + 1) (num_shifts - (i + 1))))
           (seq 0 num_shifts).

Section BuildModel.

Variables (E D : nat) (off : list (list Z)) (start_shifts : list Z).
Variables (min_per_shift max_off : Z).

(** The variables [x[e][d][s]]. *)
Definition x_decls : list (IntVar * Z * Z) :=
  flat_map (fun e =>
    flat_map (fun d =>
      map (fun s => NewBoolVar (x e d s)) (seq 0 num_shifts))
      (seq 0 D))
    (seq 0 E).

(** 1) Daily assignment with fixed offs. *)
Definition daily_assignment : list Constraint :=
  flat_map (fun e =>
    flat_map (fun d =>
      if off_at off e d =? 1
      then map (fun s => CEq (LVar (x e d s)) (LConst 0)) (seq 0 num_shifts)
      else [CEq (py_sum (map (fun s => LVar (x e d s)) (seq 0 num_shifts)))
                (LConst 1)])
      (seq 0 D))
    (seq 0 E).

(** 2) No shift change between two adjacent working days. *)
Definition no_shift_change : list Constraint :=
  flat_map (fun e =>
    flat_map (fun d =>
      if (off_at off e d =? 0) && (off_at off e (d + 1) =? 0)
      then map (fun s => CEq (LVar (x e d s)) (LVar (x e (d + 1) s)))
               (seq 0 num_shifts)
      else [])
      (seq 0 (D - 1)))
    (seq 0 E).

(** [sum(off[e][d] for e in range(E))], a sum of ints. *)
Definition off_count (d : nat) : Z :=
  fold_left Z.add (map (fun e => off_at off e d) (seq 0 E)) 0.

(** 3) Per-day off cap. *)
Definition off_cap : list Constraint :=
  map (fun d => CLe (LConst (off_count d)) (LConst max_off)) (seq 0 D).

(** [sum(x[e][d][s] for e in range(E))] *)
Definition day_headcount (d s : nat) : LinearExpr :=
  py_sum (map (fun e => LVar (x e d s)) (seq 0 E)).

(** [sum(x[e][d][s] for d in range(D))] *)
Definition emp_usage (e s : nat) : LinearExpr :=
  py_sum (map (fun d => LVar (x e d s)) (seq 0 D)).

(** 4) Coverage: each shift has at least [min_per_shift] people.  The
    constraints are those of a [min_per_shift] that CP-SAT takes as a
    bound, a 64-bit int ([cp_sat_bound]). *)
Definition coverage : list Constraint :=
  flat_map (fun d =>
    map (fun s => CGe (day_headcount d s) (LConst min_per_shift))
        (seq 0 num_shifts))
    (seq 0 D).

(** A) Day-wise shift balancing. *)
Definition day_balance_decls : list (IntVar * Z * Z) :=
  flat_map (fun d =>
    map (fun s => NewIntVar 0 (Z.of_nat E) (day_tot d s)) (seq 0 num_shifts)
    ++ map (fun '(i, j) => NewIntVar 0 (Z.of_nat E) (day_diff d i j))
           shift_pairs)
    (seq 0 D).

Definition day_balance : list Constraint :=
  flat_map (fun d =>
    map (fun s => CEq (LVar (day_tot d s)) (day_headcount d s))
        (seq 0 num_shifts)
    ++ map (fun '(i, j) =>
              CAbsEq (LVar (day_diff d i j))
                     (LSub (LVar (day_tot d i)) (LVar (day_tot d j))))
           shift_pairs)
    (seq 0 D).

Definition day_diff_vars : list LinearExpr :=
  flat_map (fun d => map (fun '(i, j) => LVar (day_diff d i j)) shift_pairs)
           (seq 0 D).

(** B) Per-employee usage of shifts. *)
Definition emp_balance_decls : list (IntVar * Z * Z) :=
  flat_map (fun e =>
    map (fun s => NewIntVar 0 (Z.of_nat D) (emp_tot e s)) (seq 0 num_shifts)
    ++ map (fun '(i, j) => NewIntVar 0 (Z.of_nat D) (emp_diff e i j))
           shift_pairs)
    (seq 0 E).

Definition emp_balance : list Constraint :=
  flat_map (fun e =>
    map (fun s => CEq (LVar (emp_tot e s)) (emp_usage e s))
        (seq 0 num_shifts)
    ++ map (fun '(i, j) =>
              CAbsEq (LVar (emp_diff e i j))
                     (LSub (LVar (emp_tot e i)) (LVar (emp_tot e j))))
           shift_pairs)
    (seq 0 E).

Definition emp_diff_vars : list LinearExpr :=
  flat_map (fun e => map (fun '(i, j) => LVar (emp_diff e i j)) shift_pairs)
           (seq 0 E).

(** C) 28-day rotation.  [target_s = (start_s + d // 28) % S] *)
Definition target_shift (start_s : Z) (d : nat) : nat :=
  Z.to_nat ((start_s + Z.of_nat (d / 28)) mod Z.of_nat num_shifts).

Definition rotation_decls : list (IntVar * Z * Z) :=
  flat_map (fun e =>
    flat_map (fun d => [NewBoolVar (match_ e d);
                        NewIntVar 0 1 (rot_pen e d)])
             (seq 0 D))
    (seq 0 E).

(** The body of the day loop for employee [e]. *)
Definition rotation_day (e : nat) (start_s : Z) (d : nat) : list Constraint :=
  [ (if off_at off e d =? 0
     then CEq (LVar (match_ e d)) (LVar (x e d (target_shift start_s d)))
     else CEq (LVar (match_ e d)) (LConst 1));
    CEq (LVar (rot_pen e d)) (LSub (LConst 1) (LVar (match_ e d))) ].

(** The loop over the employees; [start_shifts[e]] raises [IndexError]
    when the list is shorter than the employee list. *)
Fixpoint rotation (es : list nat) : Result (list Constraint) :=
  match es with
  | [] => Ok []
  | e :: es' =>
      start_s <- index start_shifts e ;;
      rest <- rotation es' ;;
      Ok (flat_map (rotation_day e start_s) (seq 0 D) ++ rest)
  end.

Definition rotation_mismatch : list LinearExpr :=
  flat_map (fun e => map (fun d => LVar (rot_pen e d)) (seq 0 D)) (seq 0 E).

(** D) Objective: combine all three. *)
Definition weighted_objective : LinearExpr :=
  LAdd (LAdd (LMul 10 (py_sum day_diff_vars))
             (LMul 5 (py_sum emp_diff_vars)))
       (LMul 1 (py_sum rotation_mismatch)).

(** The model as it stands when [solver.Solve] is called. *)
Definition build_model : Result CpModel :=
  rotation_cs <- rotation (seq 0 E) ;;
  Ok {| variables :=
          x_decls ++ day_balance_decls ++ emp_balance_decls ++ rotation_decls;
        constraints :=
          daily_assignment ++ no_shift_change ++ off_cap ++ coverage
          ++ day_balance ++ emp_balance ++ rotation_cs;
        objective := weighted_objective |}.

(** Build [codes[e][d]] from the values of the solver. *)
Definition assigned_s (value : IntVar -> Z) (e d : nat) : option Z :=
  option_map (fun s => Z.of_nat s + 1)
             (find (fun s => value (x e d s) =? 1) (seq 0 num_shifts)).

Definition code (value : IntVar -> Z) (e d : nat) : string :=
  if off_at off e d =? 1 then "W"
  else match assigned_s value e d with
       | None => "W"
       | Some s => py_str s
       end.

Definition build_codes (value : IntVar -> Z) : list (list string) :=
  map (fun e => map (fun d => code value e d) (seq 0 D)) (seq 0 E).

End BuildModel.

Definition no_feasible_rota : Exception :=
  RuntimeError "No feasible rota found (check min_per_shift vs headcount).".

Definition solver_parameters : SatParameters :=
  {| max_time_in_seconds := Float.lit_120_0 |}.

(** The off matrix and the model that [solve] hands to the solver. *)
Definition solve_model (E : nat) (start_shifts : list Z) (dates : list datetime)
           (min_per_shift : Z) (max_off_pct : Float.float)
  : Result (list (list Z) * CpModel) :=
  let D := List.length dates in
  let team_of_emp := assign_patterns E in
  off <- compute_off_matrix E dates team_of_emp ;;
  max_off <- max_off_cap max_off_pct E ;;
  model <- build_model E D off start_shifts min_per_shift max_off ;;
  Ok (off, model).

(** [solve], with the solver it calls as an argument. *)
Definition solve (solver : CpSolver) (employees : list Row)
           (start_shifts : list Z) (dates : list datetime)
           (min_per_shift : Z) (max_off_pct : Float.float)
  : Result (list (list string)) :=
  let E := List.length employees in
  let D := List.length dates in
  '(off, model) <- solve_model E start_shifts dates min_per_shift max_off_pct ;;
  let response := solver solver_parameters model in
  if has_solution (status response)
  then Ok (build_codes E D off (Value response))
  else Raise no_feasible_rota.



(** The default arguments of [solve]. *)
Definition default_min_per_shift : Z := 1.
Definition default_max_off_pct : Float.float := Float.lit_0_30.

(* ================================================================== *)
(** ** The command line run *)

(** [main] from the parsed dates on: the check of the two dates, the
    employees, the horizon and the call to [solve].  The rows of the CSV
    file, the two configuration values and the solver are arguments; the
    result is the code matrix handed to the sheet writer.  The horizon is
    that of a stop date before 9999-12-31; on that last date
    [list(daterange(...))] raises [OverflowError] ([daterange_loop]). *)
Definition main `{StrBuiltins} (solver : CpSolver)
           (start_date stop_date : datetime) (rows : list Row)
           (min_per_shift : Z) (max_off_pct : Float.float)
  : Result (list (list string)) :=
  if stop_date <? start_date
  then Raise (ValueError "stop-date must be >= start-date")
  else
    '(employees, start_shifts) <- load_employees rows ;;
    let dates := daterange start_date stop_date in
    solve solver employees start_shifts dates min_per_shift max_off_pct.

(** A row has what the reading loop asks for. *)
Definition has_id_and_name (row : Row) : bool :=
  truthy (get row "emp_id") && truthy (get row "employee_name").

(** The employees before position [i] that take the round-robin value. *)
Definition fallbacks_before `{StrBuiltins} (employees : list Row) (i : nat) : Z :=
  Z.of_nat (List.length
              (filter (fun emp => match try_starting_shift emp with
                                  | Some _ => false
                                  | None => true
                                  end)
                      (firstn i employees))).

(** The cycle 1, 2, 3, 1, 2, 3, ... at its [k]-th element, from 0. *)
Definition round_robin (k : Z) : Z := 1 + k mod 3.

(* ================================================================== *)
(** ** Reading the schedule *)

(** [codes[e][d]] *)
Definition cell (codes : list (list string)) (e d : nat) : option string :=
  match nth_error codes e with
  | Some row => nth_error row d
  | None => None
  end.

(** The number of employees whose code on day [d] is [c], as the totals
    rows of the sheet count them. *)
Definition count_code (codes : list (list string)) (d : nat) (c : string) : Z :=
  Z.of_nat (List.length
              (filter (fun row => String.eqb (nth d row "") c) codes)).

(** The number of days on which employee [e] has code [c]. *)
Definition count_days (codes : list (list string)) (e : nat) (c : string) : Z :=
  Z.of_nat (List.length (filter (fun c' => String.eqb c' c) (nth e codes []))).

(** The two weekdays of the pattern of employee [e], pattern [e mod 7]. *)
Definition rest_weekdays (e : nat) : Z * Z :=
  nth (e mod 7) OFF_PATTERNS (0, 0).

Definition is_rest_day (e : nat) (dt : datetime) : Prop :=
  weekday dt = fst (rest_weekdays e) \/ weekday dt = snd (rest_weekdays e).

Definition rest_dayb (e : nat) (dt : datetime) : bool :=
  (weekday dt =? fst (rest_weekdays e)) || (weekday dt =? snd (rest_weekdays e)).


(** The off matrix that [solve] computes for [E] employees. *)
Definition off_matrix (E : nat) (dates : list datetime) : list (list Z) :=
  map (fun e => off_row (rest_weekdays e) dates) (seq 0 E).

(** The solver answers the model of these inputs with a valid response. *)
Definition solver_valid_on (solver : CpSolver) (E : nat) (start_shifts : list Z)
           (dates : list datetime) (min_per_shift : Z)
           (max_off_pct : Float.float) : Prop :=
  match solve_model E start_shifts dates min_per_shift max_off_pct with
  | Ok (_, model) => valid_response model (solver solver_parameters model)
  | Raise _ => True
  end.

(** The status that the solver returns for the model of the inputs. *)
Definition solver_status (solver : CpSolver) (E : nat) (start_shifts : list Z)
           (dates : list datetime) (min_per_shift : Z)
           (max_off_pct : Float.float) : option CpSolverStatus :=
  match solve_model E start_shifts dates min_per_shift max_off_pct with
  | Ok (_, model) => Some (status (solver solver_parameters model))
  | Raise _ => None
  end.

(** Sum of [f] over a list of indices. *)
Definition zsum (f : nat -> Z) (l : list nat) : Z :=
  fold_right (fun i acc => f i + acc) 0 l.

(* ================================================================== *)
(** ** The objective *)

(** [str(s + 1)], the code of the shift of index [s]. *)
Definition shift_code (s : nat) : string := py_str (Z.of_nat s + 1).

(** The unordered pairs of the three shifts. *)
Definition unordered_shift_pairs : list (nat * nat) := [(0, 1); (0, 2); (1, 2)]%nat.

Definition pair_sum (f : nat -> nat -> Z) : Z :=
  fold_right (fun '(i, j) acc => f i j + acc) 0 unordered_shift_pairs.

(** Day balance of a schedule: over all days and shift pairs, the absolute
    difference of the two head counts of the day. *)
Definition day_balance_total (codes : list (list string)) (D : nat) : Z :=
  zsum (fun d =>
          pair_sum (fun i j => Z.abs (count_code codes d (shift_code i)
                                      - count_code codes d (shift_code j))))
       (seq 0 D).

(** Employee balance of a schedule: over all employees and shift pairs,
    the absolute difference of the numbers of days worked on the two
    shifts over the horizon. *)
Definition emp_balance_total (codes : list (list string)) (E : nat) : Z :=
  zsum (fun e =>
          pair_sum (fun i j => Z.abs (count_days codes e (shift_code i)
                                      - count_days codes e (shift_code j))))
       (seq 0 E).

(** The rotation mismatch of employee [e] on day [d]: 0 on a rest day; on
    a working day 0 when the code is that of the target shift
    [(start_shifts[e] + d // 28) % 3] and 1 when it is another. *)
Definition mismatch (dates : list datetime) (codes : list (list string))
           (start_shifts : list Z) (e d : nat) : Z :=
  match nth_error dates d, cell codes e d with
  | Some dt, Some c =>
      if rest_dayb e dt then 0
      else if String.eqb c (shift_code (target_shift (nth e start_shifts 0) d))
           then 0 else 1
  | _, _ => 0
  end.

Definition mismatch_total (dates : list datetime) (codes : list (list string))
           (start_shifts : list Z) (E : nat) : Z :=
  zsum (fun e =>
          zsum (fun d => mismatch dates codes start_shifts e d)
               (seq 0 (List.length dates)))
       (seq 0 E).







(** The three totals of the model under an assignment, and the value of
    the objective. *)
Definition day_total (D : nat) (val : IntVar -> Z) : Z :=
  eval val (py_sum (day_diff_vars D)).
Definition emp_total (E : nat) (val : IntVar -> Z) : Z :=
  eval val (py_sum (emp_diff_vars E)).
Definition rot_total (E D : nat) (val : IntVar -> Z) : Z :=
  eval val (py_sum (rotation_mismatch E D)).
Definition objective_value (E D : nat) (val : IntVar -> Z) : Z :=
  eval val (weighted_objective E D).

(** The assignment is a solution of the model that [solve] builds. *)
Definition feasible (val : IntVar -> Z) (E : nat) (start_shifts : list Z)
           (dates : list datetime) (min_per_shift : Z)
           (max_off_pct : Float.float) : bool :=
  match solve_model E start_shifts dates min_per_shift max_off_pct with
  | Ok (_, model) => satisfies val model
  | Raise _ => false
  end.

(** The value of the objective at the answer of the solver. *)
Definition minimized_objective (solver : CpSolver) (E : nat)
           (start_shifts : list Z) (dates : list datetime) (min_per_shift : Z)
           (max_off_pct : Float.float) : option Z :=
  match solve_model E start_shifts dates min_per_shift max_off_pct with
  | Ok (_, model) =>
      Some (eval (Value (solver solver_parameters model)) (objective model))
  | Raise _ => None
  end.

(* ================================================================== *)
(** ** Sample runs *)

(** A solver that answers every call with the same status and values. *)
Definition fixed_solver (st : CpSolverStatus) (val : IntVar -> Z) : CpSolver :=
  fun _ _ => {| status := st; Value := val |}.

(** The values of all the variables of the model once the [x] are chosen:
    the totals, their differences, the matches and the penalties are what
    the constraints of parts A, B and C make them. *)
Definition complete (E D : nat) (off : list (list Z)) (start_shifts : list Z)
           (xv : nat -> nat -> nat -> Z) (v : IntVar) : Z :=
  let dtot d s := zsum (fun e => xv e d s) (seq 0 E) in
  let etot e s := zsum (fun d => xv e d s) (seq 0 D) in
  let mat e d :=
    if off_at off e d =? 0
    then xv e d (target_shift (nth e start_shifts 0) d)
    else 1 in
  match v with
  | x e d s => xv e d s
  | day_tot d s => dtot d s
  | day_diff d i j => Z.abs (dtot d i - dtot d j)
  | emp_tot e s => etot e s
  | emp_diff e i j => Z.abs (etot e i - etot e j)
  | match_ e d => mat e d
  | rot_pen e d => 1 - mat e d
  end.

(** The [x] values of a plan that names the shift (0-based) of every
    employee on every working day. *)
Definition plan_values (off : list (list Z)) (plan : nat -> nat -> nat)
           (e d s : nat) : Z :=
  if off_at off e d =? 1 then 0
  else if (s =? plan e d)%nat then 1 else 0.

(** [n] employees, as [solve] receives them. *)
Definition staff (n : nat) : list Row :=
  map (fun i => [("emp_id", py_str (Z.of_nat i + 1)); ("employee_name", "emp")])
      (seq 0 n).

Module ScenarioA.

(** 7 employees, the week from Monday 2024-01-01 to Sunday 2024-01-07,
    the default parameters; employee [e] works shift [e mod 3]. *)
Definition dates : list datetime := daterange 738886 738892.
Definition start_shifts : list Z := [0; 1; 2; 0; 1; 2; 0].
Definition plan (e d : nat) : nat := (e mod 3)%nat.
Definition values : IntVar -> Z :=
  complete 7 7 (off_matrix 7 dates) start_shifts
           (plan_values (off_matrix 7 dates) plan).
Definition solver : CpSolver := fixed_solver OPTIMAL values.
Definition codes : list (list string) :=
  [ ["1"; "1"; "1"; "1"; "1"; "W"; "W"];
    ["W"; "2"; "2"; "2"; "2"; "2"; "W"];
    ["W"; "W"; "3"; "3"; "3"; "3"; "3"];
    ["1"; "W"; "W"; "1"; "1"; "1"; "1"];
    ["2"; "2"; "W"; "W"; "2"; "2"; "2"];
    ["3"; "3"; "3"; "W"; "W"; "3"; "3"];
    ["1"; "1"; "1"; "1"; "W"; "W"; "1"] ].

End ScenarioA.

Module ScenarioB.

(** 2 employees, one Tuesday, 2 people wanted on each shift. *)
Definition dates : list datetime := [738887].
Definition start_shifts : list Z := [0; 1].
Definition min_per_shift : Z := 2.
Definition proves_infeasible : CpSolver := fixed_solver INFEASIBLE (fun _ => 0).
Definition times_out : CpSolver := fixed_solver UNKNOWN (fun _ => 0).

End ScenarioB.

Module ScenarioC.


(** Seven employees: two valid start shifts, five that are missing, blank,
    not a number or out of range. *)
Definition rows : list Row :=
  [ [("emp_id", "1"); ("employee_name", "Ann"); ("starting_shift", "2")];
    [("emp_id", "2"); ("employee_name", "Bob"); ("starting_shift", " 9 ")];
    [("emp_id", "3"); ("employee_name", "Cy")];
    [("emp_id", "4"); ("employee_name", "Di"); ("starting_shift", "x")];
    [("emp_id", "5"); ("employee_name", "Ed"); ("starting_shift", "")];
    [("emp_id", "6"); ("employee_name", "Flo"); ("starting_shift", "3")];
    [("emp_id", "7"); ("employee_name", "Gus"); ("starting_shift", "0")] ].

End ScenarioC.

Module ScenarioNine.

(** 9 employees and a horizon of one day, Sunday 2024-01-07. *)
Definition dates : list datetime := [738892].
Definition start_shifts : list Z := [0; 1; 2; 0; 1; 2; 0; 1; 2].
Definition solver : CpSolver := fixed_solver INFEASIBLE (fun _ => 0).

End ScenarioNine.

Module Weights.

(** Three more plans for the week of scenario A, shift by employee and
    day (the entries of off days are not read). *)
Definition table_plan (t : list (list nat)) (e d : nat) : nat :=
  nth d (nth e t []) 0%nat.

Definition values_of (t : list (list nat)) : IntVar -> Z :=
  complete 7 7 (off_matrix 7 ScenarioA.dates) ScenarioA.start_shifts
           (plan_values (off_matrix 7 ScenarioA.dates) (table_plan t)).

Definition even_days : IntVar -> Z :=
  values_of [ [1; 1; 1; 1; 1; 1; 1]; [0; 0; 0; 0; 0; 0; 0];
              [1; 1; 1; 1; 1; 1; 1]; [2; 2; 2; 2; 2; 2; 2];
              [0; 0; 0; 0; 0; 0; 0]; [1; 1; 1; 1; 1; 1; 1];
              [2; 2; 2; 2; 2; 2; 2] ]%nat.

Definition on_target : IntVar -> Z :=
  values_of [ [0; 0; 0; 0; 0; 0; 0]; [1; 1; 1; 1; 1; 1; 1];
              [2; 2; 2; 2; 2; 2; 2]; [1; 0; 0; 0; 0; 0; 0];
              [2; 2; 0; 0; 1; 1; 1]; [2; 2; 2; 0; 0; 1; 1];
              [0; 0; 0; 0; 0; 0; 2] ]%nat.

Definition off_target : IntVar -> Z :=
  values_of [ [1; 1; 1; 1; 1; 1; 1]; [0; 0; 0; 0; 0; 0; 0];
              [0; 0; 0; 0; 0; 0; 0]; [1; 1; 1; 1; 1; 1; 1];
              [2; 2; 2; 2; 2; 2; 2]; [0; 0; 0; 0; 0; 0; 0];
              [2; 2; 2; 2; 0; 0; 1] ]%nat.

Definition is_feasible (val : IntVar -> Z) : bool :=
  feasible val 7 ScenarioA.start_shifts ScenarioA.dates
           default_min_per_shift default_max_off_pct.

End Weights.

(* ================================================================== *)
(** ** The loops of the helpers, step by step *)

(** [list(daterange(d, end))] as the loop it is: while [d <= end], [d]
    is yielded and moved one day on; [d += timedelta(days=1)] raises
    [OverflowError] when the day after [d] is past 9999-12-31, and the
    error leaves the generator and [list].  [fuel] bounds the number of
    tests of the condition; [None] when it runs out. *)
Fixpoint daterange_loop (fuel : nat) (d stop : datetime)
  : option (Result (list datetime)) :=
  match fuel with
  | O => None
  | S fuel' =>
      if d <=? stop
      then
        if MAXORDINAL <? d + 1
        then Some (Raise OverflowError)
        else
          match daterange_loop fuel' (d + 1) stop with
          | Some (Ok days) => Some (Ok (d :: days))
          | Some (Raise exn) => Some (Raise exn)
          | None => None
          end
      else Some (Ok [])
  end.

(** The number of employees that [assign_patterns] puts in team [p]. *)
Definition team_size (num_employees p : nat) : nat :=
  List.length (filter (Nat.eqb p) (assign_patterns num_employees)).

(** The number of days of the window of [len] days from day [j] on which
    employee [e] has code [c]. *)
Definition count_in_window (codes : list (list string)) (e j len : nat)
           (c : string) : Z :=
  zsum (fun d => match cell codes e d with
                 | Some c' => if String.eqb c' c then 1 else 0
                 | None => 0
                 end)
       (seq j len).


(** *** The name of the output file

    Texts are read byte by byte; [str.lower] is taken on the ASCII
    letters, which is all that the test against ".xlsx" depends on. *)
Definition lower_char (c : ascii) : ascii :=
  let n := nat_of_ascii c in
  if ((65 <=? n) && (n <=? 90))%nat then ascii_of_nat (n + 32) else c.

(** [s.lower()] *)
Fixpoint lower (s : string) : string :=
  match s with
  | EmptyString => EmptyString
  | String c rest => String (lower_char c) (lower rest)
  end.

(** [s.endswith(suffix)] *)
Fixpoint endswith (s suffix : string) : bool :=
  if String.eqb s suffix then true
  else match s with
       | EmptyString => false
       | String _ rest => endswith rest suffix
       end.

(** ["." in s] *)
Fixpoint has_dot (s : string) : bool :=
  match s with
  | EmptyString => false
  | String c rest => Ascii.eqb c "."%char || has_dot rest
  end.

(** [s.rsplit(".", 1)[0]]: the text before the last "."; all of [s] when
    it has no ".". *)
Fixpoint rsplit_dot_head (s : string) : string :=
  match s with
  | EmptyString => EmptyString
  | String c rest =>
      if has_dot rest then String c (rsplit_dot_head rest)
      else if Ascii.eqb c "."%char then EmptyString
      else s
  end.

(** The lines of [main] that force the [.xlsx] extension. *)
Definition force_xlsx (output_file : string) : string :=
  if negb (endswith (lower output_file) ".xlsx")
  then (rsplit_dot_head output_file ++ ".xlsx")%string
  else output_file.

(** *** The sheets of the workbook

    [write_xlsx] makes one sheet per month of the horizon and, under the
    rows of the employees, four rows of totals.  The grouping of the days
    by month and the counting of the totals are modelled; the cells, their
    fills and the column widths are left to the spreadsheet library. *)

(** [enumerate(l)] *)
Definition enumerate {A : Type} (l : list A) : list (nat * A) :=
  combine (seq 0 (List.length l)) l.

Definition key_eqb (a b : Z * Z) : bool :=
  (fst a =? fst b) && (snd a =? snd b).

(** [a <= b] on pairs of ints, as Python compares tuples. *)
Definition key_leb (a b : Z * Z) : bool :=
  (fst a <? fst b) || ((fst a =? fst b) && (snd a <=? snd b)).

Definition key_ltb (a b : Z * Z) : bool :=
  (fst a <? fst b) || ((fst a =? fst b) && (snd a <? snd b)).

(** A dict from [(year, month)] to a list of [(dt, idx)], its keys in the
    order of their insertion. *)
Definition MonthMap : Type := list ((Z * Z) * list (datetime * nat)).

(** [month_map.get(key)] *)
Fixpoint month_get (m : MonthMap) (key : Z * Z)
  : option (list (datetime * nat)) :=
  match m with
  | [] => None
  | (k, items) :: rest => if key_eqb k key then Some items else month_get rest key
  end.

(** A list when it is not empty. *)
Definition nonempty (l : list (datetime * nat))
  : option (list (datetime * nat)) :=
  match l with
  | [] => None
  | _ => Some l
  end.

(** [month_map.setdefault(key, []).append(item)] *)
Fixpoint setdefault_append (m : MonthMap) (key : Z * Z)
         (item : datetime * nat) : MonthMap :=
  match m with
  | [] => [(key, [item])]
  | (k, items) :: rest =>
      if key_eqb k key then (k, items ++ [item]) :: rest
      else (k, items) :: setdefault_append rest key item
  end.

(** [sorted(...)] of the items of the dict: the keys are distinct, so the
    order is that of the keys; an insertion sort that keeps equal keys in
    their order. *)
Fixpoint insert_item (it : (Z * Z) * list (datetime * nat)) (l : MonthMap)
  : MonthMap :=
  match l with
  | [] => [it]
  | it' :: rest =>
      if key_leb (fst it) (fst it') then it :: l
      else it' :: insert_item it rest
  end.

Definition sorted_items (m : MonthMap) : MonthMap :=
  fold_right insert_item [] m.

Section MonthSheets.

(** [dt.year] and [dt.month] *)
Variables (year month : datetime -> Z).

Definition month_key (dt : datetime) : Z * Z := (year dt, month dt).

(** The loop that fills [month_map]. *)
Definition month_map (dates : list datetime) : MonthMap :=
  fold_left (fun m '(idx, dt) => setdefault_append m (month_key dt) (dt, idx))
            (enumerate dates) [].

(** The [(year, month), day_list] pairs in the order of the sheets. *)
Definition month_sheets (dates : list datetime) : MonthMap :=
  sorted_items (month_map dates).

(** The days of the horizon that fall in the month [key], with their
    indices, in the order of the horizon. *)
Definition days_of_month (dates : list datetime) (key : Z * Z)
  : list (datetime * nat) :=
  filter (fun '(dt, _) => key_eqb (month_key dt) key)
         (map (fun '(idx, dt) => (dt, idx)) (enumerate dates)).

End MonthSheets.

(** The rows of totals: label and code. *)
Definition total_rows : list (string * string) :=
  [ ("Shift 1 Total", "1"); ("Shift 2 Total", "2");
    ("Shift 3 Total", "3"); ("Leave Total", "W") ].

(** [sum(1 for e in range(len(employees)) if codes[e][global_d] == code)],
    over the employee indices [es]. *)
Fixpoint column_total_loop (codes : list (list string)) (global_d : nat)
         (c : string) (es : list nat) : Result Z :=
  match es with
  | [] => Ok 0
  | e :: es' =>
      row <- index codes e ;;
      c' <- index row global_d ;;
      rest <- column_total_loop codes global_d c es' ;;
      Ok ((if String.eqb c' c then 1 else 0) + rest)
  end.

Definition column_total (employees : list Row) (codes : list (list string))
           (global_d : nat) (c : string) : Result Z :=
  column_total_loop codes global_d c (seq 0 (List.length employees)).

(** The proleptic Gregorian calendar of [datetime], for the examples:
    year, month and day of an ordinal. *)
Module Gregorian.

Definition ymd (ordinal : Z) : Z * Z * Z :=
  let z := ordinal - 719163 + 719468 in
  let era := z / 146097 in
  let doe := z - era * 146097 in
  let yoe := (doe - doe / 1460 + doe / 36524 - doe / 146096) / 365 in
  let doy := doe - (365 * yoe + yoe / 4 - yoe / 100) in
  let mp := (5 * doy + 2) / 153 in
  let d := doy - (153 * mp + 2) / 5 + 1 in
  let m := if mp <? 10 then mp + 3 else mp - 9 in
  let y := yoe + era * 400 + (if m <=? 2 then 1 else 0) in
  (y, m, d).

Definition year (dt : datetime) : Z := fst (fst (ymd dt)).
Definition month (dt : datetime) : Z := snd (fst (ymd dt)).
Definition day (dt : datetime) : Z := snd (ymd dt).

End Gregorian.

(** *** The rotation penalty in the words of the rule

    The target of employee [e] on day [d] is
    [(starting shift + (d div 28)) mod 3], on the 0-based start shifts
    that [solve] receives and as a 0-based shift; its code is the target
    plus 1. *)
Definition rotation_target (start_shifts : list Z) (e d : nat) : Z :=
  (nth e start_shifts 0 + Z.of_nat d / 28) mod 3.

(** 1 when day [d] is a working day of employee [e] and the code is not
    that of the target shift; 0 when the code is that of the target and 0
    on every rest day. *)
Definition rotation_penalty (dates : list datetime) (codes : list (list string))
           (start_shifts : list Z) (e d : nat) : Z :=
  match nth_error dates d, cell codes e d with
  | Some dt, Some c =>
      if rest_dayb e dt then 0
      else if String.eqb c (py_str (rotation_target start_shifts e d + 1))
           then 0 else 1
  | _, _ => 0
  end.

Definition rotation_penalty_total (dates : list datetime)
           (codes : list (list string)) (start_shifts : list Z) (E : nat) : Z :=
  zsum (fun e =>
          zsum (fun d => rotation_penalty dates codes start_shifts e d)
               (seq 0 (List.length dates)))
       (seq 0 E).

(** *** The ceiling of a float in integers

    [n] is the least integer not below the value [(-1)^s * m * 2^e] of
    the float: [n - 1 < value <= n].  No integer is the ceiling of an
    infinity or of NaN. *)
Definition ceiling_of (f : spec_float) (n : Z) : Prop :=
  match f with
  | S754_zero _ => n = 0
  | S754_finite s m e =>
      let v := if s then Z.neg m else Z.pos m in
      if 0 <=? e then n = v * 2 ^ e
      else (n - 1) * 2 ^ (- e) < v <= n * 2 ^ (- e)
  | S754_infinity _ => False
  | S754_nan => False
  end.

(** The ints that CP-SAT takes as the bound of a comparison
    [expr >= bound]: those of 64 bits, short of the two ends.  [solve]
    compares each head count with [min_per_shift]; with a bound that is
    not one of these, [model.Add] raises where [coverage] is built, as
    soon as there is an employee and a day. *)
Definition cp_sat_bound (n : Z) : Prop := - 2 ^ 63 < n < 2 ^ 63 - 1.

Module ScenarioFiveWeeks.

(** The 7 employees of scenario A over five weeks from Monday 2024-01-01,
    each on the shift of scenario A throughout: the last week falls in the
    second 28-day block, where every target has moved on. *)
Definition dates : list datetime := daterange 738886 738920.
Definition values : IntVar -> Z :=
  complete 7 35 (off_matrix 7 dates) ScenarioA.start_shifts
           (plan_values (off_matrix 7 dates) ScenarioA.plan).
Definition solver : CpSolver := fixed_solver FEASIBLE values.
Definition codes : list (list string) :=
  build_codes 7 35 (off_matrix 7 dates) values.

End ScenarioFiveWeeks.

(* ================================================================== *)
(** ** Computed examples *)

Example load_seven :
  match load_employees
    [ [("emp_id", "1"); ("employee_name", "Ann"); ("starting_shift", "2")];
      [("emp_id", "2"); ("employee_name", "Bob"); ("starting_shift", " 9 ")];
      [("emp_id", "3"); ("employee_name", "Cy")];
      [("emp_id", "4"); ("employee_name", "Di"); ("starting_shift", "x")];
      [("emp_id", "5"); ("employee_name", "Ed"); ("starting_shift", "")];
      [("emp_id", "6"); ("employee_name", "Flo"); ("starting_shift", "3")];
      [("emp_id", "7"); ("employee_name", "Gus"); ("starting_shift", "0")] ]
  with
  | Ok (_, start_shifts) => start_shifts = [1; 0; 1; 2; 0; 2; 1]
  | Raise _ => False
  end.
Proof. vm_compute. reflexivity. Qed.

Example load_empty : load_employees [] = Raise (ValueError "employees.csv is empty").
Proof. reflexivity. Qed.

Example ceil_030_times_9 : max_off_cap Float.lit_0_30 9 = Ok 3.
Proof. vm_compute. reflexivity. Qed.

Example ceil_030_times_7 : max_off_cap Float.lit_0_30 7 = Ok 3.
Proof. vm_compute. reflexivity. Qed.

Example ceil_030_times_10 : max_off_cap Float.lit_0_30 10 = Ok 3.
Proof. vm_compute. reflexivity. Qed.

Example ceil_1_times_2 : max_off_cap Float.lit_1_0 2 = Ok 2.
Proof. vm_compute. reflexivity. Qed.

Example off_matrix_3_emps :
  compute_off_matrix 3 (daterange 738886 738892) (assign_patterns 3)
  = Ok [ [0;0;0;0;0;1;1]; [1;0;0;0;0;0;1]; [1;1;0;0;0;0;0] ].
Proof. vm_compute. reflexivity. Qed.

Example scenario_A_solved :
  solve ScenarioA.solver (staff 7) ScenarioA.start_shifts ScenarioA.dates
        default_min_per_shift default_max_off_pct
  = Ok ScenarioA.codes.
Proof. vm_compute. reflexivity. Qed.

Example scenario_A_valid :
  solver_valid_on ScenarioA.solver 7 ScenarioA.start_shifts ScenarioA.dates
                  default_min_per_shift default_max_off_pct.
Proof. vm_compute. intros _. reflexivity. Qed.

(* ================================================================== *)
(** ** Lists, sums and results *)

Lemma bind_ok {A B : Type} (r : Result A) (k : A -> Result B) (b : B) :
  bind r k = Ok b -> exists a, r = Ok a /\ k a = Ok b.
Proof.
  destruct r as [a | exn]; simpl; intros Hk.
  - exists a. split; [reflexivity | exact Hk].
  - discriminate Hk.
Qed.

Lemma index_ok {A : Type} (l : list A) (i : nat) (a : A) :
  index l i = Ok a <-> nth_error l i = Some a.
Proof.
  unfold index. destruct (nth_error l i); split; intros Heq;
    try discriminate; injection Heq as ->; reflexivity.
Qed.

Lemma forallb_flat_map {A B : Type} (p : B -> bool) (g : A -> list B)
      (l : list A) :
  forallb p (flat_map g l) = forallb (fun a => forallb p (g a)) l.
Proof.
  induction l as [| a l IH]; simpl; [reflexivity |].
  rewrite forallb_app, IH. reflexivity.
Qed.

Lemma forallb_map {A B : Type} (p : B -> bool) (g : A -> B) (l : list A) :
  forallb p (map g l) = forallb (fun a => p (g a)) l.
Proof.
  induction l as [| a l IH]; simpl; [reflexivity |]. rewrite IH. reflexivity.
Qed.

Lemma forallb_seq (p : nat -> bool) (n i : nat) :
  forallb p (seq 0 n) = true -> (i < n)%nat -> p i = true.
Proof.
  intros Hall Hi. rewrite forallb_forall in Hall.
  apply Hall. apply in_seq. lia.
Qed.

Lemma fold_left_LAdd (val : IntVar -> Z) (l : list LinearExpr) (acc : LinearExpr) :
  eval val (fold_left LAdd l acc)
  = eval val acc + fold_right (fun ex s => eval val ex + s) 0 l.
Proof.
  revert acc. induction l as [| ex l IH]; intros acc; simpl.
  - lia.
  - rewrite IH. simpl. lia.
Qed.

Lemma eval_py_sum (val : IntVar -> Z) (l : list LinearExpr) :
  eval val (py_sum l) = fold_right (fun ex s => eval val ex + s) 0 l.
Proof. unfold py_sum. rewrite fold_left_LAdd. reflexivity. Qed.

Lemma eval_py_sum_vars (val : IntVar -> Z) (v : nat -> IntVar) (l : list nat) :
  eval val (py_sum (map (fun i => LVar (v i)) l)) = zsum (fun i => val (v i)) l.
Proof.
  rewrite eval_py_sum. induction l as [| i l IH]; simpl; [reflexivity |].
  rewrite IH. reflexivity.
Qed.

Lemma fold_left_Zadd (l : list Z) (acc : Z) :
  fold_left Z.add l acc = acc + fold_right Z.add 0 l.
Proof.
  revert acc. induction l as [| z l IH]; intros acc; simpl; [lia |].
  rewrite IH. lia.
Qed.

Lemma zsum_ext (f g : nat -> Z) (l : list nat) :
  (forall i, In i l -> f i = g i) -> zsum f l = zsum g l.
Proof.
  induction l as [| i l IH]; intros Hfg; simpl; [reflexivity |].
  rewrite (Hfg i (or_introl eq_refl)), IH; [reflexivity |].
  intros j Hj. apply Hfg. right. exact Hj.
Qed.

Lemma zsum_app (f : nat -> Z) (l1 l2 : list nat) :
  zsum f (l1 ++ l2) = zsum f l1 + zsum f l2.
Proof.
  induction l1 as [| i l1 IH]; simpl; [reflexivity |]. rewrite IH. lia.
Qed.

(** Counting the elements that pass a test is summing its 0/1 indicator. *)
Lemma count_filter_zsum {A : Type} (p : A -> bool) (g : nat -> A)
      (f : nat -> Z) (l : list nat) :
  (forall i, In i l -> f i = if p (g i) then 1 else 0) ->
  Z.of_nat (List.length (filter p (map g l))) = zsum f l.
Proof.
  induction l as [| i l IH]; intros Hf; [reflexivity |].
  simpl map. simpl filter. simpl zsum.
  rewrite (Hf i (or_introl eq_refl)).
  assert (Hl : forall j, In j l -> f j = if p (g j) then 1 else 0)
    by (intros j Hj; apply Hf; right; exact Hj).
  specialize (IH Hl).
  destruct (p (g i)); simpl List.length; lia.
Qed.

(* ================================================================== *)
(** ** The off matrix of [solve] *)

Lemma index_assign_patterns (E e : nat) :
  (e < E)%nat -> index (assign_patterns E) e = Ok (e mod 7)%nat.
Proof.
  intros He. apply index_ok. unfold assign_patterns.
  rewrite nth_error_map.
  rewrite (nth_error_nth' (seq 0 E) 0%nat) by (rewrite length_seq; exact He).
  rewrite seq_nth by exact He. reflexivity.
Qed.

Lemma index_off_patterns (e : nat) :
  index OFF_PATTERNS (e mod 7) = Ok (rest_weekdays e).
Proof.
  apply index_ok. unfold rest_weekdays.
  apply nth_error_nth'. simpl List.length.
  apply Nat.mod_upper_bound. discriminate.
Qed.

Lemma off_rows_assign_patterns (E : nat) (dates : list datetime) (es : list nat) :
  (forall e, In e es -> (e < E)%nat) ->
  off_rows es dates (assign_patterns E)
  = Ok (map (fun e => off_row (rest_weekdays e) dates) es).
Proof.
  induction es as [| e es IH]; intros Hes; cbn [off_rows map];
    [reflexivity |].
  rewrite index_assign_patterns by (apply Hes; left; reflexivity).
  cbn [bind]. rewrite index_off_patterns. cbn [bind].
  rewrite IH by (intros e' He'; apply Hes; right; exact He').
  reflexivity.
Qed.

(** With the teams of [assign_patterns] no subscript is out of range. *)
Lemma compute_off_matrix_ok (E : nat) (dates : list datetime) :
  compute_off_matrix E dates (assign_patterns E)
  = Ok (map (fun e => off_row (rest_weekdays e) dates) (seq 0 E)).
Proof.
  apply off_rows_assign_patterns. intros e He. apply in_seq in He. lia.
Qed.

Lemma rest_dayb_spec (e : nat) (dt : datetime) :
  rest_dayb e dt = true <-> is_rest_day e dt.
Proof.
  unfold rest_dayb, is_rest_day.
  rewrite orb_true_iff, !Z.eqb_eq. reflexivity.
Qed.

Lemma off_at_solve (E : nat) (dates : list datetime) (e d : nat) (dt : datetime) :
  (e < E)%nat -> nth_error dates d = Some dt ->
  off_at (map (fun e => off_row (rest_weekdays e) dates) (seq 0 E)) e d
  = if rest_dayb e dt then 1 else 0.
Proof.
  intros He Hd. unfold off_at.
  assert (Hrow : nth e (map (fun e => off_row (rest_weekdays e) dates) (seq 0 E)) []
                 = off_row (rest_weekdays e) dates).
  { rewrite (nth_indep _ [] (off_row (rest_weekdays 0) dates))
      by (rewrite length_map, length_seq; exact He).
    rewrite (map_nth (fun e => off_row (rest_weekdays e) dates)).
    rewrite seq_nth by exact He. reflexivity. }
  rewrite Hrow. unfold off_row, rest_dayb.
  destruct (rest_weekdays e) as [off1 off2]. simpl fst. simpl snd.
  apply nth_error_nth.
  rewrite nth_error_map, Hd. reflexivity.
Qed.

(** [solve_model] succeeds exactly through its three steps. *)
Lemma solve_model_inv (E : nat) (start_shifts : list Z) (dates : list datetime)
      (min_per_shift : Z) (max_off_pct : Float.float)
      (off : list (list Z)) (m : CpModel) :
  solve_model E start_shifts dates min_per_shift max_off_pct = Ok (off, m) ->
  off = map (fun e => off_row (rest_weekdays e) dates) (seq 0 E) /\
  exists max_off,
    max_off_cap max_off_pct E = Ok max_off /\
    build_model E (List.length dates) off start_shifts min_per_shift max_off
    = Ok m.
Proof.
  unfold solve_model. rewrite compute_off_matrix_ok. simpl.
  intros Hm. apply bind_ok in Hm. destruct Hm as [max_off [Hcap Hm]].
  apply bind_ok in Hm. destruct Hm as [m' [Hbuild Hm]].
  injection Hm as <- <-. split; [reflexivity |].
  exists max_off. split; assumption.
Qed.

Lemma solve_inv (solver : CpSolver) (employees : list Row)
      (start_shifts : list Z) (dates : list datetime) (min_per_shift : Z)
      (max_off_pct : Float.float) (codes : list (list string)) :
  solve solver employees start_shifts dates min_per_shift max_off_pct = Ok codes ->
  exists off m,
    solve_model (List.length employees) start_shifts dates min_per_shift
                max_off_pct = Ok (off, m) /\
    has_solution (status (solver solver_parameters m)) = true /\
    codes = build_codes (List.length employees) (List.length dates) off
                        (Value (solver solver_parameters m)).
Proof.
  unfold solve. intros Hs. apply bind_ok in Hs.
  destruct Hs as [[off m] [Hmodel Hs]]. exists off, m.
  destruct (has_solution (status (solver solver_parameters m))).
  - injection Hs as <-. repeat split; assumption || reflexivity.
  - discriminate Hs.
Qed.

(* ================================================================== *)
(** ** What a solution of the model satisfies *)

Lemma rotation_holds (D : nat) (off : list (list Z)) (start_shifts : list Z)
      (val : IntVar -> Z) (es : list nat) (rc : list Constraint) :
  rotation D off start_shifts es = Ok rc ->
  forallb (holds val) rc = true ->
  forall e, In e es ->
    exists start_s,
      nth_error start_shifts e = Some start_s /\
      forall d, (d < D)%nat ->
        forallb (holds val) (rotation_day off e start_s d) = true.
Proof.
  revert rc. induction es as [| e0 es IH]; intros rc Hrc Hall e He.
  - destruct He.
  - cbn [rotation] in Hrc.
    apply bind_ok in Hrc. destruct Hrc as [start_s [Hidx Hrc]].
    apply bind_ok in Hrc. destruct Hrc as [rest [Hrest Hrc]].
    injection Hrc as <-. rewrite forallb_app in Hall.
    apply andb_true_iff in Hall. destruct Hall as [Hhere Hthere].
    destruct He as [<- | He].
    + exists start_s. split; [apply index_ok; exact Hidx |].
      intros d Hd. rewrite forallb_flat_map in Hhere.
      exact (forallb_seq _ _ _ Hhere Hd).
    + exact (IH rest Hrest Hthere e He).
Qed.

Lemma shift_cases (s : nat) :
  (s < num_shifts)%nat -> s = 0%nat \/ s = 1%nat \/ s = 2%nat.
Proof. unfold num_shifts. lia. Qed.

Lemma shift_pair_cases (i j : nat) :
  In (i, j) shift_pairs <->
  (i = 0 /\ j = 1)%nat \/ (i = 0 /\ j = 2)%nat \/ (i = 1 /\ j = 2)%nat.
Proof.
  cbn. split.
  - intros [Hp | [Hp | [Hp | []]]]; injection Hp as <- <-; lia.
  - intros [[-> ->] | [[-> ->] | [-> ->]]]; auto.
Qed.

Section Solution.

Variables (E D : nat) (off : list (list Z)) (start_shifts : list Z).
Variables (min_per_shift max_off : Z).
Variables (m : CpModel) (val : IntVar -> Z).

Hypothesis Hbuild :
  build_model E D off start_shifts min_per_shift max_off = Ok m.
Hypothesis Hsat : satisfies val m = true.

Lemma model_parts :
  exists rc,
    rotation D off start_shifts (seq 0 E) = Ok rc /\
    forallb (in_domain val)
            (x_decls E D ++ day_balance_decls E D ++ emp_balance_decls E D
             ++ rotation_decls E D) = true /\
    forallb (holds val)
            (daily_assignment E D off ++ no_shift_change E D off
             ++ off_cap E D off max_off ++ coverage E D min_per_shift
             ++ day_balance E D ++ emp_balance E D ++ rc) = true.
Proof.
  unfold build_model in Hbuild. apply bind_ok in Hbuild.
  destruct Hbuild as [rc [Hrot Hm]]. injection Hm as <-.
  unfold satisfies in Hsat. cbn [variables constraints] in Hsat.
  apply andb_true_iff in Hsat. exists rc. tauto.
Qed.

(** Every [x[e][d][s]] is 0 or 1. *)
Lemma x_bool (e d s : nat) :
  (e < E)%nat -> (d < D)%nat -> (s < num_shifts)%nat ->
  val (x e d s) = 0 \/ val (x e d s) = 1.
Proof.
  intros He Hd Hs. destruct model_parts as [rc [_ [Hdom _]]].
  rewrite !forallb_app in Hdom. apply andb_true_iff in Hdom.
  destruct Hdom as [Hx _]. unfold x_decls in Hx.
  rewrite forallb_flat_map in Hx. apply (forallb_seq _ _ _ Hx) in He.
  rewrite forallb_flat_map in He. apply (forallb_seq _ _ _ He) in Hd.
  rewrite forallb_map in Hd. apply (forallb_seq _ _ _ Hd) in Hs.
  cbn in Hs. lia.
Qed.

(** 1) On an off day the three variables are 0; on a working day they
    add up to 1. *)
Lemma daily_assignment_holds (e d : nat) :
  (e < E)%nat -> (d < D)%nat ->
  if off_at off e d =? 1
  then forall s, (s < num_shifts)%nat -> val (x e d s) = 0
  else val (x e d 0) + val (x e d 1) + val (x e d 2) = 1.
Proof.
  intros He Hd. destruct model_parts as [rc [_ [_ Hcs]]].
  rewrite !forallb_app in Hcs. apply andb_true_iff in Hcs.
  destruct Hcs as [Hc _]. unfold daily_assignment in Hc.
  rewrite forallb_flat_map in Hc. apply (forallb_seq _ _ _ Hc) in He.
  rewrite forallb_flat_map in He. apply (forallb_seq _ _ _ He) in Hd.
  destruct (off_at off e d =? 1).
  - intros s Hs. rewrite forallb_map in Hd.
    apply (forallb_seq _ _ _ Hd) in Hs. cbn in Hs. lia.
  - cbn in Hd. lia.
Qed.

(** 2) Adjacent working days carry the same values. *)
Lemma no_shift_change_holds (e d s : nat) :
  (e < E)%nat -> (d + 1 < D)%nat -> (s < num_shifts)%nat ->
  off_at off e d = 0 -> off_at off e (d + 1) = 0 ->
  val (x e d s) = val (x e (d + 1) s).
Proof.
  intros He Hd Hs Hoff Hoff'. destruct model_parts as [rc [_ [_ Hcs]]].
  rewrite !forallb_app in Hcs.
  apply andb_true_iff in Hcs. destruct Hcs as [_ Hcs].
  apply andb_true_iff in Hcs. destruct Hcs as [Hc _].
  unfold no_shift_change in Hc.
  rewrite forallb_flat_map in Hc. apply (forallb_seq _ _ _ Hc) in He.
  rewrite forallb_flat_map in He.
  assert (Hd' : (d < D - 1)%nat) by lia.
  apply (forallb_seq _ _ _ He) in Hd'.
  rewrite Hoff, Hoff' in Hd'. cbn [Z.eqb andb] in Hd'.
  rewrite forallb_map in Hd'. apply (forallb_seq _ _ _ Hd') in Hs.
  cbn in Hs. lia.
Qed.

(** 3) The off cap. *)
Lemma off_cap_holds (d : nat) :
  (d < D)%nat -> off_count E off d <= max_off.
Proof.
  intros Hd. destruct model_parts as [rc [_ [_ Hcs]]].
  rewrite !forallb_app in Hcs.
  apply andb_true_iff in Hcs. destruct Hcs as [_ Hcs].
  apply andb_true_iff in Hcs. destruct Hcs as [_ Hcs].
  apply andb_true_iff in Hcs. destruct Hcs as [Hc _].
  unfold off_cap in Hc. rewrite forallb_map in Hc.
  apply (forallb_seq _ _ _ Hc) in Hd. cbn in Hd. lia.
Qed.

(** 4) The coverage floor. *)
Lemma coverage_holds (d s : nat) :
  (d < D)%nat -> (s < num_shifts)%nat ->
  zsum (fun e => val (x e d s)) (seq 0 E) >= min_per_shift.
Proof.
  intros Hd Hs. destruct model_parts as [rc [_ [_ Hcs]]].
  rewrite !forallb_app in Hcs.
  apply andb_true_iff in Hcs. destruct Hcs as [_ Hcs].
  apply andb_true_iff in Hcs. destruct Hcs as [_ Hcs].
  apply andb_true_iff in Hcs. destruct Hcs as [_ Hcs].
  apply andb_true_iff in Hcs. destruct Hcs as [Hc _].
  unfold coverage in Hc.
  rewrite forallb_flat_map in Hc. apply (forallb_seq _ _ _ Hc) in Hd.
  rewrite forallb_map in Hd. apply (forallb_seq _ _ _ Hd) in Hs.
  cbn [holds] in Hs. unfold day_headcount in Hs.
  rewrite eval_py_sum_vars in Hs. cbn [eval] in Hs. lia.
Qed.

(** On a working day exactly one variable is 1 and the extraction loop
    finds it. *)
Lemma working_day_shift (e d : nat) :
  (e < E)%nat -> (d < D)%nat -> off_at off e d <> 1 ->
  exists s,
    (s < num_shifts)%nat /\
    val (x e d s) = 1 /\
    (forall s', (s' < num_shifts)%nat -> s' <> s -> val (x e d s') = 0) /\
    assigned_s val e d = Some (Z.of_nat s + 1).
Proof.
  intros He Hd Hoff.
  pose proof (daily_assignment_holds e d He Hd) as Hsum.
  apply Z.eqb_neq in Hoff. rewrite Hoff in Hsum.
  assert (H0 := x_bool e d 0%nat He Hd ltac:(unfold num_shifts; lia)).
  assert (H1 := x_bool e d 1%nat He Hd ltac:(unfold num_shifts; lia)).
  assert (H2 := x_bool e d 2%nat He Hd ltac:(unfold num_shifts; lia)).
  assert (Hcase : (val (x e d 0) = 1 /\ val (x e d 1) = 0 /\ val (x e d 2) = 0)
               \/ (val (x e d 0) = 0 /\ val (x e d 1) = 1 /\ val (x e d 2) = 0)
               \/ (val (x e d 0) = 0 /\ val (x e d 1) = 0 /\ val (x e d 2) = 1))
    by lia.
  unfold assigned_s. cbn [seq num_shifts find].
  destruct Hcase as [[V0 [V1 V2]] | [[V0 [V1 V2]] | [V0 [V1 V2]]]].
  - exists 0%nat. rewrite V0. cbn.
    split; [unfold num_shifts; lia | split; [reflexivity | split; [| reflexivity]]].
    intros s' Hs' Hne. destruct (shift_cases s' Hs') as [-> | [-> | ->]]; congruence.
  - exists 1%nat. rewrite V0, V1. cbn.
    split; [unfold num_shifts; lia | split; [reflexivity | split; [| reflexivity]]].
    intros s' Hs' Hne. destruct (shift_cases s' Hs') as [-> | [-> | ->]]; congruence.
  - exists 2%nat. rewrite V0, V1, V2. cbn.
    split; [unfold num_shifts; lia | split; [reflexivity | split; [| reflexivity]]].
    intros s' Hs' Hne. destruct (shift_cases s' Hs') as [-> | [-> | ->]]; congruence.
Qed.

(** The code is "W" exactly on the days marked off. *)
Lemma code_W_iff (e d : nat) :
  (e < E)%nat -> (d < D)%nat ->
  (code off val e d = "W" <-> off_at off e d = 1).
Proof.
  intros He Hd. unfold code.
  destruct (off_at off e d =? 1) eqn:Hoff.
  - apply Z.eqb_eq in Hoff. tauto.
  - apply Z.eqb_neq in Hoff.
    destruct (working_day_shift e d He Hd Hoff) as [s [Hs [_ [_ Hfound]]]].
    rewrite Hfound.
    split; [| tauto].
    destruct (shift_cases s Hs) as [-> | [-> | ->]]; cbn; discriminate.
Qed.

(** The code is the text of shift [s + 1] exactly when [x[e][d][s]] is 1. *)
Lemma code_shift_indicator (e d s : nat) :
  (e < E)%nat -> (d < D)%nat -> (s < num_shifts)%nat ->
  val (x e d s)
  = if String.eqb (code off val e d) (py_str (Z.of_nat s + 1)) then 1 else 0.
Proof.
  intros He Hd Hs. unfold code.
  pose proof (daily_assignment_holds e d He Hd) as Hday.
  destruct (off_at off e d =? 1) eqn:Hoff.
  - rewrite (Hday s Hs).
    destruct (shift_cases s Hs) as [-> | [-> | ->]]; reflexivity.
  - apply Z.eqb_neq in Hoff.
    destruct (working_day_shift e d He Hd Hoff) as [s0 [Hs0 [Hone [Hothers Hfound]]]].
    rewrite Hfound.
    destruct (Nat.eq_dec s s0) as [-> | Hne].
    + rewrite String.eqb_refl. exact Hone.
    + rewrite (Hothers s Hs Hne).
      destruct (shift_cases s Hs) as [-> | [-> | ->]];
        destruct (shift_cases s0 Hs0) as [-> | [-> | ->]];
        try congruence; reflexivity.
Qed.

(** On a working day the code is one of "1", "2", "3". *)
Lemma code_working (e d : nat) :
  (e < E)%nat -> (d < D)%nat -> off_at off e d <> 1 ->
  code off val e d = "1" \/ code off val e d = "2" \/ code off val e d = "3".
Proof.
  intros He Hd Hoff. unfold code.
  destruct (working_day_shift e d He Hd Hoff) as [s [Hs [_ [_ Hfound]]]].
  apply Z.eqb_neq in Hoff. rewrite Hoff, Hfound.
  destruct (shift_cases s Hs) as [-> | [-> | ->]]; cbn; auto.
Qed.

(** Two adjacent working days have the same code. *)
Lemma code_continuity (e d : nat) :
  (e < E)%nat -> (d + 1 < D)%nat ->
  off_at off e d = 0 -> off_at off e (d + 1) = 0 ->
  code off val e d = code off val e (d + 1).
Proof.
  intros He Hd Hoff Hoff'. unfold code, assigned_s.
  rewrite Hoff, Hoff'. cbn [Z.eqb seq num_shifts find].
  assert (Hsame : forall s, (s < num_shifts)%nat ->
                             val (x e (d + 1) s) = val (x e d s))
    by (intros s Hs; symmetry;
        exact (no_shift_change_holds e d s He Hd Hs Hoff Hoff')).
  rewrite !Hsame by (unfold num_shifts; lia).
  reflexivity.
Qed.

End Solution.

Lemma nth_map_seq {A : Type} (f : nat -> A) (n i : nat) (dflt : A) :
  (i < n)%nat -> nth i (map f (seq 0 n)) dflt = f i.
Proof.
  intros Hi. apply nth_error_nth.
  rewrite nth_error_map.
  rewrite (nth_error_nth' (seq 0 n) 0%nat) by (rewrite length_seq; exact Hi).
  rewrite seq_nth by exact Hi. reflexivity.
Qed.

Lemma cell_build_codes (E D : nat) (off : list (list Z)) (val : IntVar -> Z)
      (e d : nat) :
  (e < E)%nat -> (d < D)%nat ->
  cell (build_codes E D off val) e d = Some (code off val e d).
Proof.
  intros He Hd. unfold cell, build_codes.
  rewrite nth_error_map.
  rewrite (nth_error_nth' (seq 0 E) 0%nat) by (rewrite length_seq; exact He).
  rewrite seq_nth by exact He. cbn [option_map].
  rewrite nth_error_map.
  rewrite (nth_error_nth' (seq 0 D) 0%nat) by (rewrite length_seq; exact Hd).
  rewrite seq_nth by exact Hd. reflexivity.
Qed.

(** The column count of a code is the sum of its indicator over the
    employees. *)
Lemma count_code_build_codes (E D : nat) (off : list (list Z))
      (val : IntVar -> Z) (d : nat) (c : string) (f : nat -> Z) :
  (d < D)%nat ->
  (forall e, (e < E)%nat ->
     f e = if String.eqb (code off val e d) c then 1 else 0) ->
  count_code (build_codes E D off val) d c = zsum f (seq 0 E).
Proof.
  intros Hd Hf. unfold count_code, build_codes.
  apply (count_filter_zsum (fun row => String.eqb (nth d row "") c)).
  intros e He. apply in_seq in He.
  rewrite nth_map_seq by exact Hd. apply Hf. lia.
Qed.

(* ================================================================== *)
(** ** The schedules that [solve] returns *)

(** What a returned schedule rests on: the off matrix of the patterns, a
    model built from it, and values of the solver that satisfy the model. *)
Lemma solve_returns (solver : CpSolver) (employees : list Row)
      (start_shifts : list Z) (dates : list datetime) (min_per_shift : Z)
      (max_off_pct : Float.float) (codes : list (list string)) :
  let E := List.length employees in
  let D := List.length dates in
  solver_valid_on solver E start_shifts dates min_per_shift max_off_pct ->
  solve solver employees start_shifts dates min_per_shift max_off_pct = Ok codes ->
  exists m max_off val,
    solve_model E start_shifts dates min_per_shift max_off_pct
    = Ok (off_matrix E dates, m) /\
    max_off_cap max_off_pct E = Ok max_off /\
    build_model E D (off_matrix E dates) start_shifts min_per_shift max_off
    = Ok m /\
    satisfies val m = true /\
    codes = build_codes E D (off_matrix E dates) val.
Proof.
  intros E D Hvalid Hsolve.
  destruct (solve_inv _ _ _ _ _ _ _ Hsolve) as [off [m [Hmodel [Hst Hcodes]]]].
  unfold solver_valid_on in Hvalid. fold E in Hmodel. rewrite Hmodel in Hvalid.
  destruct (solve_model_inv _ _ _ _ _ _ _ Hmodel) as [Hoff [max_off [Hcap Hbuild]]].
  fold (off_matrix E dates) in Hoff. subst off.
  exists m, max_off, (Value (solver solver_parameters m)).
  repeat split; try assumption. exact (Hvalid Hst).
Qed.

Lemma off_matrix_at (E : nat) (dates : list datetime) (e d : nat) (dt : datetime) :
  (e < E)%nat -> nth_error dates d = Some dt ->
  off_at (off_matrix E dates) e d = if rest_dayb e dt then 1 else 0.
Proof. apply off_at_solve. Qed.

Lemma off_matrix_working (E : nat) (dates : list datetime) (e d : nat)
      (dt : datetime) :
  (e < E)%nat -> nth_error dates d = Some dt ->
  (off_at (off_matrix E dates) e d = 0 <-> ~ is_rest_day e dt) /\
  (off_at (off_matrix E dates) e d = 1 <-> is_rest_day e dt).
Proof.
  intros He Hd. rewrite (off_matrix_at _ _ _ _ _ He Hd).
  rewrite <- rest_dayb_spec. destruct (rest_dayb e dt); split; split;
    intros Hx; try discriminate; try reflexivity; congruence.
Qed.

Lemma nth_error_lt {A : Type} (l : list A) (i : nat) (a : A) :
  nth_error l i = Some a -> (i < List.length l)%nat.
Proof. intros Hi. apply nth_error_Some. congruence. Qed.

(** C1: in a schedule returned by [solve], the code of employee [e] on day
    [d] is "W" if and only if the weekday of [d] is one of the two weekdays
    of pattern [e mod 7]; on every other day it is one of "1", "2", "3".
    Moreover, on any solution of the model the extraction loop finds a
    shift on every working day, so its fallback to "W" is never taken. *)
Theorem solve_codes_follow_rest_pattern
        (solver : CpSolver) (employees : list Row) (start_shifts : list Z)
        (dates : list datetime) (min_per_shift : Z) (max_off_pct : Float.float)
        (codes : list (list string)) :
  let E := List.length employees in
  let D := List.length dates in
  solver_valid_on solver E start_shifts dates min_per_shift max_off_pct ->
  solve solver employees start_shifts dates min_per_shift max_off_pct = Ok codes ->
  (forall e d dt,
      (e < E)%nat -> nth_error dates d = Some dt ->
      exists c,
        cell codes e d = Some c /\
        (c = "W" <-> is_rest_day e dt) /\
        (~ is_rest_day e dt -> c = "1" \/ c = "2" \/ c = "3")) /\
  (forall off m val,
      solve_model E start_shifts dates min_per_shift max_off_pct = Ok (off, m) ->
      satisfies val m = true ->
      forall e d,
        (e < E)%nat -> (d < D)%nat -> off_at off e d <> 1 ->
        assigned_s val e d <> None).
Proof.
  intros E D Hvalid Hsolve. split.
  - destruct (solve_returns _ _ _ _ _ _ _ Hvalid Hsolve)
      as [m [max_off [val [_ [_ [Hbuild [Hsat ->]]]]]]].
    intros e d dt He Hd. pose proof (nth_error_lt _ _ _ Hd) as HdD.
    exists (code (off_matrix E dates) val e d).
    destruct (off_matrix_working E dates e d dt He Hd) as [_ Hrest].
    split; [apply cell_build_codes; assumption |]. split.
    + etransitivity;
        [exact (code_W_iff _ _ _ _ _ _ _ _ Hbuild Hsat e d He HdD) | exact Hrest].
    + intros Hwork. apply (code_working _ _ _ _ _ _ _ _ Hbuild Hsat e d He HdD).
      intros Hoff. apply Hwork, Hrest. exact Hoff.
  - intros off m val Hmodel Hsat e d He Hd Hoff.
    destruct (solve_model_inv _ _ _ _ _ _ _ Hmodel) as [_ [max_off [_ Hbuild]]].
    destruct (working_day_shift _ _ _ _ _ _ _ _ Hbuild Hsat e d He Hd Hoff) as [s [_ [_ [_ Hfound]]]].
    rewrite Hfound. discriminate.
Qed.

(** C2: in a schedule returned by [solve], when days [d] and [d + 1] are
    both working days of employee [e], the codes of [e] on the two days
    are equal. *)
Theorem solve_keeps_shift_within_work_run
        (solver : CpSolver) (employees : list Row) (start_shifts : list Z)
        (dates : list datetime) (min_per_shift : Z) (max_off_pct : Float.float)
        (codes : list (list string)) :
  let E := List.length employees in
  solver_valid_on solver E start_shifts dates min_per_shift max_off_pct ->
  solve solver employees start_shifts dates min_per_shift max_off_pct = Ok codes ->
  forall e d dt dt',
    (e < E)%nat ->
    nth_error dates d = Some dt -> nth_error dates (d + 1) = Some dt' ->
    ~ is_rest_day e dt -> ~ is_rest_day e dt' ->
    exists c, cell codes e d = Some c /\ cell codes e (d + 1) = Some c.
Proof.
  intros E Hvalid Hsolve e d dt dt' He Hd Hd' Hwork Hwork'.
  destruct (solve_returns _ _ _ _ _ _ _ Hvalid Hsolve)
    as [m [max_off [val [_ [_ [Hbuild [Hsat ->]]]]]]].
  pose proof (nth_error_lt _ _ _ Hd) as HdD.
  pose proof (nth_error_lt _ _ _ Hd') as HdD'.
  exists (code (off_matrix E dates) val e d). split.
  - apply cell_build_codes; assumption.
  - rewrite cell_build_codes by assumption. f_equal. symmetry.
    apply (code_continuity _ _ _ _ _ _ _ _ Hbuild Hsat e d He HdD').
    + apply (off_matrix_working E dates e d dt He Hd). exact Hwork.
    + apply (off_matrix_working E dates e (d + 1) dt' He Hd'). exact Hwork'.
Qed.

(** C3: in a schedule returned by [solve], on every day [d] and for every
    shift [s] in 1..3, at least [min_per_shift] employees have the code
    [str(s)]. *)
Theorem solve_covers_every_shift
        (solver : CpSolver) (employees : list Row) (start_shifts : list Z)
        (dates : list datetime) (min_per_shift : Z) (max_off_pct : Float.float)
        (codes : list (list string)) :
  let E := List.length employees in
  solver_valid_on solver E start_shifts dates min_per_shift max_off_pct ->
  solve solver employees start_shifts dates min_per_shift max_off_pct = Ok codes ->
  forall d s,
    (d < List.length dates)%nat -> 1 <= s <= 3 ->
    count_code codes d (py_str s) >= min_per_shift.
Proof.
  intros E Hvalid Hsolve d s Hd Hs.
  destruct (solve_returns _ _ _ _ _ _ _ Hvalid Hsolve)
    as [m [max_off [val [_ [_ [Hbuild [Hsat ->]]]]]]].
  assert (Hs' : (Z.to_nat (s - 1) < num_shifts)%nat) by (unfold num_shifts; lia).
  replace s with (Z.of_nat (Z.to_nat (s - 1)) + 1) by lia.
  rewrite (count_code_build_codes E _ _ val d _
             (fun e => val (x e d (Z.to_nat (s - 1)))) Hd).
  - exact (coverage_holds _ _ _ _ _ _ _ _ Hbuild Hsat d _ Hd Hs').
  - intros e He. exact (code_shift_indicator _ _ _ _ _ _ _ _ Hbuild Hsat e d _ He Hd Hs').
Qed.

Lemma off_count_zsum (E : nat) (off : list (list Z)) (d : nat) :
  off_count E off d = zsum (fun e => off_at off e d) (seq 0 E).
Proof.
  unfold off_count. rewrite fold_left_Zadd.
  generalize (seq 0 E). intros l.
  induction l as [| e l IH]; simpl; [reflexivity |]. rewrite <- IH. lia.
Qed.

Lemma ceil_is_ceiling (x : Float.float) (n : Z) :
  Float.ceil x = Ok n -> ceiling_of x n.
Proof.
  destruct x as [sg | sg | | sg m e]; cbn [Float.ceil ceiling_of];
    intros H; try discriminate H.
  - congruence.
  - destruct e as [| p | p]; cbv zeta in *.
    + change (0 <=? 0) with true. cbv iota.
      assert (Hn : n = (if sg then Z.neg m else Z.pos m)) by congruence.
      rewrite Hn. change (2 ^ 0) with 1. lia.
    + change (0 <=? Z.pos p) with true. cbv iota. congruence.
    + change (0 <=? Z.neg p) with false. cbv iota.
      change (- Z.neg p) with (Z.pos p).
      assert (Hn : n = - (- (if sg then Z.neg m else Z.pos m) / 2 ^ Z.pos p))
        by congruence.
      assert (Hpow : 0 < 2 ^ Z.pos p) by (apply Z.pow_pos_nonneg; lia).
      pose proof (Z.div_mod (- (if sg then Z.neg m else Z.pos m))
                            (2 ^ Z.pos p) ltac:(lia)) as Hdm.
      pose proof (Z.mod_pos_bound (- (if sg then Z.neg m else Z.pos m))
                                  (2 ^ Z.pos p) Hpow) as Hmod.
      rewrite Hn. nia.
Qed.

Lemma ceiling_of_unique (f : spec_float) (n n' : Z) :
  ceiling_of f n -> ceiling_of f n' -> n = n'.
Proof.
  destruct f as [sg | sg | | sg m e]; cbn [ceiling_of]; cbv zeta;
    try contradiction.
  - congruence.
  - destruct (0 <=? e) eqn:He; [congruence |].
    apply Z.leb_gt in He.
    assert (Hpow : 0 < 2 ^ (- e)) by (apply Z.pow_pos_nonneg; lia).
    intros H1 H2. nia.
Qed.

Lemma max_off_cap_is_ceiling (max_off_pct : Float.float) (E : nat) (n : Z) :
  max_off_cap max_off_pct E = Ok n ->
  ceiling_of (SFmul 53 1024 max_off_pct
                    (binary_normalize 53 1024 (Z.of_nat E) 0 false)) n.
Proof.
  unfold max_off_cap, Float.of_int, Float.mul, Float.prec, Float.emax.
  intros H. apply ceil_is_ceiling.
  destruct (binary_normalize 53 1024 (Z.of_nat E) 0 false);
    cbn [bind] in H; try exact H; discriminate H.
Qed.

(** C9: in a schedule returned by [solve], on every day the number of
    employees whose code is "W" is at most the ceiling of
    [max_off_pct * E]: the integer [max_off] with
    [max_off - 1 < max_off_pct * E <= max_off], the product being the
    binary64 product of [max_off_pct] and [E] converted to a float, as
    Python computes [max_off_pct * E]. *)
Theorem solve_respects_off_cap
        (solver : CpSolver) (employees : list Row) (start_shifts : list Z)
        (dates : list datetime) (min_per_shift : Z) (max_off_pct : Float.float)
        (codes : list (list string)) :
  let E := List.length employees in
  solver_valid_on solver E start_shifts dates min_per_shift max_off_pct ->
  solve solver employees start_shifts dates min_per_shift max_off_pct = Ok codes ->
  exists max_off,
    max_off_cap max_off_pct E = Ok max_off /\
    ceiling_of (SFmul 53 1024 max_off_pct
                      (binary_normalize 53 1024 (Z.of_nat E) 0 false))
               max_off /\
    forall d, (d < List.length dates)%nat -> count_code codes d "W" <= max_off.
Proof.
  intros E Hvalid Hsolve.
  destruct (solve_returns _ _ _ _ _ _ _ Hvalid Hsolve)
    as [m [max_off [val [_ [Hcap [Hbuild [Hsat ->]]]]]]].
  exists max_off. split; [exact Hcap |].
  split; [exact (max_off_cap_is_ceiling _ _ _ Hcap) |]. intros d Hd.
  destruct (nth_error dates d) as [dt |] eqn:Hdt;
    [| apply nth_error_None in Hdt; lia].
  rewrite (count_code_build_codes _ _ _ val d "W"
             (fun e => off_at (off_matrix (List.length employees) dates) e d) Hd).
  - rewrite <- off_count_zsum.
    exact (off_cap_holds _ _ _ _ _ _ _ _ Hbuild Hsat d Hd).
  - intros e He.
    pose proof (code_W_iff _ _ _ _ _ _ _ _ Hbuild Hsat e d He Hd) as HW.
    rewrite (off_matrix_at _ _ _ _ _ He Hdt) in *.
    destruct (rest_dayb e dt).
    + rewrite (proj2 HW eq_refl). reflexivity.
    + destruct (String.eqb_spec
                  (code (off_matrix (List.length employees) dates) val e d) "W")
        as [HeqW | _]; [| reflexivity].
      apply HW in HeqW. discriminate HeqW.
Qed.

(* ================================================================== *)
(** ** The failures of [solve] *)

Lemma rotation_succeeds (D : nat) (off : list (list Z)) (start_shifts : list Z)
      (es : list nat) :
  (forall e, In e es -> (e < List.length start_shifts)%nat) ->
  exists rc, rotation D off start_shifts es = Ok rc.
Proof.
  induction es as [| e es IH]; intros Hes; cbn [rotation].
  - exists []. reflexivity.
  - destruct (nth_error start_shifts e) as [start_s |] eqn:Hnth.
    + destruct IH as [rest Hrest];
        [intros e' He'; apply Hes; right; exact He' |].
      unfold index. rewrite Hnth. cbn [bind]. rewrite Hrest. cbn [bind].
      eexists. reflexivity.
    + apply nth_error_None in Hnth.
      specialize (Hes e (or_introl eq_refl)). lia.
Qed.

(** With a start shift for every employee, only the float arithmetic of
    the off cap can keep [solve] from reaching the solver. *)
Lemma solve_model_total (E : nat) (start_shifts : list Z) (dates : list datetime)
      (min_per_shift : Z) (max_off_pct : Float.float) (max_off : Z) :
  (E <= List.length start_shifts)%nat ->
  max_off_cap max_off_pct E = Ok max_off ->
  exists m,
    solve_model E start_shifts dates min_per_shift max_off_pct
    = Ok (off_matrix E dates, m) /\
    build_model E (List.length dates) (off_matrix E dates) start_shifts
                min_per_shift max_off = Ok m.
Proof.
  intros Hlen Hcap.
  destruct (rotation_succeeds (List.length dates) (off_matrix E dates)
                           start_shifts (seq 0 E)) as [rc Hrc].
  { intros e He. apply in_seq in He. lia. }
  unfold solve_model. rewrite compute_off_matrix_ok. cbn [bind].
  rewrite Hcap. cbn [bind]. fold (off_matrix E dates).
  unfold build_model. rewrite Hrc. cbn [bind].
  eexists. split; reflexivity.
Qed.

(** Every status other than OPTIMAL and FEASIBLE ends in the same error. *)
Lemma solve_without_solution (solver : CpSolver) (employees : list Row)
      (start_shifts : list Z) (dates : list datetime) (min_per_shift : Z)
      (max_off_pct : Float.float) (off : list (list Z)) (m : CpModel) :
  solve_model (List.length employees) start_shifts dates min_per_shift
              max_off_pct = Ok (off, m) ->
  has_solution (status (solver solver_parameters m)) = false ->
  solve solver employees start_shifts dates min_per_shift max_off_pct
  = Raise no_feasible_rota.
Proof.
  intros Hmodel Hst. unfold solve. rewrite Hmodel. cbn [bind].
  rewrite Hst. reflexivity.
Qed.



(** C4, as the code has it: proven infeasibility and an expired time
    budget are not told apart.  On the model of scenario B a solver that
    answers INFEASIBLE and one that answers UNKNOWN make [solve] raise the
    very same error. *)
Lemma infeasible_and_timeout_raise_alike :
  solver_status ScenarioB.proves_infeasible 2 ScenarioB.start_shifts
                ScenarioB.dates ScenarioB.min_per_shift default_max_off_pct
  = Some INFEASIBLE /\
  solver_status ScenarioB.times_out 2 ScenarioB.start_shifts
                ScenarioB.dates ScenarioB.min_per_shift default_max_off_pct
  = Some UNKNOWN /\
  solve ScenarioB.proves_infeasible (staff 2) ScenarioB.start_shifts
        ScenarioB.dates ScenarioB.min_per_shift default_max_off_pct
  = solve ScenarioB.times_out (staff 2) ScenarioB.start_shifts
          ScenarioB.dates ScenarioB.min_per_shift default_max_off_pct.
Proof. vm_compute. repeat split; reflexivity. Qed.

(** C4, amended: the solver runs under a budget of 120 seconds, and every
    status other than OPTIMAL and FEASIBLE, be it INFEASIBLE, UNKNOWN or
    MODEL_INVALID, makes [solve] raise the one [RuntimeError]
    "No feasible rota found (check min_per_shift vs headcount)."; with
    OPTIMAL or FEASIBLE a schedule is returned. *)
Theorem solve_failure_is_one_error
        (solver : CpSolver) (employees : list Row) (start_shifts : list Z)
        (dates : list datetime) (min_per_shift : Z) (max_off_pct : Float.float)
        (st : CpSolverStatus) :
  solver_status solver (List.length employees) start_shifts dates
                min_per_shift max_off_pct = Some st ->
  max_time_in_seconds solver_parameters = Float.lit_120_0 /\
  (st = INFEASIBLE \/ st = UNKNOWN \/ st = MODEL_INVALID ->
   solve solver employees start_shifts dates min_per_shift max_off_pct
   = Raise (RuntimeError
              "No feasible rota found (check min_per_shift vs headcount).")) /\
  (st = OPTIMAL \/ st = FEASIBLE ->
   exists codes,
     solve solver employees start_shifts dates min_per_shift max_off_pct
     = Ok codes).
Proof.
  unfold solver_status, solve. intros Hst.
  destruct (solve_model (List.length employees) start_shifts dates
                        min_per_shift max_off_pct) as [[off m] | exn];
    [| discriminate Hst].
  injection Hst as Hst. cbn [bind]. rewrite Hst.
  split; [reflexivity |]. split.
  - intros [-> | [-> | ->]]; reflexivity.
  - intros [-> | ->]; eexists; reflexivity.
Qed.

Lemma solve_failure_is_one_error_witness :
  solver_status ScenarioB.times_out (List.length (staff 2))
                ScenarioB.start_shifts ScenarioB.dates ScenarioB.min_per_shift
                default_max_off_pct = Some UNKNOWN /\
  solve ScenarioB.times_out (staff 2) ScenarioB.start_shifts ScenarioB.dates
        ScenarioB.min_per_shift default_max_off_pct
  = Raise (RuntimeError
             "No feasible rota found (check min_per_shift vs headcount).").
Proof.
  split; [vm_compute; reflexivity |].
  apply (solve_failure_is_one_error ScenarioB.times_out (staff 2)
           ScenarioB.start_shifts ScenarioB.dates ScenarioB.min_per_shift
           default_max_off_pct UNKNOWN).
  - vm_compute. reflexivity.
  - right. left. reflexivity.
Defined.

(* ================================================================== *)
(** ** The employee loader and the validation *)

Section Loader.

Context `{StrBuiltins}.

Lemma read_rows_ok (rows : list Row) :
  forallb has_id_and_name rows = true -> read_rows rows = Ok rows.
Proof.
  induction rows as [| row rows IH]; intros Hall; cbn [read_rows];
    [reflexivity |].
  cbn [forallb] in Hall. apply andb_true_iff in Hall.
  destruct Hall as [Hrow Hrest]. unfold has_id_and_name in Hrow.
  apply andb_true_iff in Hrow. destruct Hrow as [-> ->]. cbn [negb orb].
  rewrite (IH Hrest). reflexivity.
Qed.

Lemma read_rows_raise (rows : list Row) :
  forallb has_id_and_name rows = false ->
  read_rows rows
  = Raise (ValueError "employees.csv must contain emp_id and employee_name").
Proof.
  induction rows as [| row rows IH]; intros Hall; cbn [read_rows];
    [discriminate Hall |].
  cbn [forallb] in Hall. unfold has_id_and_name in Hall at 1.
  destruct (truthy (get row "emp_id")); [| reflexivity].
  destruct (truthy (get row "employee_name")); [| reflexivity].
  cbn [negb orb andb] in *. rewrite (IH Hall). reflexivity.
Qed.

(** The outcome of [load_employees] depends on the rows only through
    their number and their [emp_id] and [employee_name] fields. *)
Lemma load_employees_cases (rows : list Row) :
  load_employees rows
  = if forallb has_id_and_name rows
    then match rows with
         | [] => Raise (ValueError "employees.csv is empty")
         | _ => Ok (rows, assign_start_shifts 1 rows)
         end
    else Raise (ValueError "employees.csv must contain emp_id and employee_name").
Proof.
  unfold load_employees.
  destruct (forallb has_id_and_name rows) eqn:Hall.
  - rewrite (read_rows_ok rows Hall). reflexivity.
  - rewrite (read_rows_raise rows Hall). reflexivity.
Qed.

Lemma round_robin_next (k : Z) :
  1 + round_robin k mod 3 = round_robin (k + 1).
Proof.
  unfold round_robin. f_equal.
  rewrite Z.add_mod_idemp_r by lia. f_equal. lia.
Qed.

(** The start shift at each position, with [cur] at the [k]-th element of
    the cycle when the loop starts. *)
Lemma assign_start_shifts_nth (employees : list Row) :
  forall (k : Z) (i : nat) (emp : Row),
    nth_error employees i = Some emp ->
    nth_error (assign_start_shifts (round_robin k) employees) i
    = Some (match try_starting_shift emp with
            | Some s => s - 1
            | None => round_robin (k + fallbacks_before employees i) - 1
            end).
Proof.
  induction employees as [| emp0 employees IH]; intros k i emp Hi.
  - destruct i; discriminate Hi.
  - cbn [assign_start_shifts]. destruct i as [| i].
    + injection Hi as ->. unfold fallbacks_before. cbn [firstn filter List.length].
      destruct (try_starting_shift emp); cbn [nth_error]; [reflexivity |].
      rewrite Z.add_0_r. reflexivity.
    + cbn [nth_error] in Hi. unfold fallbacks_before.
      cbn [firstn filter].
      destruct (try_starting_shift emp0) as [s0 |]; cbn [nth_error].
      * exact (IH k i emp Hi).
      * rewrite round_robin_next, (IH (k + 1) i emp Hi).
        unfold fallbacks_before. cbn [List.length].
        destruct (try_starting_shift emp); [reflexivity |].
        do 3 f_equal. lia.
Qed.

Lemma assign_start_shifts_length (cur : Z) (employees : list Row) :
  List.length (assign_start_shifts cur employees) = List.length employees.
Proof.
  revert cur. induction employees as [| emp employees IH]; intros cur;
    cbn [assign_start_shifts]; [reflexivity |].
  destruct (try_starting_shift emp); cbn [List.length]; rewrite IH; reflexivity.
Qed.

Lemma try_starting_shift_some (emp : Row) (s : Z) :
  try_starting_shift emp = Some s <->
  py_int (py_strip (or_empty (get emp "starting_shift"))) = Some s /\
  (s = 1 \/ s = 2 \/ s = 3).
Proof.
  unfold try_starting_shift.
  destruct (py_int (py_strip (or_empty (get emp "starting_shift")))) as [n |].
  - destruct ((n =? 1) || (n =? 2) || (n =? 3)) eqn:Hin.
    + rewrite !orb_true_iff, !Z.eqb_eq in Hin.
      split.
      * intros Heq. injection Heq as <-. split; [reflexivity | tauto].
      * intros [Heq _]. exact Heq.
    + rewrite !orb_false_iff, !Z.eqb_neq in Hin.
      split; [discriminate |].
      intros [Heq Hs]. injection Heq as <-. lia.
  - split; [discriminate | intros [Heq _]; discriminate Heq].
Qed.

End Loader.



(** C6: in [load_employees], an employee whose [starting_shift] is read by
    [int] as 1, 2 or 3 keeps that value (stored 0-based) and leaves the
    cycle where it is; every other employee, whether the field is missing,
    not a number or out of range, takes the next value of the cycle
    1, 2, 3, 1, 2, 3, ... in encounter order, the cycle advancing on these
    employees only.  Rows that have [emp_id] and [employee_name] are always
    loaded: no [starting_shift] value raises. *)
Theorem load_employees_round_robin `{StrBuiltins}
        (rows employees : list Row) (start_shifts : list Z) :
  load_employees rows = Ok (employees, start_shifts) ->
  employees = rows /\
  List.length start_shifts = List.length employees /\
  (forall i emp,
      nth_error employees i = Some emp ->
      (forall s,
          py_int (py_strip (or_empty (get emp "starting_shift"))) = Some s ->
          s = 1 \/ s = 2 \/ s = 3 ->
          nth_error start_shifts i = Some (s - 1)) /\
      (try_starting_shift emp = None ->
       nth_error start_shifts i
       = Some (round_robin (fallbacks_before employees i) - 1)) /\
      (try_starting_shift emp = None <->
       forall s,
         py_int (py_strip (or_empty (get emp "starting_shift"))) = Some s ->
         ~ (s = 1 \/ s = 2 \/ s = 3))) /\
  (forall rows',
      rows' <> [] -> forallb has_id_and_name rows' = true ->
      exists start_shifts', load_employees rows' = Ok (rows', start_shifts')).
Proof.
  rewrite load_employees_cases. intros Hload.
  destruct (forallb has_id_and_name rows); [| discriminate Hload].
  assert (Hpair : (rows, assign_start_shifts 1 rows) = (employees, start_shifts))
    by (destruct rows; [discriminate Hload | injection Hload as <- <-; reflexivity]).
  clear Hload. injection Hpair as <- <-.
  split; [reflexivity |].
  split; [apply assign_start_shifts_length |].
  split.
  - intros i emp Hi.
    pose proof (assign_start_shifts_nth rows 0 i emp Hi) as Hnth.
    change (round_robin 0) with 1 in Hnth.
    split.
    + intros s Hint Hs.
      assert (Htry : try_starting_shift emp = Some s)
        by (apply try_starting_shift_some; split; assumption).
      rewrite Htry in Hnth. exact Hnth.
    + split; [intros Htry; rewrite Htry in Hnth; exact Hnth |].
      split.
      * intros Htry s Hint Hs.
        assert (Hsome : try_starting_shift emp = Some s)
          by (apply try_starting_shift_some; split; assumption).
        congruence.
      * intros Hnone. destruct (try_starting_shift emp) as [s |] eqn:Htry;
          [| reflexivity].
        apply try_starting_shift_some in Htry. destruct Htry as [Hint Hs].
        destruct (Hnone s Hint Hs).
  - intros rows' Hne Hall. rewrite load_employees_cases, Hall.
    destruct rows'; [congruence |]. eexists. reflexivity.
Qed.

Lemma load_employees_round_robin_witness :
  load_employees ScenarioC.rows = Ok (ScenarioC.rows, [1; 0; 1; 2; 0; 2; 1]) /\
  nth_error [1; 0; 1; 2; 0; 2; 1] 3
  = Some (round_robin (fallbacks_before ScenarioC.rows 3) - 1).
Proof.
  assert (Hload : load_employees ScenarioC.rows
                  = Ok (ScenarioC.rows, [1; 0; 1; 2; 0; 2; 1]))
    by (vm_compute; reflexivity).
  split; [exact Hload |].
  destruct (load_employees_round_robin ScenarioC.rows ScenarioC.rows
              [1; 0; 1; 2; 0; 2; 1] Hload) as [_ [_ [Hnth _]]].
  destruct (Hnth 3%nat
                 [("emp_id", "4"); ("employee_name", "Di");
                  ("starting_shift", "x")] eq_refl) as [_ [Hfallback _]].
  apply Hfallback. vm_compute. reflexivity.
Defined.


(* ================================================================== *)
(** ** The objective of the model *)

Lemma fold_right_eval_acc (val : IntVar -> Z) (l : list LinearExpr) (acc : Z) :
  fold_right (fun ex s => eval val ex + s) acc l
  = fold_right (fun ex s => eval val ex + s) 0 l + acc.
Proof.
  induction l as [| ex l IH]; simpl; [reflexivity |]. rewrite IH. lia.
Qed.

Lemma eval_sum_flat_map (val : IntVar -> Z) (g : nat -> list LinearExpr)
      (l : list nat) :
  eval val (py_sum (flat_map g l)) = zsum (fun i => eval val (py_sum (g i))) l.
Proof.
  rewrite eval_py_sum. induction l as [| i l IH]; [reflexivity |].
  cbn [flat_map]. rewrite fold_right_app, IH, fold_right_eval_acc.
  rewrite <- eval_py_sum. reflexivity.
Qed.

Lemma objective_value_split (E D : nat) (val : IntVar -> Z) :
  objective_value E D val
  = 10 * day_total D val + 5 * emp_total E val + 1 * rot_total E D val.
Proof. reflexivity. Qed.

Lemma target_shift_lt (start_s : Z) (d : nat) :
  (target_shift start_s d < num_shifts)%nat.
Proof.
  unfold target_shift, num_shifts.
  pose proof (Z.mod_pos_bound (start_s + Z.of_nat (d / 28)) (Z.of_nat 3)
                              ltac:(lia)).
  lia.
Qed.

Section Objective.

Variables (E D : nat) (off : list (list Z)) (start_shifts : list Z).
Variables (min_per_shift max_off : Z).
Variables (m : CpModel) (val : IntVar -> Z).

Hypothesis Hbuild :
  build_model E D off start_shifts min_per_shift max_off = Ok m.
Hypothesis Hsat : satisfies val m = true.

Lemma soft_parts :
  forallb (holds val) (day_balance E D) = true /\
  forallb (holds val) (emp_balance E D) = true /\
  exists rc,
    rotation D off start_shifts (seq 0 E) = Ok rc /\
    forallb (holds val) rc = true.
Proof.
  destruct (model_parts E D off start_shifts min_per_shift max_off m val
                        Hbuild Hsat) as [rc [Hrot [_ Hcs]]].
  rewrite !forallb_app, !andb_true_iff in Hcs.
  destruct Hcs as [_ [_ [_ [_ [Hday [Hemp Hrc]]]]]].
  split; [exact Hday |]. split; [exact Hemp |].
  exists rc. split; assumption.
Qed.

Lemma objective_is_weighted : objective m = weighted_objective E D.
Proof.
  unfold build_model in Hbuild. apply bind_ok in Hbuild.
  destruct Hbuild as [rc [_ Hm]]. injection Hm as <-. reflexivity.
Qed.

(** A) The day totals are the head counts and the day differences their
    absolute differences. *)
Lemma day_balance_holds (d : nat) :
  (d < D)%nat ->
  (forall s, (s < num_shifts)%nat ->
     val (day_tot d s) = zsum (fun e => val (x e d s)) (seq 0 E)) /\
  (forall i j, In (i, j) shift_pairs ->
     val (day_diff d i j) = Z.abs (val (day_tot d i) - val (day_tot d j))).
Proof.
  intros Hd. destruct soft_parts as [Hday _]. unfold day_balance in Hday.
  rewrite forallb_flat_map in Hday. apply (forallb_seq _ _ _ Hday) in Hd.
  rewrite forallb_app in Hd. apply andb_true_iff in Hd.
  destruct Hd as [Htot Hdiff]. split.
  - intros s Hs. rewrite forallb_map in Htot.
    apply (forallb_seq _ _ _ Htot) in Hs. cbn [holds eval] in Hs.
    unfold day_headcount in Hs. rewrite eval_py_sum_vars in Hs. lia.
  - intros i j Hij. rewrite forallb_forall in Hdiff.
    specialize (Hdiff _ (in_map _ _ _ Hij)). cbn in Hdiff. lia.
Qed.

(** B) The same for the employees over the horizon. *)
Lemma emp_balance_holds (e : nat) :
  (e < E)%nat ->
  (forall s, (s < num_shifts)%nat ->
     val (emp_tot e s) = zsum (fun d => val (x e d s)) (seq 0 D)) /\
  (forall i j, In (i, j) shift_pairs ->
     val (emp_diff e i j) = Z.abs (val (emp_tot e i) - val (emp_tot e j))).
Proof.
  intros He. destruct soft_parts as [_ [Hemp _]]. unfold emp_balance in Hemp.
  rewrite forallb_flat_map in Hemp. apply (forallb_seq _ _ _ Hemp) in He.
  rewrite forallb_app in He. apply andb_true_iff in He.
  destruct He as [Htot Hdiff]. split.
  - intros s Hs. rewrite forallb_map in Htot.
    apply (forallb_seq _ _ _ Htot) in Hs. cbn [holds eval] in Hs.
    unfold emp_usage in Hs. rewrite eval_py_sum_vars in Hs. lia.
  - intros i j Hij. rewrite forallb_forall in Hdiff.
    specialize (Hdiff _ (in_map _ _ _ Hij)). cbn in Hdiff. lia.
Qed.

(** C) The penalty is 1 minus the match, and the match is the variable of
    the target shift on a working day and 1 on an off day. *)
Lemma rotation_day_holds (e d : nat) :
  (e < E)%nat -> (d < D)%nat ->
  exists start_s,
    nth_error start_shifts e = Some start_s /\
    val (match_ e d)
    = (if off_at off e d =? 0
       then val (x e d (target_shift start_s d)) else 1) /\
    val (rot_pen e d) = 1 - val (match_ e d).
Proof.
  intros He Hd. destruct soft_parts as [_ [_ [rc [Hrot Hrc]]]].
  destruct (rotation_holds D off start_shifts val (seq 0 E) rc Hrot Hrc e)
    as [start_s [Hstart Hdays]]; [apply in_seq; lia |].
  exists start_s. split; [exact Hstart |].
  specialize (Hdays d Hd). unfold rotation_day in Hdays.
  cbn [forallb] in Hdays. rewrite !andb_true_iff in Hdays.
  destruct Hdays as [Hmatch [Hpen _]].
  split.
  - destruct (off_at off e d =? 0); cbn [holds eval] in Hmatch;
      apply Z.eqb_eq in Hmatch; exact Hmatch.
  - cbn [holds eval] in Hpen. apply Z.eqb_eq in Hpen. exact Hpen.
Qed.

(** The sums of the objective, variable by variable. *)
Lemma day_total_sum :
  day_total D val
  = zsum (fun d => val (day_diff d 0 1) + val (day_diff d 0 2)
                   + val (day_diff d 1 2)) (seq 0 D).
Proof.
  unfold day_total, day_diff_vars. rewrite eval_sum_flat_map.
  apply zsum_ext. intros d _. cbn. lia.
Qed.

Lemma emp_total_sum :
  emp_total E val
  = zsum (fun e => val (emp_diff e 0 1) + val (emp_diff e 0 2)
                   + val (emp_diff e 1 2)) (seq 0 E).
Proof.
  unfold emp_total, emp_diff_vars. rewrite eval_sum_flat_map.
  apply zsum_ext. intros e _. cbn. lia.
Qed.

Lemma rot_total_sum :
  rot_total E D val
  = zsum (fun e => zsum (fun d => val (rot_pen e d)) (seq 0 D)) (seq 0 E).
Proof.
  unfold rot_total, rotation_mismatch. rewrite eval_sum_flat_map.
  apply zsum_ext. intros e _. apply eval_py_sum_vars.
Qed.

(** The totals of the model are the counts of the extracted codes. *)
Lemma day_tot_is_count (d s : nat) :
  (d < D)%nat -> (s < num_shifts)%nat ->
  val (day_tot d s) = count_code (build_codes E D off val) d (shift_code s).
Proof.
  intros Hd Hs. rewrite (proj1 (day_balance_holds d Hd) s Hs).
  symmetry. apply count_code_build_codes; [exact Hd |].
  intros e He.
  exact (code_shift_indicator E D off start_shifts min_per_shift max_off m val
                              Hbuild Hsat e d s He Hd Hs).
Qed.

Lemma emp_tot_is_count (e s : nat) :
  (e < E)%nat -> (s < num_shifts)%nat ->
  val (emp_tot e s) = count_days (build_codes E D off val) e (shift_code s).
Proof.
  intros He Hs. rewrite (proj1 (emp_balance_holds e He) s Hs).
  symmetry. unfold count_days, build_codes.
  rewrite nth_map_seq by exact He.
  apply (count_filter_zsum (fun c' => String.eqb c' (shift_code s))).
  intros d Hd. apply in_seq in Hd.
  apply (code_shift_indicator E D off start_shifts min_per_shift max_off m val
                              Hbuild Hsat e d s He); [lia | exact Hs].
Qed.

Lemma day_total_of_codes :
  day_total D val = day_balance_total (build_codes E D off val) D.
Proof.
  rewrite day_total_sum. unfold day_balance_total. apply zsum_ext.
  intros d Hd. apply in_seq in Hd. assert (HdD : (d < D)%nat) by lia.
  destruct (day_balance_holds d HdD) as [_ Hdiff].
  rewrite !Hdiff by (apply shift_pair_cases; lia).
  rewrite !day_tot_is_count by (assumption || (unfold num_shifts; lia)).
  cbn [pair_sum unordered_shift_pairs fold_right]. lia.
Qed.

Lemma emp_total_of_codes :
  emp_total E val = emp_balance_total (build_codes E D off val) E.
Proof.
  rewrite emp_total_sum. unfold emp_balance_total. apply zsum_ext.
  intros e He. apply in_seq in He. assert (HeE : (e < E)%nat) by lia.
  destruct (emp_balance_holds e HeE) as [_ Hdiff].
  rewrite !Hdiff by (apply shift_pair_cases; lia).
  rewrite !emp_tot_is_count by (assumption || (unfold num_shifts; lia)).
  cbn [pair_sum unordered_shift_pairs fold_right]. lia.
Qed.

(** The penalty of a day, read off the matrix and the extracted code. *)
Lemma rot_pen_of_code (e d : nat) :
  (e < E)%nat -> (d < D)%nat ->
  off_at off e d = 0 \/ off_at off e d = 1 ->
  val (rot_pen e d)
  = if off_at off e d =? 1 then 0
    else if String.eqb (code off val e d)
                       (shift_code (target_shift (nth e start_shifts 0) d))
         then 0 else 1.
Proof.
  intros He Hd Hoff.
  destruct (rotation_day_holds e d He Hd) as [start_s [Hstart [Hmatch Hpen]]].
  rewrite (nth_error_nth _ _ 0 Hstart). rewrite Hpen, Hmatch.
  destruct Hoff as [Hoff | Hoff]; rewrite Hoff; cbn [Z.eqb]; [| reflexivity].
  rewrite (code_shift_indicator E D off start_shifts min_per_shift max_off m val
             Hbuild Hsat e d (target_shift start_s d) He Hd
             (target_shift_lt start_s d)).
  unfold shift_code.
  destruct (String.eqb (code off val e d)
                       (py_str (Z.of_nat (target_shift start_s d) + 1)));
    reflexivity.
Qed.

End Objective.

Lemma rot_total_of_codes (E : nat) (start_shifts : list Z)
      (dates : list datetime) (min_per_shift max_off : Z) (m : CpModel)
      (val : IntVar -> Z) :
  let D := List.length dates in
  let off := off_matrix E dates in
  build_model E D off start_shifts min_per_shift max_off = Ok m ->
  satisfies val m = true ->
  rot_total E D val
  = mismatch_total dates (build_codes E D off val) start_shifts E.
Proof.
  intros D off Hbuild Hsat.
  rewrite (rot_total_sum E D val). unfold mismatch_total.
  apply zsum_ext. intros e He. apply in_seq in He.
  apply zsum_ext. intros d Hd. apply in_seq in Hd.
  assert (HeE : (e < E)%nat) by lia.
  assert (HdD : (d < D)%nat) by (unfold D; lia).
  destruct (nth_error dates d) as [dt |] eqn:Hdt;
    [| apply nth_error_None in Hdt; unfold D in HdD; lia].
  pose proof (off_matrix_at E dates e d dt HeE Hdt) as Hat.
  rewrite (rot_pen_of_code E D off start_shifts min_per_shift max_off m val
                           Hbuild Hsat e d HeE HdD)
    by (unfold off; rewrite Hat; destruct (rest_dayb e dt); auto).
  unfold mismatch. rewrite Hdt, (cell_build_codes E D off val e d HeE HdD).
  unfold off. rewrite Hat. destruct (rest_dayb e dt); reflexivity.
Qed.

(** The value of the objective at a solution of the model, in terms of the
    schedule extracted from it. *)
Lemma objective_of_solution (E : nat) (start_shifts : list Z)
      (dates : list datetime) (min_per_shift : Z) (max_off_pct : Float.float)
      (off : list (list Z)) (m : CpModel) (val : IntVar -> Z) :
  let D := List.length dates in
  let codes := build_codes E D (off_matrix E dates) val in
  solve_model E start_shifts dates min_per_shift max_off_pct = Ok (off, m) ->
  satisfies val m = true ->
  off = off_matrix E dates /\
  eval val (objective m) = objective_value E D val /\
  day_total D val = day_balance_total codes D /\
  emp_total E val = emp_balance_total codes E /\
  rot_total E D val = mismatch_total dates codes start_shifts E.
Proof.
  intros D codes Hmodel Hsat.
  destruct (solve_model_inv _ _ _ _ _ _ _ Hmodel) as [Hoff [max_off [_ Hbuild]]].
  fold (off_matrix E dates) in Hoff. subst off.
  split; [reflexivity |]. split; [| split; [| split]].
  - rewrite (objective_is_weighted _ _ _ _ _ _ _ _ Hbuild Hsat). reflexivity.
  - exact (day_total_of_codes _ _ _ _ _ _ _ _ Hbuild Hsat).
  - exact (emp_total_of_codes _ _ _ _ _ _ _ _ Hbuild Hsat).
  - exact (rot_total_of_codes _ _ _ _ _ _ _ Hbuild Hsat).
Qed.

Lemma rotation_target_code (start_shifts : list Z) (e d : nat) :
  shift_code (target_shift (nth e start_shifts 0) d)
  = py_str (rotation_target start_shifts e d + 1).
Proof.
  unfold shift_code, target_shift, rotation_target, num_shifts.
  rewrite Z2Nat.id by (apply Z.mod_pos_bound; lia).
  rewrite Nat2Z.inj_div. reflexivity.
Qed.

Lemma mismatch_total_in_words (dates : list datetime)
      (codes : list (list string)) (start_shifts : list Z) (E : nat) :
  mismatch_total dates codes start_shifts E
  = rotation_penalty_total dates codes start_shifts E.
Proof.
  unfold mismatch_total, rotation_penalty_total.
  apply zsum_ext. intros e _. apply zsum_ext. intros d _.
  unfold mismatch, rotation_penalty. rewrite rotation_target_code.
  reflexivity.
Qed.

(** C7: when [solve] returns a schedule, the objective at the solver's
    answer is 10 times the day balance of the schedule (over days and
    unordered shift pairs, the absolute difference of the head counts),
    plus 5 times its employee balance (over employees and unordered shift
    pairs, the absolute difference of the days worked over the horizon),
    plus 1 time the number of rotation mismatches, a day counting 1 when
    it is a working day whose code is not that of the target shift
    [(start_shifts[e] + (d div 28)) mod 3] and 0 when it is a rest day;
    shifts and start shifts are 0-based here, as [solve] receives them, so
    the code of the target is the target plus 1. *)
Theorem objective_is_weighted_sum_of_totals
        (solver : CpSolver) (employees : list Row) (start_shifts : list Z)
        (dates : list datetime) (min_per_shift : Z) (max_off_pct : Float.float)
        (codes : list (list string)) :
  let E := List.length employees in
  let D := List.length dates in
  solver_valid_on solver E start_shifts dates min_per_shift max_off_pct ->
  solve solver employees start_shifts dates min_per_shift max_off_pct = Ok codes ->
  minimized_objective solver E start_shifts dates min_per_shift max_off_pct
  = Some (10 * day_balance_total codes D
          + 5 * emp_balance_total codes E
          + 1 * rotation_penalty_total dates codes start_shifts E).
Proof.
  intros E D Hvalid Hsolve. subst E D.
  destruct (solve_inv _ _ _ _ _ _ _ Hsolve) as [off [m [Hmodel [Hst Hcodes]]]].
  unfold solver_valid_on in Hvalid. rewrite Hmodel in Hvalid.
  specialize (Hvalid Hst).
  destruct (objective_of_solution _ _ _ _ _ _ _ _ Hmodel Hvalid)
    as [Hoff [Hobj [Hday [Hemp Hrot]]]].
  unfold minimized_objective. rewrite Hmodel. f_equal.
  rewrite Hobj, objective_value_split, Hday, Hemp, Hrot.
  subst off. rewrite <- Hcodes. rewrite mismatch_total_in_words. reflexivity.
Qed.

Lemma objective_is_weighted_sum_of_totals_witness :
  solve ScenarioFiveWeeks.solver (staff 7) ScenarioA.start_shifts
        ScenarioFiveWeeks.dates default_min_per_shift default_max_off_pct
  = Ok ScenarioFiveWeeks.codes /\
  rotation_penalty ScenarioFiveWeeks.dates ScenarioFiveWeeks.codes
                   ScenarioA.start_shifts 0 27 = 0 /\
  rotation_penalty ScenarioFiveWeeks.dates ScenarioFiveWeeks.codes
                   ScenarioA.start_shifts 0 28 = 1 /\
  minimized_objective ScenarioFiveWeeks.solver 7 ScenarioA.start_shifts
                      ScenarioFiveWeeks.dates default_min_per_shift
                      default_max_off_pct
  = Some (10 * 90 + 5 * 350 + 1 * 35).
Proof.
  split; [vm_compute; reflexivity |].
  split; [vm_compute; reflexivity |].
  split; [vm_compute; reflexivity |].
  apply (objective_is_weighted_sum_of_totals
           ScenarioFiveWeeks.solver (staff 7) ScenarioA.start_shifts
           ScenarioFiveWeeks.dates default_min_per_shift default_max_off_pct
           ScenarioFiveWeeks.codes).
  - vm_compute. intros _. reflexivity.
  - vm_compute. reflexivity.
Defined.

(** C8, as the code has it: the weights 10, 5, 1 do not make the objective
    lexicographic.  For the week of scenario A, under the default
    parameters, [even_days] has a smaller day balance than [on_target]
    (16 against 18) and a larger objective (545 against 476); and
    [off_target] has the day balance of the plan of scenario A (18), a
    smaller employee balance (68 against 70) and a larger objective (555
    against 530). *)
Lemma weights_are_not_lexicographic :
  Weights.is_feasible Weights.even_days = true /\
  Weights.is_feasible Weights.on_target = true /\
  day_total 7 Weights.even_days = 16 /\
  day_total 7 Weights.on_target = 18 /\
  objective_value 7 7 Weights.even_days = 545 /\
  objective_value 7 7 Weights.on_target = 476 /\
  Weights.is_feasible Weights.off_target = true /\
  Weights.is_feasible ScenarioA.values = true /\
  day_total 7 Weights.off_target = 18 /\
  day_total 7 ScenarioA.values = 18 /\
  emp_total 7 Weights.off_target = 68 /\
  emp_total 7 ScenarioA.values = 70 /\
  objective_value 7 7 Weights.off_target = 555 /\
  objective_value 7 7 ScenarioA.values = 530.
Proof. vm_compute. repeat split; reflexivity. Qed.

(** C8, amended: the objective is the weighted sum of the three totals
    with weights 10, 5 and 1, so of two assignments feasible for the same
    inputs the first has the strictly smaller objective exactly when its
    weighted sum of day balance, employee balance and rotation mismatches
    is strictly smaller.  A strictly smaller day balance gives a strictly
    smaller objective when the employee balance and the rotation
    mismatches are not larger, and with equal day balances a strictly
    smaller employee balance does when the rotation mismatches are not
    larger. *)
Theorem objective_orders_by_weighted_totals
        (E : nat) (start_shifts : list Z) (dates : list datetime)
        (min_per_shift : Z) (max_off_pct : Float.float)
        (val1 val2 : IntVar -> Z) :
  let D := List.length dates in
  let codes1 := build_codes E D (off_matrix E dates) val1 in
  let codes2 := build_codes E D (off_matrix E dates) val2 in
  let day codes := day_balance_total codes D in
  let emp codes := emp_balance_total codes E in
  let rot codes := mismatch_total dates codes start_shifts E in
  feasible val1 E start_shifts dates min_per_shift max_off_pct = true ->
  feasible val2 E start_shifts dates min_per_shift max_off_pct = true ->
  (objective_value E D val1 < objective_value E D val2 <->
   10 * day codes1 + 5 * emp codes1 + 1 * rot codes1
   < 10 * day codes2 + 5 * emp codes2 + 1 * rot codes2) /\
  (day codes1 < day codes2 -> emp codes1 <= emp codes2 ->
   rot codes1 <= rot codes2 ->
   objective_value E D val1 < objective_value E D val2) /\
  (day codes1 = day codes2 -> emp codes1 < emp codes2 ->
   rot codes1 <= rot codes2 ->
   objective_value E D val1 < objective_value E D val2).
Proof.
  intros D codes1 codes2 day emp rot Hf1 Hf2.
  unfold feasible in Hf1, Hf2.
  destruct (solve_model E start_shifts dates min_per_shift max_off_pct)
    as [[off m] |] eqn:Hmodel; [| discriminate Hf1].
  destruct (objective_of_solution _ _ _ _ _ _ _ _ Hmodel Hf1)
    as [_ [_ [Hday1 [Hemp1 Hrot1]]]].
  destruct (objective_of_solution _ _ _ _ _ _ _ _ Hmodel Hf2)
    as [_ [_ [Hday2 [Hemp2 Hrot2]]]].
  subst day emp rot codes1 codes2 D. cbv beta.
  rewrite !objective_value_split.
  rewrite Hday1, Hday2, Hemp1, Hemp2, Hrot1, Hrot2.
  repeat split; lia.
Qed.

Lemma objective_orders_by_weighted_totals_witness :
  Weights.is_feasible ScenarioA.values = true /\
  Weights.is_feasible Weights.on_target = true /\
  (objective_value 7 7 Weights.on_target < objective_value 7 7 ScenarioA.values).
Proof.
  assert (Hplan : Weights.is_feasible ScenarioA.values = true)
    by (vm_compute; reflexivity).
  assert (Htarget : Weights.is_feasible Weights.on_target = true)
    by (vm_compute; reflexivity).
  split; [exact Hplan |]. split; [exact Htarget |].
  apply (proj1 (objective_orders_by_weighted_totals
                  7 ScenarioA.start_shifts ScenarioA.dates
                  default_min_per_shift default_max_off_pct
                  Weights.on_target ScenarioA.values Htarget Hplan)).
  vm_compute. reflexivity.
Defined.

(* ================================================================== *)
(** ** The theorems at the sample runs *)

Lemma solve_codes_follow_rest_pattern_witness :
  solve ScenarioA.solver (staff 7) ScenarioA.start_shifts ScenarioA.dates
        default_min_per_shift default_max_off_pct = Ok ScenarioA.codes /\
  exists c,
    cell ScenarioA.codes 3 1 = Some c /\
    (c = "W" <-> is_rest_day 3 738887) /\
    (~ is_rest_day 3 738887 -> c = "1" \/ c = "2" \/ c = "3").
Proof.
  assert (Hsolve : solve ScenarioA.solver (staff 7) ScenarioA.start_shifts
                         ScenarioA.dates default_min_per_shift
                         default_max_off_pct = Ok ScenarioA.codes)
    by (vm_compute; reflexivity).
  split; [exact Hsolve |].
  destruct (solve_codes_follow_rest_pattern
              ScenarioA.solver (staff 7) ScenarioA.start_shifts ScenarioA.dates
              default_min_per_shift default_max_off_pct ScenarioA.codes)
    as [Hcells _].
  - vm_compute. intros _. reflexivity.
  - exact Hsolve.
  - apply (Hcells 3%nat 1%nat 738887).
    + vm_compute. lia.
    + reflexivity.
Defined.

Lemma solve_keeps_shift_within_work_run_witness :
  solve ScenarioA.solver (staff 7) ScenarioA.start_shifts ScenarioA.dates
        default_min_per_shift default_max_off_pct = Ok ScenarioA.codes /\
  exists c,
    cell ScenarioA.codes 0 0 = Some c /\ cell ScenarioA.codes 0 (0 + 1) = Some c.
Proof.
  assert (Hsolve : solve ScenarioA.solver (staff 7) ScenarioA.start_shifts
                         ScenarioA.dates default_min_per_shift
                         default_max_off_pct = Ok ScenarioA.codes)
    by (vm_compute; reflexivity).
  split; [exact Hsolve |].
  apply (solve_keeps_shift_within_work_run
           ScenarioA.solver (staff 7) ScenarioA.start_shifts ScenarioA.dates
           default_min_per_shift default_max_off_pct ScenarioA.codes)
    with (dt := 738886) (dt' := 738887).
  - vm_compute. intros _. reflexivity.
  - exact Hsolve.
  - vm_compute. lia.
  - reflexivity.
  - reflexivity.
  - vm_compute. intros [Hwd | Hwd]; discriminate Hwd.
  - vm_compute. intros [Hwd | Hwd]; discriminate Hwd.
Defined.

Lemma solve_covers_every_shift_witness :
  solve ScenarioA.solver (staff 7) ScenarioA.start_shifts ScenarioA.dates
        default_min_per_shift default_max_off_pct = Ok ScenarioA.codes /\
  count_code ScenarioA.codes 0 (py_str 1) >= default_min_per_shift.
Proof.
  assert (Hsolve : solve ScenarioA.solver (staff 7) ScenarioA.start_shifts
                         ScenarioA.dates default_min_per_shift
                         default_max_off_pct = Ok ScenarioA.codes)
    by (vm_compute; reflexivity).
  split; [exact Hsolve |].
  apply (solve_covers_every_shift
           ScenarioA.solver (staff 7) ScenarioA.start_shifts ScenarioA.dates
           default_min_per_shift default_max_off_pct ScenarioA.codes).
  - vm_compute. intros _. reflexivity.
  - exact Hsolve.
  - vm_compute. lia.
  - lia.
Defined.

Lemma solve_respects_off_cap_witness :
  solve ScenarioA.solver (staff 7) ScenarioA.start_shifts ScenarioA.dates
        default_min_per_shift default_max_off_pct = Ok ScenarioA.codes /\
  ceiling_of (SFmul 53 1024 default_max_off_pct
                    (binary_normalize 53 1024 7 0 false)) 3 /\
  forall d, (d < 7)%nat -> count_code ScenarioA.codes d "W" <= 3.
Proof.
  assert (Hsolve : solve ScenarioA.solver (staff 7) ScenarioA.start_shifts
                         ScenarioA.dates default_min_per_shift
                         default_max_off_pct = Ok ScenarioA.codes)
    by (vm_compute; reflexivity).
  split; [exact Hsolve |].
  destruct (solve_respects_off_cap
              ScenarioA.solver (staff 7) ScenarioA.start_shifts ScenarioA.dates
              default_min_per_shift default_max_off_pct ScenarioA.codes)
    as [max_off [Hcap [Hceil Hle]]].
  - vm_compute. intros _. reflexivity.
  - exact Hsolve.
  - assert (Hmax : max_off = 3) by (vm_compute in Hcap; congruence).
    rewrite Hmax in Hceil, Hle.
    split; [exact Hceil | exact Hle].
Defined.


(* ================================================================== *)
(** ** The horizon *)

Lemma daterange_loop_spec (n : nat) (start stop : datetime) (fuel : nat) :
  stop < MAXORDINAL ->
  Z.of_nat n = Z.max 0 (stop - start + 1) ->
  (n < fuel)%nat ->
  daterange_loop fuel start stop
  = Some (Ok (map (fun i => start + Z.of_nat i) (seq 0 n))).
Proof.
  intros Hstop. revert start fuel.
  induction n as [| n IH]; intros start fuel Hn Hfuel.
  - destruct fuel as [| fuel]; [lia |]. cbn [daterange_loop].
    assert (Hlt : (start <=? stop) = false) by (apply Z.leb_gt; lia).
    rewrite Hlt. reflexivity.
  - destruct fuel as [| fuel]; [lia |]. cbn [daterange_loop].
    assert (Hle : (start <=? stop) = true) by (apply Z.leb_le; lia).
    assert (Hmax : (MAXORDINAL <? start + 1) = false)
      by (apply Z.ltb_ge; lia).
    rewrite Hle, Hmax, (IH (start + 1) fuel) by lia.
    cbn [seq map]. do 3 f_equal; [lia |].
    rewrite <- seq_shift, map_map. apply map_ext. intros i. lia.
Qed.

Lemma daterange_loop_overflow (n : nat) (start stop : datetime) (fuel : nat) :
  MAXORDINAL <= stop ->
  Z.of_nat n = MAXORDINAL - start ->
  (n < fuel)%nat ->
  daterange_loop fuel start stop = Some (Raise OverflowError).
Proof.
  intros Hstop. revert start fuel.
  induction n as [| n IH]; intros start fuel Hn Hfuel.
  - destruct fuel as [| fuel]; [lia |]. cbn [daterange_loop].
    assert (Hle : (start <=? stop) = true) by (apply Z.leb_le; lia).
    assert (Hmax : (MAXORDINAL <? start + 1) = true)
      by (apply Z.ltb_lt; lia).
    rewrite Hle, Hmax. reflexivity.
  - destruct fuel as [| fuel]; [lia |]. cbn [daterange_loop].
    assert (Hle : (start <=? stop) = true) by (apply Z.leb_le; lia).
    assert (Hmax : (MAXORDINAL <? start + 1) = false)
      by (apply Z.ltb_ge; lia).
    rewrite Hle, Hmax, (IH (start + 1) fuel) by lia. reflexivity.
Qed.

(** X1: [list(daterange(start, end))].  For an [end] before 9999-12-31
    the loop ends after [end - start + 2] tests of its condition at the
    latest and yields the days [start], [start + 1], ..., [end].  For a
    [start] that is a date and [end] 9999-12-31 it raises [OverflowError],
    when it moves [d] past the last date.  The days [start], ..., [end]
    are [end - start + 1] days when [start <= end], none when
    [end < start], each one day after the one before and a weekday
    later. *)
Theorem daterange_yields_consecutive_days (start stop : datetime) :
  (forall fuel,
      stop < MAXORDINAL ->
      (Z.to_nat (stop - start + 1) < fuel)%nat ->
      daterange_loop fuel start stop = Some (Ok (daterange start stop))) /\
  (forall fuel,
      start <= MAXORDINAL ->
      stop = MAXORDINAL ->
      (Z.to_nat (MAXORDINAL - start) < fuel)%nat ->
      daterange_loop fuel start stop = Some (Raise OverflowError)) /\
  List.length (daterange start stop) = Z.to_nat (stop - start + 1) /\
  (stop < start -> daterange start stop = []) /\
  (forall i dt,
      nth_error (daterange start stop) i = Some dt ->
      dt = start + Z.of_nat i /\ start <= dt <= stop) /\
  (forall i dt dt',
      nth_error (daterange start stop) i = Some dt ->
      nth_error (daterange start stop) (i + 1) = Some dt' ->
      dt' = dt + 1 /\ weekday dt' = (weekday dt + 1) mod 7).
Proof.
  assert (Hnth : forall i dt,
             nth_error (daterange start stop) i = Some dt ->
             dt = start + Z.of_nat i /\ start <= dt <= stop).
  { intros i dt Hi. pose proof (nth_error_lt _ _ _ Hi) as Hlen.
    unfold daterange in Hi, Hlen. rewrite length_map, length_seq in Hlen.
    rewrite nth_error_map in Hi.
    rewrite (nth_error_nth' (seq 0 _) 0%nat) in Hi
      by (rewrite length_seq; exact Hlen).
    rewrite seq_nth in Hi by exact Hlen. cbn in Hi. injection Hi as <-. lia. }
  split; [| split; [| split; [| split; [| split]]]].
  - intros fuel Hstop Hfuel. unfold daterange.
    apply daterange_loop_spec; [exact Hstop | lia | exact Hfuel].
  - intros fuel Hstart Hstop Hfuel.
    apply (daterange_loop_overflow (Z.to_nat (MAXORDINAL - start)));
      [lia | lia | exact Hfuel].
  - unfold daterange. rewrite length_map, length_seq. reflexivity.
  - intros Hlt. unfold daterange.
    replace (Z.to_nat (stop - start + 1)) with 0%nat by lia. reflexivity.
  - exact Hnth.
  - intros i dt dt' Hi Hi'.
    destruct (Hnth _ _ Hi) as [-> _]. destruct (Hnth _ _ Hi') as [-> _].
    split; [lia |]. unfold weekday.
    rewrite Z.add_mod_idemp_l by lia. f_equal. lia.
Qed.

Lemma daterange_yields_consecutive_days_witness :
  daterange_loop 8 738886 738892 = Some (Ok (daterange 738886 738892)) /\
  daterange_loop 3 3652058 3652059 = Some (Raise OverflowError) /\
  weekday 738892 = (weekday 738891 + 1) mod 7.
Proof.
  destruct (daterange_yields_consecutive_days 738886 738892)
    as [Hloop [_ [_ [_ [_ Hnext]]]]].
  destruct (daterange_yields_consecutive_days 3652058 3652059)
    as [_ [Hraise _]].
  split; [| split].
  - apply Hloop; [reflexivity | vm_compute; lia].
  - apply Hraise; [vm_compute; discriminate | reflexivity | vm_compute; lia].
  - apply (Hnext 5%nat 738891 738892); reflexivity.
Defined.

(* ================================================================== *)
(** ** The teams and the off matrix *)

Lemma assign_patterns_succ (E : nat) :
  assign_patterns (S E) = assign_patterns E ++ [(E mod 7)%nat].
Proof.
  unfold assign_patterns. rewrite seq_S, map_app. reflexivity.
Qed.

Lemma team_size_formula (E p : nat) :
  (p < 7)%nat -> team_size E p = ((E + 6 - p) / 7)%nat.
Proof.
  intros Hp. unfold team_size. induction E as [| E IH].
  - cbn [assign_patterns seq map filter List.length].
    symmetry. apply Nat.div_small. lia.
  - rewrite assign_patterns_succ, filter_app, length_app, IH.
    cbn [filter]. pose proof (Nat.mod_upper_bound E 7 ltac:(lia)) as Hr.
    pose proof (Nat.div_mod_eq E 7) as HE.
    pose proof (Nat.div_mod_eq (E + 6 - p) 7) as Hn.
    pose proof (Nat.mod_upper_bound (E + 6 - p) 7 ltac:(lia)) as Hnr.
    pose proof (Nat.div_mod_eq (S E + 6 - p) 7) as Hn'.
    pose proof (Nat.mod_upper_bound (S E + 6 - p) 7 ltac:(lia)) as Hnr'.
    destruct (Nat.eqb_spec p (E mod 7)) as [Heq | Hne]; cbn [List.length]; nia.
Qed.

(** X2: [assign_patterns] gives one team to each employee, each a pattern
    index below 7, and spreads the employees evenly: team [p] has
    [(E + 6 - p) // 7] members, so the sizes of two teams differ by one
    at most and a team of lower index is never the smaller one. *)
Theorem assign_patterns_spreads_evenly (E : nat) :
  List.length (assign_patterns E) = E /\
  (forall e team,
      nth_error (assign_patterns E) e = Some team ->
      team = (e mod 7)%nat /\ (team < List.length OFF_PATTERNS)%nat) /\
  (forall p, (p < 7)%nat -> team_size E p = ((E + 6 - p) / 7)%nat) /\
  (forall p q,
      (p <= q < 7)%nat ->
      (team_size E q <= team_size E p <= team_size E q + 1)%nat).
Proof.
  split; [| split; [| split]].
  - unfold assign_patterns. rewrite length_map, length_seq. reflexivity.
  - intros e team He. pose proof (nth_error_lt _ _ _ He) as Hlen.
    unfold assign_patterns in Hlen. rewrite length_map, length_seq in Hlen.
    pose proof (index_assign_patterns E e Hlen) as Hidx.
    apply index_ok in Hidx.
    assert (Hteam : team = (e mod 7)%nat) by congruence.
    split; [exact Hteam |]. rewrite Hteam.
    change (List.length OFF_PATTERNS) with 7%nat.
    apply Nat.mod_upper_bound. discriminate.
  - intros p Hp. exact (team_size_formula E p Hp).
  - intros p q Hpq.
    rewrite !team_size_formula by lia.
    pose proof (Nat.div_mod_eq (E + 6 - p) 7) as Hp.
    pose proof (Nat.mod_upper_bound (E + 6 - p) 7 ltac:(lia)) as Hpr.
    pose proof (Nat.div_mod_eq (E + 6 - q) 7) as Hq.
    pose proof (Nat.mod_upper_bound (E + 6 - q) 7 ltac:(lia)) as Hqr.
    nia.
Qed.

Lemma off_rows_raises_index_error (es : list nat) (dates : list datetime)
      (teams : list nat) (exn : Exception) :
  off_rows es dates teams = Raise exn -> exn = IndexError.
Proof.
  induction es as [| e es IH]; cbn [off_rows]; [discriminate |].
  unfold index.
  destruct (nth_error teams e) as [team |]; cbn [bind];
    [| intros Hr; injection Hr as <-; reflexivity].
  destruct (nth_error OFF_PATTERNS team) as [pattern |]; cbn [bind];
    [| intros Hr; injection Hr as <-; reflexivity].
  destruct (off_rows es dates teams) as [rest | exn']; cbn [bind];
    [discriminate |].
  intros Hr. injection Hr as <-. apply IH. reflexivity.
Qed.

Lemma off_rows_inv (es : list nat) (dates : list datetime) (teams : list nat)
      (rows : list (list Z)) :
  off_rows es dates teams = Ok rows ->
  List.length rows = List.length es /\
  forall i e,
    nth_error es i = Some e ->
    exists team pattern,
      nth_error teams e = Some team /\
      nth_error OFF_PATTERNS team = Some pattern /\
      nth_error rows i = Some (off_row pattern dates).
Proof.
  revert rows. induction es as [| e0 es IH]; intros rows Hrows.
  - injection Hrows as <-. split; [reflexivity |].
    intros i e Hi. destruct i; discriminate Hi.
  - cbn [off_rows] in Hrows.
    apply bind_ok in Hrows. destruct Hrows as [team [Hteam Hrows]].
    apply bind_ok in Hrows. destruct Hrows as [pattern [Hpat Hrows]].
    apply bind_ok in Hrows. destruct Hrows as [rest [Hrest Hrows]].
    injection Hrows as <-. destruct (IH rest Hrest) as [Hlen Hnth].
    split; [cbn [List.length]; rewrite Hlen; reflexivity |].
    intros i e Hi. destruct i as [| i].
    + injection Hi as <-. exists team, pattern.
      split; [apply index_ok; exact Hteam |].
      split; [apply index_ok; exact Hpat | reflexivity].
    + exact (Hnth i e Hi).
Qed.

Lemma off_rows_defined (es : list nat) (dates : list datetime)
      (teams : list nat) :
  (forall e, In e es ->
     exists team, nth_error teams e = Some team /\ (team < 7)%nat) ->
  exists rows, off_rows es dates teams = Ok rows.
Proof.
  induction es as [| e es IH]; intros Hes; cbn [off_rows].
  - exists []. reflexivity.
  - destruct (Hes e (or_introl eq_refl)) as [team [Hteam Hlt]].
    destruct IH as [rest Hrest];
      [intros e' He'; apply Hes; right; exact He' |].
    unfold index. rewrite Hteam. cbn [bind].
    rewrite (nth_error_nth' OFF_PATTERNS (0, 0) (n := team)) by exact Hlt.
    cbn [bind]. rewrite Hrest. cbn [bind]. eexists. reflexivity.
Qed.

Lemma off_rows_undefined (es : list nat) (dates : list datetime)
      (teams : list nat) (e : nat) :
  In e es ->
  (forall team, nth_error teams e = Some team -> (7 <= team)%nat) ->
  off_rows es dates teams = Raise IndexError.
Proof.
  intros He Hbad.
  destruct (off_rows es dates teams) as [rows | exn] eqn:Hrows;
    [| f_equal; exact (off_rows_raises_index_error _ _ _ _ Hrows)].
  exfalso. destruct (In_nth_error _ _ He) as [i Hi].
  destruct (off_rows_inv _ _ _ _ Hrows) as [_ Hnth].
  destruct (Hnth i e Hi) as [team [pattern [Hteam [Hpat _]]]].
  pose proof (Hbad team Hteam) as Hge.
  pose proof (nth_error_lt _ _ _ Hpat) as Hlt. cbn in Hlt. lia.
Qed.

Lemma off_row_nth (pattern : Z * Z) (dates : list datetime) (d : nat) :
  nth_error (off_row pattern dates) d
  = option_map (fun dt => if (weekday dt =? fst pattern)
                             || (weekday dt =? snd pattern)
                          then 1 else 0)
               (nth_error dates d).
Proof.
  unfold off_row. destruct pattern as [off1 off2].
  rewrite nth_error_map. reflexivity.
Qed.

(** X3: [compute_off_matrix] returns a matrix exactly when every employee
    below [num_employees] has a team in [team_of_emp] that is a pattern
    index below 7, and raises [IndexError] otherwise.  The matrix has one
    row per employee and one entry per date, and the entry is 1 when the
    weekday of the date is one of the two weekdays of the employee's
    pattern and 0 when it is not. *)
Theorem compute_off_matrix_shape
        (num_employees : nat) (dates : list datetime) (team_of_emp : list nat) :
  (forall off,
      compute_off_matrix num_employees dates team_of_emp = Ok off ->
      List.length off = num_employees /\
      forall e,
        (e < num_employees)%nat ->
        exists team off1 off2 row,
          nth_error team_of_emp e = Some team /\
          nth_error OFF_PATTERNS team = Some (off1, off2) /\
          nth_error off e = Some row /\
          List.length row = List.length dates /\
          forall d dt,
            nth_error dates d = Some dt ->
            nth_error row d
            = Some (if (weekday dt =? off1) || (weekday dt =? off2)
                    then 1 else 0)) /\
  ((forall e, (e < num_employees)%nat ->
      exists team, nth_error team_of_emp e = Some team /\ (team < 7)%nat) ->
   exists off, compute_off_matrix num_employees dates team_of_emp = Ok off) /\
  (forall e,
      (e < num_employees)%nat ->
      (forall team, nth_error team_of_emp e = Some team -> (7 <= team)%nat) ->
      compute_off_matrix num_employees dates team_of_emp = Raise IndexError).
Proof.
  unfold compute_off_matrix. split; [| split].
  - intros off Hoff. destruct (off_rows_inv _ _ _ _ Hoff) as [Hlen Hnth].
    rewrite length_seq in Hlen. split; [exact Hlen |].
    intros e He.
    destruct (Hnth e e) as [team [[off1 off2] [Hteam [Hpat Hrow]]]].
    { rewrite (nth_error_nth' (seq 0 num_employees) 0%nat)
        by (rewrite length_seq; exact He).
      rewrite seq_nth by exact He. reflexivity. }
    exists team, off1, off2, (off_row (off1, off2) dates).
    split; [exact Hteam |]. split; [exact Hpat |]. split; [exact Hrow |].
    split; [unfold off_row; apply length_map |].
    intros d dt Hd. rewrite off_row_nth, Hd. reflexivity.
  - intros Hall. apply off_rows_defined.
    intros e He. apply in_seq in He. apply Hall. lia.
  - intros e He Hbad. apply (off_rows_undefined _ _ _ e); [| exact Hbad].
    apply in_seq. lia.
Qed.

(* ================================================================== *)
(** ** Five days on, two days off *)

Lemma weekday_add (dt k : Z) : weekday (dt + k) = (weekday dt + k) mod 7.
Proof.
  unfold weekday. rewrite Z.add_mod_idemp_l by lia. f_equal. lia.
Qed.

Lemma weekday_bounds (dt : datetime) : 0 <= weekday dt < 7.
Proof. unfold weekday. apply Z.mod_pos_bound. lia. Qed.

(** Rest days by weekday, for the pattern of index [p]. *)
Lemma rest_by_weekday (e : nat) (dt : datetime) (k : Z) :
  rest_dayb e (dt + k)
  = let pattern := nth (e mod 7) OFF_PATTERNS (0, 0) in
    (((weekday dt + k) mod 7 =? fst pattern)
     || ((weekday dt + k) mod 7 =? snd pattern)).
Proof. unfold rest_dayb, rest_weekdays. rewrite weekday_add. reflexivity. Qed.

Ltac each_pattern_and_weekday e dt :=
  let p := fresh "p" in
  let Hp := fresh "Hp" in
  let w := fresh "w" in
  let Hw := fresh "Hw" in
  pose proof (Nat.mod_upper_bound e 7 ltac:(discriminate)) as Hp;
  pose proof (weekday_bounds dt) as Hw;
  generalize dependent (e mod 7)%nat; intros p Hp;
  generalize dependent (weekday dt); intros w Hw;
  assert (Hpc : (p = 0 \/ p = 1 \/ p = 2 \/ p = 3 \/ p = 4 \/ p = 5 \/ p = 6)%nat)
    by lia;
  assert (Hwc : w = 0 \/ w = 1 \/ w = 2 \/ w = 3 \/ w = 4 \/ w = 5 \/ w = 6)
    by lia;
  destruct Hpc as [-> | [-> | [-> | [-> | [-> | [-> | ->]]]]]];
  destruct Hwc as [-> | [-> | [-> | [-> | [-> | [-> | ->]]]]]].

Lemma rest_days_in_a_week (e : nat) (dt : datetime) :
  zsum (fun k => if rest_dayb e (dt + Z.of_nat k) then 1 else 0) (seq 0 7) = 2.
Proof.
  cbn [seq zsum fold_right]. rewrite !rest_by_weekday. cbv zeta.
  each_pattern_and_weekday e dt; reflexivity.
Qed.

Lemma rest_day_in_six (e : nat) (dt : datetime) :
  zsum (fun k => if rest_dayb e (dt + Z.of_nat k) then 1 else 0) (seq 0 6) >= 1.
Proof.
  cbn [seq zsum fold_right]. rewrite !rest_by_weekday. cbv zeta.
  each_pattern_and_weekday e dt; vm_compute; discriminate.
Qed.

Lemma rest_days_are_paired (e : nat) (dt : datetime) :
  rest_dayb e dt = true ->
  rest_dayb e (dt - 1) = true \/ rest_dayb e (dt + 1) = true.
Proof.
  replace dt with (dt + 0) at 1 by lia.
  replace (dt - 1) with (dt + -1) by lia.
  rewrite !rest_by_weekday. cbv zeta.
  each_pattern_and_weekday e dt; vm_compute; auto; discriminate.
Qed.

Lemma rest_days_not_three (e : nat) (dt : datetime) :
  rest_dayb e dt = true -> rest_dayb e (dt + 1) = true ->
  rest_dayb e (dt + 2) = false.
Proof.
  replace dt with (dt + 0) at 1 by lia.
  rewrite !rest_by_weekday. cbv zeta.
  each_pattern_and_weekday e dt; vm_compute; auto; discriminate.
Qed.

Lemma zsum_cons (f : nat -> Z) (i : nat) (l : list nat) :
  zsum f (i :: l) = f i + zsum f l.
Proof. reflexivity. Qed.

Lemma zsum_seq_shift (f : nat -> Z) (j len : nat) :
  zsum f (seq j len) = zsum (fun k => f (j + k)%nat) (seq 0 len).
Proof.
  revert f j. induction len as [| len IH]; intros f j; [reflexivity |].
  cbn [seq]. rewrite !zsum_cons.
  rewrite (IH f (S j)), (IH (fun k => f (j + k)%nat) 1%nat).
  rewrite Nat.add_0_r. f_equal. apply zsum_ext.
  intros k _. f_equal. lia.
Qed.

Lemma nth_error_daterange (start stop : datetime) (d : nat) :
  (d < List.length (daterange start stop))%nat ->
  nth_error (daterange start stop) d = Some (start + Z.of_nat d).
Proof.
  intros Hd. unfold daterange in *. rewrite length_map, length_seq in Hd.
  rewrite nth_error_map.
  rewrite (nth_error_nth' (seq 0 _) 0%nat) by (rewrite length_seq; exact Hd).
  rewrite seq_nth by exact Hd. reflexivity.
Qed.

Lemma zsum_add (f g : nat -> Z) (l : list nat) :
  zsum (fun i => f i + g i) l = zsum f l + zsum g l.
Proof.
  induction l as [| i l IH]; [reflexivity |].
  rewrite !zsum_cons, IH. lia.
Qed.

Lemma zsum_const (c : Z) (l : list nat) :
  zsum (fun _ => c) l = c * Z.of_nat (List.length l).
Proof.
  induction l as [| i l IH]; [cbn; lia |].
  rewrite zsum_cons, IH. cbn [List.length]. lia.
Qed.

Section ReturnedCodes.

Variables (E : nat) (dates : list datetime) (start_shifts : list Z).
Variables (min_per_shift max_off : Z).
Variables (m : CpModel) (val : IntVar -> Z).

Let D := List.length dates.
Let off := off_matrix E dates.
Let codes := build_codes E D off val.

Hypothesis Hbuild :
  build_model E D off start_shifts min_per_shift max_off = Ok m.
Hypothesis Hsat : satisfies val m = true.

Lemma off_is_bit (e d : nat) :
  (e < E)%nat -> (d < D)%nat -> off_at off e d = 0 \/ off_at off e d = 1.
Proof.
  intros He Hd. destruct (nth_error dates d) as [dt |] eqn:Hdt;
    [| apply nth_error_None in Hdt; unfold D in Hd; lia].
  unfold off. rewrite (off_matrix_at E dates e d dt He Hdt).
  destruct (rest_dayb e dt); auto.
Qed.

Lemma cell_is_W (e d : nat) (dt : datetime) :
  (e < E)%nat -> nth_error dates d = Some dt ->
  (cell codes e d = Some "W" <-> rest_dayb e dt = true).
Proof.
  intros He Hdt. pose proof (nth_error_lt _ _ _ Hdt) as Hd. fold D in Hd.
  unfold codes. rewrite (cell_build_codes E D off val e d He Hd).
  pose proof (code_W_iff E D off start_shifts min_per_shift max_off m val
                         Hbuild Hsat e d He Hd) as HW.
  assert (Hat : off_at off e d = if rest_dayb e dt then 1 else 0)
    by (unfold off; exact (off_matrix_at E dates e d dt He Hdt)).
  rewrite Hat in HW. split.
  - intros Hc. injection Hc as Hc. apply HW in Hc.
    destruct (rest_dayb e dt); [reflexivity | discriminate Hc].
  - intros Hr. rewrite Hr in HW. f_equal. apply HW. reflexivity.
Qed.

Lemma cell_W_indicator (e d : nat) (dt : datetime) :
  (e < E)%nat -> nth_error dates d = Some dt ->
  match cell codes e d with
  | Some c' => if String.eqb c' "W" then 1 else 0
  | None => 0
  end = if rest_dayb e dt then 1 else 0.
Proof.
  intros He Hdt. pose proof (cell_is_W e d dt He Hdt) as HW.
  pose proof (nth_error_lt _ _ _ Hdt) as Hd. fold D in Hd.
  unfold codes in *. rewrite (cell_build_codes E D off val e d He Hd) in *.
  destruct (String.eqb_spec (code off val e d) "W") as [Heq | Hne].
  - rewrite (proj1 HW (f_equal Some Heq)). reflexivity.
  - destruct (rest_dayb e dt); [| reflexivity].
    exfalso. apply Hne. pose proof (proj2 HW eq_refl) as Hc.
    injection Hc as Hc. exact Hc.
Qed.

(** Every cell holds exactly one of the four codes. *)
Lemma code_indicators (e d : nat) :
  (e < E)%nat -> (d < D)%nat ->
  (if String.eqb (code off val e d) "1" then 1 else 0)
  + (if String.eqb (code off val e d) "2" then 1 else 0)
  + (if String.eqb (code off val e d) "3" then 1 else 0)
  + (if String.eqb (code off val e d) "W" then 1 else 0) = 1.
Proof.
  intros He Hd.
  destruct (Z.eq_dec (off_at off e d) 1) as [Hoff | Hoff].
  - rewrite (proj2 (code_W_iff E D off start_shifts min_per_shift max_off m val
                               Hbuild Hsat e d He Hd) Hoff).
    reflexivity.
  - destruct (code_working E D off start_shifts min_per_shift max_off m val
                           Hbuild Hsat e d He Hd Hoff) as [-> | [-> | ->]];
      reflexivity.
Qed.

Lemma count_codes_partition (d : nat) :
  (d < D)%nat ->
  count_code codes d "1" + count_code codes d "2" + count_code codes d "3"
  + count_code codes d "W" = Z.of_nat E.
Proof.
  intros Hd. unfold codes.
  rewrite (count_code_build_codes E D off val d "1"
             (fun e => if String.eqb (code off val e d) "1" then 1 else 0) Hd)
    by reflexivity.
  rewrite (count_code_build_codes E D off val d "2"
             (fun e => if String.eqb (code off val e d) "2" then 1 else 0) Hd)
    by reflexivity.
  rewrite (count_code_build_codes E D off val d "3"
             (fun e => if String.eqb (code off val e d) "3" then 1 else 0) Hd)
    by reflexivity.
  rewrite (count_code_build_codes E D off val d "W"
             (fun e => if String.eqb (code off val e d) "W" then 1 else 0) Hd)
    by reflexivity.
  rewrite <- !zsum_add.
  rewrite (zsum_ext _ (fun _ => 1)).
  - rewrite zsum_const, length_seq. lia.
  - intros e He. apply in_seq in He. apply code_indicators; [lia | exact Hd].
Qed.

Lemma count_shift_covered (d s : nat) :
  (d < D)%nat -> (s < num_shifts)%nat ->
  count_code codes d (py_str (Z.of_nat s + 1)) >= min_per_shift.
Proof.
  intros Hd Hs. unfold codes.
  rewrite (count_code_build_codes E D off val d _
             (fun e => val (x e d s)) Hd).
  - exact (coverage_holds E D off start_shifts min_per_shift max_off m val
                          Hbuild Hsat d s Hd Hs).
  - intros e He.
    exact (code_shift_indicator E D off start_shifts min_per_shift max_off m val
                                Hbuild Hsat e d s He Hd Hs).
Qed.

Lemma count_W_is_off_count (d : nat) :
  (d < D)%nat -> count_code codes d "W" = off_count E off d.
Proof.
  intros Hd. unfold codes. rewrite off_count_zsum.
  apply count_code_build_codes; [exact Hd |].
  intros e He.
  pose proof (code_W_iff E D off start_shifts min_per_shift max_off m val
                         Hbuild Hsat e d He Hd) as HW.
  destruct (String.eqb_spec (code off val e d) "W") as [Heq | Hne].
  - apply HW. exact Heq.
  - destruct (off_is_bit e d He Hd) as [H0 | H1]; [exact H0 |].
    exfalso. apply Hne, HW. exact H1.
Qed.

(** A run of working days keeps the code of its first day. *)
Lemma code_constant_on_run (e d k : nat) :
  (e < E)%nat -> (d + k < D)%nat ->
  (forall i, (i <= k)%nat -> off_at off e (d + i) = 0) ->
  code off val e (d + k) = code off val e d.
Proof.
  intros He. induction k as [| k IH]; intros Hd Hrun.
  - rewrite Nat.add_0_r. reflexivity.
  - rewrite <- IH by (lia || (intros i Hi; apply Hrun; lia)).
    replace (d + S k)%nat with (d + k + 1)%nat by lia. symmetry.
    apply (code_continuity E D off start_shifts min_per_shift max_off m val
                           Hbuild Hsat e (d + k) He); [lia | |].
    + apply Hrun. lia.
    + replace (d + k + 1)%nat with (d + S k)%nat by lia. apply Hrun. lia.
Qed.

End ReturnedCodes.

(** X4: over a horizon of consecutive days, a schedule returned by [solve]
    gives every employee exactly two "W" in any 7 days in a row and at
    least one "W" in any 6 days in a row, so nobody is on duty more than 5
    days running; a "W" inside the horizon always has a "W" next to it. *)
Theorem solve_rests_two_days_a_week
        (solver : CpSolver) (employees : list Row) (start_shifts : list Z)
        (start stop : datetime) (min_per_shift : Z) (max_off_pct : Float.float)
        (codes : list (list string)) :
  let E := List.length employees in
  let dates := daterange start stop in
  let D := List.length dates in
  solver_valid_on solver E start_shifts dates min_per_shift max_off_pct ->
  solve solver employees start_shifts dates min_per_shift max_off_pct = Ok codes ->
  forall e,
    (e < E)%nat ->
    (forall j, (j + 7 <= D)%nat -> count_in_window codes e j 7 "W" = 2) /\
    (forall j, (j + 6 <= D)%nat -> count_in_window codes e j 6 "W" >= 1) /\
    (forall d, (1 <= d)%nat -> (d + 1 < D)%nat ->
               cell codes e d = Some "W" ->
               cell codes e (d - 1) = Some "W" \/ cell codes e (d + 1) = Some "W").
Proof.
  intros E dates D Hvalid Hsolve e He.
  destruct (solve_returns _ _ _ _ _ _ _ Hvalid Hsolve)
    as [m [max_off [val [_ [_ [Hbuild [Hsat ->]]]]]]].
  fold E dates in Hbuild. fold E dates. subst D.
  assert (Hind : forall j len,
             (j + len <= List.length dates)%nat ->
             forall k, In k (seq 0 len) ->
             match cell (build_codes E (List.length dates) (off_matrix E dates)
                                     val) e (j + k) with
             | Some c' => if String.eqb c' "W" then 1 else 0
             | None => 0
             end
             = if rest_dayb e (start + Z.of_nat j + Z.of_nat k) then 1 else 0).
  { intros j len Hj k Hk. apply in_seq in Hk.
    rewrite (cell_W_indicator E dates start_shifts min_per_shift max_off m val
               Hbuild Hsat e (j + k) (start + Z.of_nat (j + k)) He)
      by (apply nth_error_daterange; fold dates; lia).
    replace (start + Z.of_nat (j + k)) with (start + Z.of_nat j + Z.of_nat k)
      by lia.
    reflexivity. }
  split; [| split].
  - intros j Hj. unfold count_in_window. rewrite zsum_seq_shift.
    rewrite (zsum_ext _ _ (seq 0 7) (Hind j 7%nat Hj)).
    apply rest_days_in_a_week.
  - intros j Hj. unfold count_in_window. rewrite zsum_seq_shift.
    rewrite (zsum_ext _ _ (seq 0 6) (Hind j 6%nat Hj)).
    apply rest_day_in_six.
  - intros d Hd1 HdD Hcell.
    assert (Hnth : forall i, (i < List.length dates)%nat ->
                             nth_error dates i = Some (start + Z.of_nat i))
      by (intros i Hi; apply nth_error_daterange; exact Hi).
    apply (cell_is_W E dates start_shifts min_per_shift max_off m val
                     Hbuild Hsat e d _ He (Hnth d ltac:(lia))) in Hcell.
    destruct (rest_days_are_paired e _ Hcell) as [Hprev | Hnext].
    + left.
      apply (cell_is_W E dates start_shifts min_per_shift max_off m val
                       Hbuild Hsat e (d - 1) (start + Z.of_nat (d - 1)) He
                       (Hnth (d - 1)%nat ltac:(lia))).
      replace (start + Z.of_nat (d - 1)) with (start + Z.of_nat d - 1) by lia.
      exact Hprev.
    + right.
      apply (cell_is_W E dates start_shifts min_per_shift max_off m val
                       Hbuild Hsat e (d + 1) (start + Z.of_nat (d + 1)) He
                       (Hnth (d + 1)%nat ltac:(lia))).
      replace (start + Z.of_nat (d + 1)) with (start + Z.of_nat d + 1) by lia.
      exact Hnext.
Qed.

(** X5: in a schedule returned by [solve], an employee keeps one shift
    over a whole run of working days: when the days [d], [d + 1], ...,
    [d + k] are all working days of employee [e], the code on day [d + k]
    is the code on day [d], one of "1", "2", "3". *)
Theorem solve_keeps_shift_over_whole_run
        (solver : CpSolver) (employees : list Row) (start_shifts : list Z)
        (dates : list datetime) (min_per_shift : Z) (max_off_pct : Float.float)
        (codes : list (list string)) :
  let E := List.length employees in
  solver_valid_on solver E start_shifts dates min_per_shift max_off_pct ->
  solve solver employees start_shifts dates min_per_shift max_off_pct = Ok codes ->
  forall e d k,
    (e < E)%nat ->
    (forall i, (i <= k)%nat ->
               exists dt, nth_error dates (d + i) = Some dt /\ ~ is_rest_day e dt) ->
    exists c,
      cell codes e d = Some c /\ cell codes e (d + k) = Some c /\
      (c = "1" \/ c = "2" \/ c = "3").
Proof.
  intros E Hvalid Hsolve e d k He Hrun.
  destruct (solve_returns _ _ _ _ _ _ _ Hvalid Hsolve)
    as [m [max_off [val [_ [_ [Hbuild [Hsat ->]]]]]]].
  fold E in Hbuild. fold E.
  assert (Hoff : forall i, (i <= k)%nat ->
                   (d + i < List.length dates)%nat /\
                   off_at (off_matrix E dates) e (d + i) = 0).
  { intros i Hi. destruct (Hrun i Hi) as [dt [Hdt Hwork]].
    split; [exact (nth_error_lt _ _ _ Hdt) |].
    apply (off_matrix_working E dates e (d + i) dt He Hdt). exact Hwork. }
  destruct (Hoff 0%nat ltac:(lia)) as [Hd0 Hoff0]. rewrite Nat.add_0_r in *.
  destruct (Hoff k ltac:(lia)) as [Hdk _].
  exists (code (off_matrix E dates) val e d).
  split; [apply cell_build_codes; assumption |]. split.
  - rewrite cell_build_codes by assumption. f_equal.
    apply (code_constant_on_run E dates start_shifts min_per_shift max_off m val
                                Hbuild Hsat e d k He Hdk).
    intros i Hi. apply Hoff. exact Hi.
  - apply (code_working _ _ _ _ _ _ _ _ Hbuild Hsat e d He Hd0).
    rewrite Hoff0. discriminate.
Qed.

(** X6: a schedule returned by [solve] has one row per employee and one
    code per day, and on every day the numbers of employees on "1", "2",
    "3" and "W" add up to the number of employees, the number on "W" being
    the day's column sum of the off matrix. *)
Theorem solve_codes_partition_employees
        (solver : CpSolver) (employees : list Row) (start_shifts : list Z)
        (dates : list datetime) (min_per_shift : Z) (max_off_pct : Float.float)
        (codes : list (list string)) :
  let E := List.length employees in
  let D := List.length dates in
  solver_valid_on solver E start_shifts dates min_per_shift max_off_pct ->
  solve solver employees start_shifts dates min_per_shift max_off_pct = Ok codes ->
  List.length codes = E /\
  (forall row, In row codes -> List.length row = D) /\
  (forall d,
      (d < D)%nat ->
      count_code codes d "1" + count_code codes d "2" + count_code codes d "3"
      + count_code codes d "W" = Z.of_nat E /\
      count_code codes d "W" = off_count E (off_matrix E dates) d).
Proof.
  intros E D Hvalid Hsolve.
  destruct (solve_returns _ _ _ _ _ _ _ Hvalid Hsolve)
    as [m [max_off [val [_ [_ [Hbuild [Hsat ->]]]]]]].
  fold E in Hbuild. fold E. subst D.
  split; [| split].
  - unfold build_codes. rewrite length_map, length_seq. reflexivity.
  - intros row Hrow. unfold build_codes in Hrow. apply in_map_iff in Hrow.
    destruct Hrow as [e [<- _]]. rewrite length_map, length_seq. reflexivity.
  - intros d Hd. split.
    + exact (count_codes_partition E dates start_shifts min_per_shift max_off
                                   m val Hbuild Hsat d Hd).
    + exact (count_W_is_off_count E dates start_shifts min_per_shift max_off
                                  m val Hbuild Hsat d Hd).
Qed.

Lemma solve_rests_two_days_a_week_witness :
  solve ScenarioA.solver (staff 7) ScenarioA.start_shifts
        (daterange 738886 738892) default_min_per_shift default_max_off_pct
  = Ok ScenarioA.codes /\
  count_in_window ScenarioA.codes 4 0 7 "W" = 2.
Proof.
  assert (Hsolve : solve ScenarioA.solver (staff 7) ScenarioA.start_shifts
                         (daterange 738886 738892) default_min_per_shift
                         default_max_off_pct = Ok ScenarioA.codes)
    by (vm_compute; reflexivity).
  split; [exact Hsolve |].
  destruct (solve_rests_two_days_a_week
              ScenarioA.solver (staff 7) ScenarioA.start_shifts
              738886 738892 default_min_per_shift default_max_off_pct
              ScenarioA.codes) with (e := 4%nat) as [Hweek _].
  - vm_compute. intros _. reflexivity.
  - exact Hsolve.
  - vm_compute. lia.
  - apply Hweek. vm_compute. lia.
Defined.

Lemma solve_keeps_shift_over_whole_run_witness :
  solve ScenarioA.solver (staff 7) ScenarioA.start_shifts ScenarioA.dates
        default_min_per_shift default_max_off_pct = Ok ScenarioA.codes /\
  exists c,
    cell ScenarioA.codes 2 2 = Some c /\ cell ScenarioA.codes 2 (2 + 4) = Some c /\
    (c = "1" \/ c = "2" \/ c = "3").
Proof.
  assert (Hsolve : solve ScenarioA.solver (staff 7) ScenarioA.start_shifts
                         ScenarioA.dates default_min_per_shift
                         default_max_off_pct = Ok ScenarioA.codes)
    by (vm_compute; reflexivity).
  split; [exact Hsolve |].
  apply (solve_keeps_shift_over_whole_run
           ScenarioA.solver (staff 7) ScenarioA.start_shifts ScenarioA.dates
           default_min_per_shift default_max_off_pct ScenarioA.codes).
  - vm_compute. intros _. reflexivity.
  - exact Hsolve.
  - vm_compute. lia.
  - intros i Hi.
    assert (Hcase : (i = 0 \/ i = 1 \/ i = 2 \/ i = 3 \/ i = 4)%nat) by lia.
    destruct Hcase as [-> | [-> | [-> | [-> | ->]]]];
      eexists; (split; [reflexivity |]);
      vm_compute; intros [Hwd | Hwd]; discriminate Hwd.
Defined.

Lemma solve_codes_partition_employees_witness :
  solve ScenarioA.solver (staff 7) ScenarioA.start_shifts ScenarioA.dates
        default_min_per_shift default_max_off_pct = Ok ScenarioA.codes /\
  count_code ScenarioA.codes 0 "1" + count_code ScenarioA.codes 0 "2"
  + count_code ScenarioA.codes 0 "3" + count_code ScenarioA.codes 0 "W" = 7.
Proof.
  assert (Hsolve : solve ScenarioA.solver (staff 7) ScenarioA.start_shifts
                         ScenarioA.dates default_min_per_shift
                         default_max_off_pct = Ok ScenarioA.codes)
    by (vm_compute; reflexivity).
  split; [exact Hsolve |].
  destruct (solve_codes_partition_employees
              ScenarioA.solver (staff 7) ScenarioA.start_shifts ScenarioA.dates
              default_min_per_shift default_max_off_pct ScenarioA.codes)
    as [_ [_ Hcols]].
  - vm_compute. intros _. reflexivity.
  - exact Hsolve.
  - apply (Hcols 0%nat). vm_compute. lia.
Defined.

(* ================================================================== *)
(** ** When [solve] cannot return *)

Lemma rotation_raises_index_error (D : nat) (off : list (list Z))
      (start_shifts : list Z) (es : list nat) (exn : Exception) :
  rotation D off start_shifts es = Raise exn -> exn = IndexError.
Proof.
  induction es as [| e es IH]; cbn [rotation]; [discriminate |].
  unfold index. destruct (nth_error start_shifts e) as [start_s |];
    cbn [bind]; [| intros Hr; injection Hr as <-; reflexivity].
  destruct (rotation D off start_shifts es) as [rest | exn']; cbn [bind];
    [discriminate |].
  intros Hr. injection Hr as <-. apply IH. reflexivity.
Qed.

Lemma rotation_reads_every_start_shift (D : nat) (off : list (list Z))
      (start_shifts : list Z) (es : list nat) (rc : list Constraint) :
  rotation D off start_shifts es = Ok rc ->
  forall e, In e es -> exists start_s, nth_error start_shifts e = Some start_s.
Proof.
  revert rc. induction es as [| e0 es IH]; intros rc Hrot e He.
  - destruct He.
  - cbn [rotation] in Hrot.
    apply bind_ok in Hrot. destruct Hrot as [start_s [Hidx Hrot]].
    apply bind_ok in Hrot. destruct Hrot as [rest [Hrest _]].
    destruct He as [<- | He].
    + exists start_s. apply index_ok. exact Hidx.
    + exact (IH rest Hrest e He).
Qed.

Lemma rotation_short (D : nat) (off : list (list Z)) (start_shifts : list Z)
      (es : list nat) (e : nat) :
  In e es -> nth_error start_shifts e = None ->
  rotation D off start_shifts es = Raise IndexError.
Proof.
  intros He Hnone.
  destruct (rotation D off start_shifts es) as [rc | exn] eqn:Hrot;
    [| f_equal; exact (rotation_raises_index_error _ _ _ _ _ Hrot)].
  destruct (rotation_reads_every_start_shift _ _ _ _ _ Hrot e He) as [s Hs].
  congruence.
Qed.

Lemma solve_cap_raises (solver : CpSolver) (employees : list Row)
      (start_shifts : list Z) (dates : list datetime) (min_per_shift : Z)
      (max_off_pct : Float.float) (exn : Exception) :
  max_off_cap max_off_pct (List.length employees) = Raise exn ->
  solve solver employees start_shifts dates min_per_shift max_off_pct
  = Raise exn.
Proof.
  intros Hcap. unfold solve, solve_model.
  rewrite compute_off_matrix_ok. cbn [bind]. rewrite Hcap. reflexivity.
Qed.

Lemma solve_short_raises (solver : CpSolver) (employees : list Row)
      (start_shifts : list Z) (dates : list datetime) (min_per_shift : Z)
      (max_off_pct : Float.float) (max_off : Z) :
  max_off_cap max_off_pct (List.length employees) = Ok max_off ->
  (List.length start_shifts < List.length employees)%nat ->
  solve solver employees start_shifts dates min_per_shift max_off_pct
  = Raise IndexError.
Proof.
  intros Hcap Hlen. unfold solve, solve_model.
  rewrite compute_off_matrix_ok. cbn [bind]. rewrite Hcap. cbn [bind].
  unfold build_model.
  rewrite (rotation_short _ _ _ _ (List.length start_shifts)).
  - reflexivity.
  - apply in_seq. lia.
  - apply nth_error_None. lia.
Qed.

(** X7: [solve] raises before it calls the solver, whatever the solver is,
    in two cases: when [math.ceil(max_off_pct * E)] raises, with that
    error, and otherwise, for a [min_per_shift] that CP-SAT takes as a
    bound, when [start_shifts] is shorter than the employee list, with
    [IndexError]. *)
Theorem solve_raises_before_the_solver
        (solver : CpSolver) (employees : list Row) (start_shifts : list Z)
        (dates : list datetime) (min_per_shift : Z) (max_off_pct : Float.float) :
  let E := List.length employees in
  (forall exn,
      max_off_cap max_off_pct E = Raise exn ->
      solve solver employees start_shifts dates min_per_shift max_off_pct
      = Raise exn) /\
  (forall max_off,
      max_off_cap max_off_pct E = Ok max_off ->
      cp_sat_bound min_per_shift ->
      (List.length start_shifts < E)%nat ->
      solve solver employees start_shifts dates min_per_shift max_off_pct
      = Raise IndexError).
Proof.
  intros E. split.
  - intros exn Hcap. apply solve_cap_raises. exact Hcap.
  - intros max_off Hcap _ Hlen.
    apply (solve_short_raises _ _ _ _ _ _ max_off).
    + exact Hcap.
    + exact Hlen.
Qed.

Lemma solve_raises_before_the_solver_witness :
  solve ScenarioA.solver (staff 7) ScenarioA.start_shifts ScenarioA.dates
        default_min_per_shift S754_nan
  = Raise (ValueError "cannot convert float NaN to integer") /\
  solve ScenarioA.solver (staff 7) [0; 1; 2] ScenarioA.dates
        default_min_per_shift default_max_off_pct
  = Raise IndexError.
Proof.
  split.
  - apply (proj1 (solve_raises_before_the_solver
                    ScenarioA.solver (staff 7) ScenarioA.start_shifts
                    ScenarioA.dates default_min_per_shift S754_nan)).
    vm_compute. reflexivity.
  - apply (proj2 (solve_raises_before_the_solver
                    ScenarioA.solver (staff 7) [0; 1; 2]
                    ScenarioA.dates default_min_per_shift
                    default_max_off_pct) 3).
    + vm_compute. reflexivity.
    + split; reflexivity.
    + vm_compute. lia.
Defined.

(** X8: for a [min_per_shift] that CP-SAT takes as a bound, when on some
    day of the horizon fewer than [3 * min_per_shift] employees are on
    duty, that is [E] minus the day's column sum of the off matrix, the
    model has no solution and [solve] raises its "No feasible rota found"
    error, for any solver whose OPTIMAL and FEASIBLE answers are
    solutions. *)
Theorem understaffed_day_is_infeasible
        (solver : CpSolver) (employees : list Row) (start_shifts : list Z)
        (dates : list datetime) (min_per_shift : Z) (max_off_pct : Float.float)
        (max_off : Z) (d : nat) :
  let E := List.length employees in
  cp_sat_bound min_per_shift ->
  (E <= List.length start_shifts)%nat ->
  max_off_cap max_off_pct E = Ok max_off ->
  (d < List.length dates)%nat ->
  Z.of_nat E - off_count E (off_matrix E dates) d < 3 * min_per_shift ->
  solver_valid_on solver E start_shifts dates min_per_shift max_off_pct ->
  (forall val, feasible val E start_shifts dates min_per_shift max_off_pct
               = false) /\
  solve solver employees start_shifts dates min_per_shift max_off_pct
  = Raise no_feasible_rota.
Proof.
  intros E _ Hlen Hcap Hd Hfew Hvalid.
  destruct (solve_model_total E start_shifts dates min_per_shift max_off_pct
                              max_off Hlen Hcap) as [m [Hmodel Hbuild]].
  assert (Hunsat : forall val, satisfies val m = false).
  { intros val. destruct (satisfies val m) eqn:Hsat; [| reflexivity].
    exfalso.
    pose proof (count_codes_partition E dates start_shifts min_per_shift
                                      max_off m val Hbuild Hsat d Hd) as Hsum.
    pose proof (count_W_is_off_count E dates start_shifts min_per_shift
                                     max_off m val Hbuild Hsat d Hd) as HW.
    pose proof (count_shift_covered E dates start_shifts min_per_shift
                                    max_off m val Hbuild Hsat d 0
                                    Hd ltac:(unfold num_shifts; lia)) as H1.
    pose proof (count_shift_covered E dates start_shifts min_per_shift
                                    max_off m val Hbuild Hsat d 1
                                    Hd ltac:(unfold num_shifts; lia)) as H2.
    pose proof (count_shift_covered E dates start_shifts min_per_shift
                                    max_off m val Hbuild Hsat d 2
                                    Hd ltac:(unfold num_shifts; lia)) as H3.
    change (py_str (Z.of_nat 0 + 1)) with "1" in H1.
    change (py_str (Z.of_nat 1 + 1)) with "2" in H2.
    change (py_str (Z.of_nat 2 + 1)) with "3" in H3.
    lia. }
  split.
  - intros val. unfold feasible. rewrite Hmodel. apply Hunsat.
  - apply (solve_without_solution _ _ _ _ _ _ _ _ Hmodel).
    unfold solver_valid_on in Hvalid. rewrite Hmodel in Hvalid.
    unfold valid_response in Hvalid.
    destruct (has_solution (status (solver solver_parameters m)));
      [| reflexivity].
    rewrite Hunsat in Hvalid. symmetry. exact (Hvalid eq_refl).
Qed.

Lemma understaffed_day_is_infeasible_witness :
  cp_sat_bound ScenarioB.min_per_shift /\
  solve ScenarioB.proves_infeasible (staff 2) ScenarioB.start_shifts
        ScenarioB.dates ScenarioB.min_per_shift default_max_off_pct
  = Raise no_feasible_rota.
Proof.
  assert (Hbound : cp_sat_bound ScenarioB.min_per_shift)
    by (split; reflexivity).
  split; [exact Hbound |].
  apply (understaffed_day_is_infeasible
           ScenarioB.proves_infeasible (staff 2) ScenarioB.start_shifts
           ScenarioB.dates ScenarioB.min_per_shift default_max_off_pct
           1 0%nat).
  - exact Hbound.
  - vm_compute. lia.
  - vm_compute. reflexivity.
  - vm_compute. lia.
  - vm_compute. reflexivity.
  - vm_compute. intros Hst. discriminate Hst.
Defined.

(* ================================================================== *)
(** ** Every schedule that keeps the rules is a solution *)




Section Completeness.

Variables (E D : nat) (off : list (list Z)) (start_shifts : list Z).
Variables (min_per_shift max_off : Z) (plan : nat -> nat -> nat).

Let xv := plan_values off plan.
Let val := complete E D off start_shifts xv.

Hypothesis Hshift :
  forall e d, (e < E)%nat -> (d < D)%nat -> (plan e d < num_shifts)%nat.
Hypothesis Hrun :
  forall e d, (e < E)%nat -> (d + 1 < D)%nat ->
              off_at off e d = 0 -> off_at off e (d + 1) = 0 ->
              plan e d = plan e (d + 1).
Hypothesis Hcover :
  forall d s, (d < D)%nat -> (s < num_shifts)%nat ->
              zsum (fun e => plan_values off plan e d s) (seq 0 E)
              >= min_per_shift.
Hypothesis Hcap : forall d, (d < D)%nat -> off_count E off d <= max_off.










End Completeness.





(* ================================================================== *)
(** ** The start shifts of the loader *)

Section StartShifts.

Context `{StrBuiltins}.

Lemma assign_start_shifts_range (employees : list Row) :
  forall cur s,
    1 <= cur <= 3 ->
    In s (assign_start_shifts cur employees) -> 0 <= s <= 2.
Proof.
  induction employees as [| emp employees IH]; intros cur s Hcur Hs.
  - destruct Hs.
  - cbn [assign_start_shifts] in Hs.
    destruct (try_starting_shift emp) as [s0 |] eqn:Htry.
    + destruct Hs as [<- | Hs]; [| exact (IH cur s Hcur Hs)].
      apply try_starting_shift_some in Htry. lia.
    + destruct Hs as [<- | Hs]; [lia |].
      apply (IH (1 + cur mod 3) s); [| exact Hs].
      pose proof (Z.mod_pos_bound cur 3 ltac:(lia)). lia.
Qed.

Lemma fallbacks_before_all (employees : list Row) (i : nat) :
  (forall emp, In emp employees -> try_starting_shift emp = None) ->
  (i <= List.length employees)%nat ->
  fallbacks_before employees i = Z.of_nat i.
Proof.
  intros Hall Hi. unfold fallbacks_before. f_equal.
  revert i Hi. induction employees as [| emp employees IH]; intros i Hi.
  - cbn [List.length] in Hi. replace i with 0%nat by lia. reflexivity.
  - destruct i as [| i]; [reflexivity |].
    cbn [firstn filter]. rewrite (Hall emp (or_introl eq_refl)).
    cbn [List.length]. f_equal. apply IH.
    + intros emp' Hemp'. apply Hall. right. exact Hemp'.
    + cbn [List.length] in Hi. lia.
Qed.

(** X10: every start shift that [load_employees] returns is 0, 1 or 2,
    so a target shift is always one of the three shifts; and when no
    employee has a usable [starting_shift], the employee at position [i]
    gets [i mod 3], which spreads the start shifts evenly over the three
    shifts. *)
Theorem load_employees_start_shifts_in_range
        (rows employees : list Row) (start_shifts : list Z) :
  load_employees rows = Ok (employees, start_shifts) ->
  (forall s, In s start_shifts -> s = 0 \/ s = 1 \/ s = 2) /\
  ((forall emp, In emp rows -> try_starting_shift emp = None) ->
   forall i, (i < List.length rows)%nat ->
             nth_error start_shifts i = Some (Z.of_nat i mod 3)).
Proof.
  rewrite load_employees_cases. intros Hload.
  destruct (forallb has_id_and_name rows); [| discriminate Hload].
  assert (Hpair : (rows, assign_start_shifts 1 rows) = (employees, start_shifts))
    by (destruct rows; [discriminate Hload | injection Hload as <- <-; reflexivity]).
  clear Hload. injection Hpair as <- <-. split.
  - intros s Hs.
    pose proof (assign_start_shifts_range rows 1 s ltac:(lia) Hs). lia.
  - intros Hall i Hi.
    destruct (nth_error rows i) as [emp |] eqn:Hemp;
      [| apply nth_error_None in Hemp; lia].
    pose proof (assign_start_shifts_nth rows 0 i emp Hemp) as Hnth.
    change (round_robin 0) with 1 in Hnth.
    rewrite (Hall emp (nth_error_In _ _ Hemp)) in Hnth.
    rewrite fallbacks_before_all in Hnth by (assumption || lia).
    rewrite Hnth. unfold round_robin. rewrite Z.add_0_l. f_equal. lia.
Qed.

End StartShifts.

Lemma load_employees_start_shifts_in_range_witness :
  load_employees ScenarioC.rows = Ok (ScenarioC.rows, [1; 0; 1; 2; 0; 2; 1]) /\
  forall s, In s [1; 0; 1; 2; 0; 2; 1] -> s = 0 \/ s = 1 \/ s = 2.
Proof.
  assert (Hload : load_employees ScenarioC.rows
                  = Ok (ScenarioC.rows, [1; 0; 1; 2; 0; 2; 1]))
    by (vm_compute; reflexivity).
  split; [exact Hload |].
  exact (proj1 (load_employees_start_shifts_in_range
                  ScenarioC.rows ScenarioC.rows [1; 0; 1; 2; 0; 2; 1] Hload)).
Defined.

(* ================================================================== *)
(** ** The whole run *)

Lemma solve_raise_cases (solver : CpSolver) (employees : list Row)
      (start_shifts : list Z) (dates : list datetime) (min_per_shift : Z)
      (max_off_pct : Float.float) (exn : Exception) :
  solve solver employees start_shifts dates min_per_shift max_off_pct
  = Raise exn ->
  max_off_cap max_off_pct (List.length employees) = Raise exn \/
  (exn = IndexError /\
   (List.length start_shifts < List.length employees)%nat) \/
  exn = no_feasible_rota.
Proof.
  intros Hsolve.
  destruct (max_off_cap max_off_pct (List.length employees))
    as [max_off | exn'] eqn:Hcap.
  - destruct (Nat.lt_ge_cases (List.length start_shifts)
                              (List.length employees)) as [Hlt | Hge].
    + right. left. split; [| exact Hlt].
      rewrite (solve_short_raises solver employees start_shifts dates
                                  min_per_shift max_off_pct max_off Hcap Hlt)
        in Hsolve.
      congruence.
    + right. right.
      destruct (solve_model_total (List.length employees) start_shifts dates
                                  min_per_shift max_off_pct max_off Hge Hcap)
        as [m [Hmodel _]].
      unfold solve in Hsolve. rewrite Hmodel in Hsolve. cbn [bind] in Hsolve.
      destruct (has_solution (status (solver solver_parameters m)));
        congruence.
  - left.
    rewrite (solve_cap_raises solver employees start_shifts dates
                              min_per_shift max_off_pct exn' Hcap) in Hsolve.
    congruence.
Qed.

Lemma max_off_cap_never_index_error (max_off_pct : Float.float) (E : nat) :
  max_off_cap max_off_pct E <> Raise IndexError.
Proof.
  unfold max_off_cap, Float.of_int.
  destruct (binary_normalize Float.prec Float.emax (Z.of_nat E) 0 false);
    cbn [bind]; try discriminate;
    match goal with
    | |- Float.ceil ?f <> _ =>
        unfold Float.ceil; destruct f as [| | | ? ? [| |]]; discriminate
    end.
Qed.

Lemma build_codes_shape (E D : nat) (off : list (list Z)) (val : IntVar -> Z) :
  List.length (build_codes E D off val) = E /\
  forall row, In row (build_codes E D off val) -> List.length row = D.
Proof.
  unfold build_codes. split.
  - rewrite length_map, length_seq. reflexivity.
  - intros row Hrow. apply in_map_iff in Hrow.
    destruct Hrow as [e [<- _]]. rewrite length_map, length_seq. reflexivity.
Qed.

(** X11: the run as a whole, for a start date and an end date before
    9999-12-31 and a [min_per_shift] that CP-SAT takes as a bound.  When
    [main] returns a code matrix, the end
    date is not before the start date, the employee list is not empty,
    every row has its [emp_id] and [employee_name], and the matrix has one
    row per employee and one code per day from the start date to the end
    date.  When it raises, the error is one of the three validation
    errors, the error of [math.ceil(max_off_pct * E)], or "No feasible
    rota found"; it is never the [IndexError] of a missing start shift,
    since the loader returns one for every employee. *)
Theorem main_outcomes `{StrBuiltins}
        (solver : CpSolver) (start_date stop_date : datetime)
        (rows : list Row) (min_per_shift : Z) (max_off_pct : Float.float) :
  is_date start_date ->
  is_date stop_date ->
  stop_date < MAXORDINAL ->
  cp_sat_bound min_per_shift ->
  (forall codes,
      main solver start_date stop_date rows min_per_shift max_off_pct
      = Ok codes ->
      start_date <= stop_date /\
      rows <> [] /\
      forallb has_id_and_name rows = true /\
      List.length codes = List.length rows /\
      forall row, In row codes ->
                  Z.of_nat (List.length row) = stop_date - start_date + 1) /\
  (forall exn,
      main solver start_date stop_date rows min_per_shift max_off_pct
      = Raise exn ->
      exn <> IndexError /\
      (exn = ValueError "stop-date must be >= start-date" \/
       exn = ValueError "employees.csv must contain emp_id and employee_name" \/
       exn = ValueError "employees.csv is empty" \/
       max_off_cap max_off_pct (List.length rows) = Raise exn \/
       exn = no_feasible_rota)).
Proof.
  intros _ _ _ _. unfold main. rewrite load_employees_cases.
  destruct (stop_date <? start_date) eqn:Hdates.
  { split; [discriminate |].
    intros exn Hexn. injection Hexn as <-. split; [discriminate | auto]. }
  apply Z.ltb_ge in Hdates.
  destruct (forallb has_id_and_name rows) eqn:Hrows; cbn [bind].
  2:{ split; [discriminate |].
      intros exn Hexn. injection Hexn as <-. split; [discriminate | auto]. }
  destruct rows as [| row rows]; cbn [bind].
  { split; [discriminate |].
    intros exn Hexn. injection Hexn as <-. split; [discriminate | auto]. }
  set (employees := row :: rows) in *.
  split.
  - intros codes Hsolve.
    destruct (solve_inv _ _ _ _ _ _ _ Hsolve) as [off [m [_ [_ ->]]]].
    destruct (build_codes_shape (List.length employees)
                                (List.length (daterange start_date stop_date))
                                off (Value (solver solver_parameters m)))
      as [Hlen Hrowlen].
    split; [exact Hdates |]. split; [discriminate |].
    split; [reflexivity |]. split; [exact Hlen |].
    intros r Hr. rewrite (Hrowlen r Hr).
    unfold daterange. rewrite length_map, length_seq. lia.
  - intros exn Hexn.
    destruct (solve_raise_cases _ _ _ _ _ _ _ Hexn)
      as [Hcap | [[-> Hshort] | ->]].
    + split; [| auto 6].
      intros ->. exact (max_off_cap_never_index_error _ _ Hcap).
    + rewrite assign_start_shifts_length in Hshort. lia.
    + split; [discriminate | auto 6].
Qed.

Lemma main_outcomes_witness :
  main ScenarioA.solver 738886 738892 ScenarioC.rows default_min_per_shift
       default_max_off_pct
  = Ok ScenarioA.codes /\
  738886 <= 738892.
Proof.
  assert (Hmain : main ScenarioA.solver 738886 738892 ScenarioC.rows
                       default_min_per_shift default_max_off_pct
                  = Ok ScenarioA.codes)
    by (vm_compute; reflexivity).
  split; [exact Hmain |].
  assert (Hstart : is_date 738886) by (split; discriminate).
  assert (Hstop : is_date 738892) by (split; discriminate).
  assert (Hlast : 738892 < MAXORDINAL) by reflexivity.
  assert (Hbound : cp_sat_bound default_min_per_shift)
    by (split; reflexivity).
  exact (proj1 (proj1 (main_outcomes ScenarioA.solver 738886 738892
                                     ScenarioC.rows default_min_per_shift
                                     default_max_off_pct
                                     Hstart Hstop Hlast Hbound) _ Hmain)).
Defined.

(* ================================================================== *)
(** ** The name of the output file *)

Lemma endswith_refl (s : string) : endswith s s = true.
Proof. destruct s; cbn [endswith]; rewrite String.eqb_refl; reflexivity. Qed.

Lemma endswith_append (p suffix : string) :
  endswith (p ++ suffix)%string suffix = true.
Proof.
  induction p as [| c p IH]; [apply endswith_refl |].
  cbn [String.append endswith].
  destruct (String.eqb (String c (p ++ suffix)) suffix); [reflexivity | exact IH].
Qed.

Lemma lower_append (a b : string) :
  lower (a ++ b)%string = (lower a ++ lower b)%string.
Proof.
  induction a as [| c a IH]; [reflexivity |].
  cbn [String.append lower]. rewrite IH. reflexivity.
Qed.

Lemma rsplit_dot_head_no_dot (s : string) :
  has_dot s = false -> rsplit_dot_head s = s.
Proof.
  destruct s as [| c rest]; [reflexivity |].
  cbn [has_dot rsplit_dot_head]. intros Hdot.
  apply orb_false_iff in Hdot. destruct Hdot as [-> ->]. reflexivity.
Qed.

Lemma has_dot_append (a b : string) :
  has_dot (a ++ b)%string = has_dot a || has_dot b.
Proof.
  induction a as [| c a IH]; [reflexivity |].
  cbn [String.append has_dot]. rewrite IH. apply orb_assoc.
Qed.

Lemma rsplit_dot_head_last_dot (a b : string) :
  has_dot b = false ->
  rsplit_dot_head (a ++ String "."%char b)%string = a.
Proof.
  intros Hb. induction a as [| c a IH].
  - cbn [String.append rsplit_dot_head]. rewrite Hb. reflexivity.
  - cbn [String.append rsplit_dot_head].
    rewrite has_dot_append. cbn [has_dot]. rewrite Ascii.eqb_refl.
    rewrite orb_true_r, IH. reflexivity.
Qed.

(** X12: the name that [main] gives the output file always ends in
    ".xlsx", whatever the case of the letters.  A name that already does is
    kept as it is; any other name loses what follows its last "." and gets
    ".xlsx" in its place, or just gets ".xlsx" added when it has no ".".
    Forcing the extension twice is the same as forcing it once. *)
Theorem force_xlsx_extension (output_file : string) :
  endswith (lower (force_xlsx output_file)) ".xlsx" = true /\
  (endswith (lower output_file) ".xlsx" = true ->
   force_xlsx output_file = output_file) /\
  (endswith (lower output_file) ".xlsx" = false ->
   has_dot output_file = false ->
   force_xlsx output_file = (output_file ++ ".xlsx")%string) /\
  (forall a b,
      endswith (lower output_file) ".xlsx" = false ->
      output_file = (a ++ String "."%char b)%string ->
      has_dot b = false ->
      force_xlsx output_file = (a ++ ".xlsx")%string) /\
  force_xlsx (force_xlsx output_file) = force_xlsx output_file.
Proof.
  assert (Hends : endswith (lower (force_xlsx output_file)) ".xlsx" = true).
  { unfold force_xlsx.
    destruct (endswith (lower output_file) ".xlsx") eqn:Hext; cbn [negb].
    - exact Hext.
    - rewrite lower_append. apply endswith_append. }
  split; [exact Hends |]. split; [| split; [| split]].
  - intros Hext. unfold force_xlsx. rewrite Hext. reflexivity.
  - intros Hext Hdot. unfold force_xlsx. rewrite Hext. cbn [negb].
    rewrite rsplit_dot_head_no_dot by exact Hdot. reflexivity.
  - intros a b Hext -> Hdot. unfold force_xlsx. rewrite Hext. cbn [negb].
    rewrite rsplit_dot_head_last_dot by exact Hdot. reflexivity.
  - unfold force_xlsx at 1. rewrite Hends. reflexivity.
Qed.

Example force_xlsx_samples :
  force_xlsx "shift_rota.xlsx" = "shift_rota.xlsx" /\
  force_xlsx "Rota.XLSX" = "Rota.XLSX" /\
  force_xlsx "rota.csv" = "rota.xlsx" /\
  force_xlsx "rota" = "rota.xlsx" /\
  force_xlsx "out.d/rota" = "out.xlsx".
Proof. vm_compute. repeat split; reflexivity. Qed.

Example gregorian_dates :
  Gregorian.ymd 1 = (1, 1, 1) /\
  Gregorian.ymd 738886 = (2024, 1, 1) /\
  Gregorian.ymd 738945 = (2024, 2, 29) /\
  Gregorian.ymd 738946 = (2024, 3, 1) /\
  Gregorian.ymd 719163 = (1970, 1, 1) /\
  Gregorian.ymd 730120 = (2000, 1, 1).
Proof. vm_compute. repeat split; reflexivity. Qed.

Example month_sheets_over_new_year :
  map (fun '(key, day_list) => (key, map snd day_list))
      (month_sheets Gregorian.year Gregorian.month (daterange 738884 738887))
  = [ ((2023, 12), [0; 1]%nat); ((2024, 1), [2; 3]%nat) ].
Proof. vm_compute. reflexivity. Qed.

(* ================================================================== *)
(** ** The sheets of the workbook *)

Lemma key_eqb_eq (a b : Z * Z) : key_eqb a b = true <-> a = b.
Proof.
  unfold key_eqb. destruct a as [a1 a2], b as [b1 b2]. cbn [fst snd].
  rewrite andb_true_iff, !Z.eqb_eq. split.
  - intros [-> ->]. reflexivity.
  - intros Heq. injection Heq as -> ->. split; reflexivity.
Qed.

Lemma key_eqb_refl (a : Z * Z) : key_eqb a a = true.
Proof. apply key_eqb_eq. reflexivity. Qed.

Lemma key_eqb_sym (a b : Z * Z) : key_eqb a b = key_eqb b a.
Proof. unfold key_eqb. rewrite (Z.eqb_sym (fst a)), (Z.eqb_sym (snd a)). reflexivity. Qed.

Lemma month_get_in (m : MonthMap) (key : Z * Z) (items : list (datetime * nat)) :
  month_get m key = Some items -> In (key, items) m.
Proof.
  induction m as [| [k its] m IH]; cbn [month_get]; [discriminate |].
  destruct (key_eqb k key) eqn:Hk.
  - intros Heq. injection Heq as <-. apply key_eqb_eq in Hk. subst k.
    left. reflexivity.
  - intros Hget. right. exact (IH Hget).
Qed.

Lemma month_get_none (m : MonthMap) (key : Z * Z) :
  month_get m key = None <-> ~ In key (map fst m).
Proof.
  induction m as [| [k its] m IH]; cbn [month_get map fst In].
  - split; [intros _ [] | reflexivity].
  - destruct (key_eqb k key) eqn:Hk.
    + apply key_eqb_eq in Hk. split; [discriminate | intros Hn].
      exfalso. apply Hn. left. exact Hk.
    + rewrite IH. split.
      * intros Hn [Heq | Hin]; [| exact (Hn Hin)].
        apply key_eqb_eq in Heq. congruence.
      * intros Hn Hin. apply Hn. right. exact Hin.
Qed.

Lemma in_month_get (m : MonthMap) (key : Z * Z) (items : list (datetime * nat)) :
  NoDup (map fst m) -> In (key, items) m -> month_get m key = Some items.
Proof.
  induction m as [| [k its] m IH]; intros Hnd Hin; [destruct Hin |].
  cbn [map fst] in Hnd. inversion Hnd as [| ? ? Hnotin Hnd']; subst.
  cbn [month_get]. destruct Hin as [Heq | Hin].
  - injection Heq as -> ->. rewrite key_eqb_refl. reflexivity.
  - destruct (key_eqb k key) eqn:Hk; [| exact (IH Hnd' Hin)].
    apply key_eqb_eq in Hk. subst k. exfalso. apply Hnotin.
    exact (in_map fst _ _ Hin).
Qed.

Lemma month_get_setdefault (m : MonthMap) (key k : Z * Z)
      (item : datetime * nat) :
  month_get (setdefault_append m key item) k
  = if key_eqb key k
    then Some (match month_get m key with
               | Some items => items ++ [item]
               | None => [item]
               end)
    else month_get m k.
Proof.
  induction m as [| [k0 its] m IH]; cbn [setdefault_append month_get].
  - reflexivity.
  - destruct (key_eqb k0 key) eqn:Hk0; cbn [month_get].
    + apply key_eqb_eq in Hk0. subst k0.
      destruct (key_eqb key k); reflexivity.
    + rewrite IH. destruct (key_eqb k0 k) eqn:Hk0k; [| reflexivity].
      apply key_eqb_eq in Hk0k. subst k0.
      rewrite key_eqb_sym, Hk0. reflexivity.
Qed.

Lemma keys_setdefault (m : MonthMap) (key k : Z * Z) (item : datetime * nat) :
  In k (map fst (setdefault_append m key item)) <->
  In k (map fst m) \/ k = key.
Proof.
  induction m as [| [k0 its] m IH]; cbn [setdefault_append map fst In].
  - split; [intros [<- | []]; auto | intros [[] | ->]; auto].
  - destruct (key_eqb k0 key) eqn:Hk0; cbn [map fst In].
    + apply key_eqb_eq in Hk0. subst k0. split; [tauto |].
      intros [[Heq | Hin] | ->]; auto.
    + rewrite IH. tauto.
Qed.

Lemma nodup_setdefault (m : MonthMap) (key : Z * Z) (item : datetime * nat) :
  NoDup (map fst m) -> NoDup (map fst (setdefault_append m key item)).
Proof.
  induction m as [| [k0 its] m IH]; intros Hnd;
    cbn [setdefault_append map fst].
  - constructor; [intros [] | constructor].
  - cbn [map fst] in Hnd. inversion Hnd as [| ? ? Hnotin Hnd']; subst.
    destruct (key_eqb k0 key) eqn:Hk0; cbn [map fst].
    + constructor; assumption.
    + constructor; [| exact (IH Hnd')].
      rewrite keys_setdefault. intros [Hin | ->]; [exact (Hnotin Hin) |].
      rewrite key_eqb_refl in Hk0. discriminate Hk0.
Qed.

Lemma in_enumerate {A : Type} (l : list A) (i : nat) (a : A) :
  In (i, a) (enumerate l) <-> nth_error l i = Some a.
Proof.
  unfold enumerate.
  assert (Hgen : forall start,
             In (i, a) (combine (seq start (List.length l)) l) <->
             (start <= i)%nat /\ nth_error l (i - start) = Some a).
  { induction l as [| a0 l IH]; intros start; cbn [List.length seq combine In].
    - split; [intros [] | intros [_ Hn]].
      destruct (i - start)%nat; discriminate Hn.
    - rewrite IH. split.
      + intros [Heq | [Hle Hn]].
        * injection Heq as -> ->. rewrite Nat.sub_diag. split; [lia | reflexivity].
        * split; [lia |]. replace (i - start)%nat with (S (i - S start)) by lia.
          exact Hn.
      + intros [Hle Hn]. destruct (Nat.eq_dec i start) as [-> | Hne].
        * rewrite Nat.sub_diag in Hn. injection Hn as ->. left. reflexivity.
        * right. split; [lia |].
          replace (i - start)%nat with (S (i - S start)) in Hn by lia.
          exact Hn. }
  rewrite Hgen, Nat.sub_0_r. split; [intros [_ Hn]; exact Hn | intros Hn].
  split; [lia | exact Hn].
Qed.

Section Sheets.

Variables (year month : datetime -> Z).

Lemma month_map_fold (rest : list (nat * datetime)) :
  forall (m : MonthMap) (done : list (datetime * nat)),
    NoDup (map fst m) ->
    (forall k,
        month_get m k
        = nonempty (filter (fun '(dt, _) => key_eqb (month_key year month dt) k)
                           done)) ->
    NoDup (map fst
             (fold_left
                (fun m '(idx, dt) =>
                   setdefault_append m (month_key year month dt) (dt, idx))
                rest m)) /\
    forall k,
      month_get
        (fold_left
           (fun m '(idx, dt) =>
              setdefault_append m (month_key year month dt) (dt, idx))
           rest m) k
      = nonempty (filter (fun '(dt, _) => key_eqb (month_key year month dt) k)
                         (done ++ map (fun '(idx, dt) => (dt, idx)) rest)).
Proof.
  induction rest as [| [idx dt] rest IH]; intros m done Hnd Hget.
  - cbn [fold_left map]. rewrite app_nil_r. split; assumption.
  - cbn [fold_left map].
    replace (done ++ (dt, idx) :: map (fun '(idx, dt) => (dt, idx)) rest)
      with ((done ++ [(dt, idx)]) ++ map (fun '(idx, dt) => (dt, idx)) rest)
      by (rewrite <- app_assoc; reflexivity).
    apply IH; [apply nodup_setdefault; exact Hnd |].
    intros k. rewrite month_get_setdefault, filter_app. cbn [filter].
    destruct (key_eqb (month_key year month dt) k) eqn:Hk.
    + apply key_eqb_eq in Hk. subst k. rewrite Hget.
      destruct (filter (fun '(dt0, _) =>
                          key_eqb (month_key year month dt0)
                                  (month_key year month dt)) done)
        as [| it its]; reflexivity.
    + rewrite app_nil_r. apply Hget.
Qed.

Lemma month_map_spec (dates : list datetime) :
  NoDup (map fst (month_map year month dates)) /\
  forall k, month_get (month_map year month dates) k
            = nonempty (days_of_month year month dates k).
Proof.
  unfold month_map, days_of_month.
  apply (month_map_fold (enumerate dates) [] []); [constructor |].
  intros k. reflexivity.
Qed.

End Sheets.

Lemma key_leb_total (a b : Z * Z) : key_leb a b = false -> key_leb b a = true.
Proof.
  unfold key_leb.
  rewrite orb_false_iff, andb_false_iff, Z.ltb_ge, Z.eqb_neq, Z.leb_gt.
  rewrite !orb_true_iff, !andb_true_iff, !Z.ltb_lt, !Z.eqb_eq, Z.leb_le. lia.
Qed.

Lemma key_leb_trans (a b c : Z * Z) :
  key_leb a b = true -> key_leb b c = true -> key_leb a c = true.
Proof.
  unfold key_leb.
  rewrite !orb_true_iff, !andb_true_iff, !Z.ltb_lt, !Z.eqb_eq, !Z.leb_le. lia.
Qed.

Lemma key_leb_neq_ltb (a b : Z * Z) :
  key_leb a b = true -> a <> b -> key_ltb a b = true.
Proof.
  unfold key_leb, key_ltb. destruct a as [a1 a2], b as [b1 b2]. cbn [fst snd].
  rewrite !orb_true_iff, !andb_true_iff, !Z.ltb_lt, !Z.eqb_eq, !Z.leb_le.
  intros Hle Hne.
  destruct (Z.eq_dec a1 b1) as [-> | Hne1]; [| lia].
  destruct (Z.eq_dec a2 b2) as [-> | Hne2]; [congruence | lia].
Qed.

Lemma insert_item_perm (it : (Z * Z) * list (datetime * nat)) (l : MonthMap) :
  Permutation (insert_item it l) (it :: l).
Proof.
  induction l as [| it' l IH]; cbn [insert_item]; [apply Permutation_refl |].
  destruct (key_leb (fst it) (fst it')); [apply Permutation_refl |].
  apply (perm_trans (perm_skip it' IH)). apply perm_swap.
Qed.

Lemma sorted_items_perm (m : MonthMap) : Permutation (sorted_items m) m.
Proof.
  induction m as [| it m IH]; [apply Permutation_refl |].
  cbn [sorted_items fold_right].
  apply (perm_trans (insert_item_perm it _)). apply perm_skip. exact IH.
Qed.

Lemma insert_item_sorted (it : (Z * Z) * list (datetime * nat)) (l : MonthMap) :
  Sorted (fun a b => key_leb (fst a) (fst b) = true) l ->
  Sorted (fun a b => key_leb (fst a) (fst b) = true) (insert_item it l).
Proof.
  induction l as [| it' l IH]; intros Hs; cbn [insert_item].
  - constructor; constructor.
  - destruct (key_leb (fst it) (fst it')) eqn:Hle.
    + constructor; [exact Hs |]. constructor. exact Hle.
    + inversion Hs as [| ? ? Hs' Hhd]; subst.
      constructor; [exact (IH Hs') |].
      destruct l as [| it'' l]; cbn [insert_item].
      * constructor. apply key_leb_total. exact Hle.
      * destruct (key_leb (fst it) (fst it'')).
        -- constructor. apply key_leb_total. exact Hle.
        -- inversion Hhd; subst. constructor. assumption.
Qed.

Lemma sorted_items_sorted (m : MonthMap) :
  StronglySorted (fun a b => key_leb (fst a) (fst b) = true) (sorted_items m).
Proof.
  apply Sorted_StronglySorted.
  - intros a b c. apply key_leb_trans.
  - induction m as [| it m IH]; [constructor |].
    cbn [sorted_items fold_right]. apply insert_item_sorted. exact IH.
Qed.

Lemma strictly_sorted_keys (l : MonthMap) :
  StronglySorted (fun a b => key_leb (fst a) (fst b) = true) l ->
  NoDup (map fst l) ->
  StronglySorted (fun a b => key_ltb a b = true) (map fst l).
Proof.
  induction l as [| it l IH]; intros Hs Hnd; cbn [map]; [constructor |].
  inversion Hs as [| ? ? Hs' Hall]; subst.
  cbn [map] in Hnd. inversion Hnd as [| ? ? Hnotin Hnd']; subst.
  constructor; [exact (IH Hs' Hnd') |].
  apply Forall_forall. intros k Hk. apply in_map_iff in Hk.
  destruct Hk as [it' [<- Hin]].
  rewrite Forall_forall in Hall.
  apply key_leb_neq_ltb; [exact (Hall it' Hin) |].
  intros Heq. apply Hnotin. rewrite Heq. exact (in_map fst _ _ Hin).
Qed.

(** X13: the sheets of the workbook split the horizon by month.  They come
    in strictly increasing order of (year, month); a month has a sheet
    exactly when some day of the horizon falls in it, and the sheet lists
    all the days of the horizon that fall in that month, each with its
    index in the horizon, in the order of the horizon.  So every day is a
    column of one sheet and one only, the sheet of its month. *)
Theorem month_sheets_split_the_horizon
        (year month : datetime -> Z) (dates : list datetime) :
  let sheets := month_sheets year month dates in
  StronglySorted (fun a b => key_ltb a b = true) (map fst sheets) /\
  (forall key day_list,
      In (key, day_list) sheets <->
      day_list = days_of_month year month dates key /\ day_list <> []) /\
  (forall d dt,
      nth_error dates d = Some dt ->
      In (dt, d) (days_of_month year month dates (month_key year month dt)) /\
      forall key,
        In (dt, d) (days_of_month year month dates key) ->
        key = month_key year month dt).
Proof.
  intros sheets. destruct (month_map_spec year month dates) as [Hnd Hget].
  pose proof (sorted_items_perm (month_map year month dates)) as Hperm.
  fold (month_sheets year month dates) in Hperm. fold sheets in Hperm.
  assert (Hnd' : NoDup (map fst sheets)).
  { apply (Permutation_NoDup (l := map fst (month_map year month dates)));
      [| exact Hnd].
    apply Permutation_map. apply Permutation_sym. exact Hperm. }
  split; [| split].
  - apply strictly_sorted_keys; [apply sorted_items_sorted | exact Hnd'].
  - intros key day_list. split.
    + intros Hin. apply (Permutation_in _ Hperm) in Hin.
      apply (in_month_get _ _ _ Hnd) in Hin. rewrite Hget in Hin.
      destruct (days_of_month year month dates key) as [| it its];
        [discriminate Hin |].
      injection Hin as <-. split; [reflexivity | discriminate].
    + intros [-> Hne].
      apply (Permutation_in _ (Permutation_sym Hperm)).
      apply month_get_in. rewrite Hget.
      destruct (days_of_month year month dates key); [congruence | reflexivity].
  - intros d dt Hd. unfold days_of_month. split.
    + apply filter_In. split; [| apply key_eqb_refl].
      apply in_map_iff. exists (d, dt). split; [reflexivity |].
      apply in_enumerate. exact Hd.
    + intros key Hin. apply filter_In in Hin. destruct Hin as [_ Hkey].
      apply key_eqb_eq in Hkey. symmetry. exact Hkey.
Qed.

Lemma column_total_loop_counts (d : nat) (c : string)
      (post pre : list (list string)) :
  (forall row, In row post -> (d < List.length row)%nat) ->
  column_total_loop (pre ++ post) d c
                    (seq (List.length pre) (List.length post))
  = Ok (Z.of_nat (List.length
                    (filter (fun row => String.eqb (nth d row "") c) post))).
Proof.
  revert pre. induction post as [| row post IH]; intros pre Hrows.
  - reflexivity.
  - cbn [List.length seq column_total_loop]. unfold index at 1.
    rewrite nth_error_app2 by lia. rewrite Nat.sub_diag. cbn [nth_error bind].
    unfold index at 1.
    rewrite (nth_error_nth' row "") by (apply Hrows; left; reflexivity).
    cbn [bind].
    replace (pre ++ row :: post) with ((pre ++ [row]) ++ post)
      by (rewrite <- app_assoc; reflexivity).
    replace (S (List.length pre)) with (List.length (pre ++ [row]))
      by (rewrite length_app; cbn [List.length]; lia).
    rewrite IH by (intros r Hr; apply Hrows; right; exact Hr).
    cbn [bind filter]. f_equal.
    destruct (String.eqb (nth d row "") c); cbn [List.length]; lia.
Qed.

Lemma column_total_counts (employees : list Row) (codes : list (list string))
      (d : nat) (c : string) :
  List.length codes = List.length employees ->
  (forall row, In row codes -> (d < List.length row)%nat) ->
  column_total employees codes d c = Ok (count_code codes d c).
Proof.
  intros Hlen Hrows. unfold column_total, count_code. rewrite <- Hlen.
  exact (column_total_loop_counts d c codes [] Hrows).
Qed.

(** X14: on the sheet of a schedule returned by [solve], the four totals
    of every column are defined, each being the number of employees with
    that code on the day.  "Shift 1 Total", "Shift 2 Total" and "Shift 3
    Total" are at least [min_per_shift], "Leave Total" is at most
    [math.ceil(max_off_pct * E)], and the four add up to the number of
    employees. *)
Theorem column_totals_of_returned_schedule
        (solver : CpSolver) (employees : list Row) (start_shifts : list Z)
        (dates : list datetime) (min_per_shift : Z) (max_off_pct : Float.float)
        (codes : list (list string)) :
  solver_valid_on solver (List.length employees) start_shifts dates
                  min_per_shift max_off_pct ->
  solve solver employees start_shifts dates min_per_shift max_off_pct = Ok codes ->
  forall global_d,
    (global_d < List.length dates)%nat ->
    (forall label c,
        In (label, c) total_rows ->
        column_total employees codes global_d c
        = Ok (count_code codes global_d c)) /\
    exists t1 t2 t3 tW max_off,
      column_total employees codes global_d "1" = Ok t1 /\
      column_total employees codes global_d "2" = Ok t2 /\
      column_total employees codes global_d "3" = Ok t3 /\
      column_total employees codes global_d "W" = Ok tW /\
      max_off_cap max_off_pct (List.length employees) = Ok max_off /\
      t1 >= min_per_shift /\ t2 >= min_per_shift /\ t3 >= min_per_shift /\
      tW <= max_off /\
      t1 + t2 + t3 + tW = Z.of_nat (List.length employees).
Proof.
  intros Hvalid Hsolve d Hd.
  destruct (solve_returns _ _ _ _ _ _ _ Hvalid Hsolve)
    as [m [max_off [val [_ [Hcap [Hbuild [Hsat ->]]]]]]].
  set (E := List.length employees) in *.
  destruct (build_codes_shape E (List.length dates) (off_matrix E dates) val)
    as [Hlen Hrowlen].
  assert (Htotal : forall c,
             column_total employees
                          (build_codes E (List.length dates)
                                       (off_matrix E dates) val) d c
             = Ok (count_code (build_codes E (List.length dates)
                                           (off_matrix E dates) val) d c)).
  { intros c. apply column_total_counts; [exact Hlen |].
    intros row Hrow. rewrite (Hrowlen row Hrow). exact Hd. }
  split; [intros label c _; apply Htotal |].
  pose proof (count_codes_partition E dates start_shifts min_per_shift max_off
                                    m val Hbuild Hsat d Hd) as Hsum.
  pose proof (count_W_is_off_count E dates start_shifts min_per_shift max_off
                                   m val Hbuild Hsat d Hd) as HW.
  pose proof (off_cap_holds _ _ _ _ _ _ _ _ Hbuild Hsat d Hd) as Hoff.
  pose proof (count_shift_covered E dates start_shifts min_per_shift max_off
                                  m val Hbuild Hsat d 0 Hd
                                  ltac:(unfold num_shifts; lia)) as H1.
  pose proof (count_shift_covered E dates start_shifts min_per_shift max_off
                                  m val Hbuild Hsat d 1 Hd
                                  ltac:(unfold num_shifts; lia)) as H2.
  pose proof (count_shift_covered E dates start_shifts min_per_shift max_off
                                  m val Hbuild Hsat d 2 Hd
                                  ltac:(unfold num_shifts; lia)) as H3.
  change (py_str (Z.of_nat 0 + 1)) with "1" in H1.
  change (py_str (Z.of_nat 1 + 1)) with "2" in H2.
  change (py_str (Z.of_nat 2 + 1)) with "3" in H3.
  eexists _, _, _, _, max_off.
  rewrite !Htotal.
  repeat (split; [reflexivity |]).
  split; [exact Hcap |].
  split; [exact H1 |]. split; [exact H2 |]. split; [exact H3 |].
  split; [lia | exact Hsum].
Qed.

Lemma column_totals_of_returned_schedule_witness :
  solve ScenarioA.solver (staff 7) ScenarioA.start_shifts ScenarioA.dates
        default_min_per_shift default_max_off_pct = Ok ScenarioA.codes /\
  column_total (staff 7) ScenarioA.codes 6 "W"
  = Ok (count_code ScenarioA.codes 6 "W").
Proof.
  assert (Hsolve : solve ScenarioA.solver (staff 7) ScenarioA.start_shifts
                         ScenarioA.dates default_min_per_shift
                         default_max_off_pct = Ok ScenarioA.codes)
    by (vm_compute; reflexivity).
  split; [exact Hsolve |].
  destruct (column_totals_of_returned_schedule
              ScenarioA.solver (staff 7) ScenarioA.start_shifts ScenarioA.dates
              default_min_per_shift default_max_off_pct ScenarioA.codes)
    with (global_d := 6%nat) as [Hrows _].
  - vm_compute. intros _. reflexivity.
  - exact Hsolve.
  - vm_compute. lia.
  - apply (Hrows "Leave Total"). vm_compute. auto.
Defined.

(* ================================================================== *)
(** ** How many rest on a day *)

Lemma team_size_zsum (E p : nat) :
  Z.of_nat (team_size E p)
  = zsum (fun e => if Nat.eqb p (e mod 7) then 1 else 0) (seq 0 E).
Proof.
  unfold team_size, assign_patterns.
  apply (count_filter_zsum (Nat.eqb p)). intros e _. reflexivity.
Qed.

Lemma rest_day_teams (e : nat) (dt : datetime) :
  (if rest_dayb e dt then 1 else 0)
  = (if Nat.eqb (Z.to_nat ((weekday dt + 1) mod 7)) (e mod 7) then 1 else 0)
    + (if Nat.eqb (Z.to_nat ((weekday dt + 2) mod 7)) (e mod 7) then 1 else 0).
Proof.
  unfold rest_dayb, rest_weekdays.
  each_pattern_and_weekday e dt; reflexivity.
Qed.

(** X15: on a day of weekday [w] the employees that the off matrix marks
    off are the members of the two teams [(w + 1) mod 7] and
    [(w + 2) mod 7], so their number is
    [(E + 6 - p1) // 7 + (E + 6 - p2) // 7] for these two team indices: it
    lies between [2 * (E // 7)] and [2 * ((E + 6) // 7)], and is exactly
    [2 * k] on every day when there are [7 * k] employees. *)
Theorem off_count_is_two_teams
        (E : nat) (dates : list datetime) (d : nat) (dt : datetime) :
  nth_error dates d = Some dt ->
  let p1 := Z.to_nat ((weekday dt + 1) mod 7) in
  let p2 := Z.to_nat ((weekday dt + 2) mod 7) in
  compute_off_matrix E dates (assign_patterns E) = Ok (off_matrix E dates) /\
  off_count E (off_matrix E dates) d
  = Z.of_nat (team_size E p1 + team_size E p2) /\
  off_count E (off_matrix E dates) d
  = Z.of_nat ((E + 6 - p1) / 7 + (E + 6 - p2) / 7) /\
  2 * Z.of_nat (E / 7) <= off_count E (off_matrix E dates) d
  <= 2 * Z.of_nat ((E + 6) / 7) /\
  (forall k, E = (7 * k)%nat ->
             off_count E (off_matrix E dates) d = 2 * Z.of_nat k).
Proof.
  intros Hd p1 p2.
  pose proof (weekday_bounds dt) as Hw.
  assert (Hp1 : (p1 < 7)%nat)
    by (unfold p1; pose proof (Z.mod_pos_bound (weekday dt + 1) 7 ltac:(lia)); lia).
  assert (Hp2 : (p2 < 7)%nat)
    by (unfold p2; pose proof (Z.mod_pos_bound (weekday dt + 2) 7 ltac:(lia)); lia).
  assert (Hcount : off_count E (off_matrix E dates) d
                   = Z.of_nat (team_size E p1 + team_size E p2)).
  { rewrite off_count_zsum, Nat2Z.inj_add, !team_size_zsum, <- zsum_add.
    apply zsum_ext. intros e He. apply in_seq in He.
    rewrite (off_matrix_at E dates e d dt) by (lia || exact Hd).
    apply rest_day_teams. }
  assert (Hformula : (team_size E p1 + team_size E p2
                      = (E + 6 - p1) / 7 + (E + 6 - p2) / 7)%nat)
    by (rewrite !team_size_formula by assumption; reflexivity).
  split; [apply compute_off_matrix_ok |].
  split; [exact Hcount |].
  split; [rewrite Hcount, Hformula; reflexivity |].
  rewrite Hcount, Hformula.
  pose proof (Nat.div_mod_eq (E + 6 - p1) 7) as Hq1.
  pose proof (Nat.mod_upper_bound (E + 6 - p1) 7 ltac:(lia)) as Hr1.
  pose proof (Nat.div_mod_eq (E + 6 - p2) 7) as Hq2.
  pose proof (Nat.mod_upper_bound (E + 6 - p2) 7 ltac:(lia)) as Hr2.
  pose proof (Nat.div_mod_eq E 7) as HqE.
  pose proof (Nat.mod_upper_bound E 7 ltac:(lia)) as HrE.
  pose proof (Nat.div_mod_eq (E + 6) 7) as HqE6.
  pose proof (Nat.mod_upper_bound (E + 6) 7 ltac:(lia)) as HrE6.
  split; [nia |].
  intros k ->. nia.
Qed.

Lemma off_count_is_two_teams_witness :
  off_count 9 (off_matrix 9 [738892]) 0 = Z.of_nat (team_size 9 0 + team_size 9 1).
Proof.
  exact (proj1 (proj2 (off_count_is_two_teams 9 [738892] 0 738892 eq_refl))).
Defined.

(* ================================================================== *)
(** ** The rotation target *)

(** X16: the target shift of an employee is one of the three shifts, stays
    the same over the 28 days of a block, moves on by one shift, from the
    third back to the first, from a block to the next, and so comes back
    every 84 days; in the first block it is the start shift itself when
    that is 0, 1 or 2, as the loader returns it. *)
Theorem target_shift_rotates (start_s : Z) (d : nat) :
  (target_shift start_s d < num_shifts)%nat /\
  (forall d', (d / 28 = d' / 28)%nat ->
              target_shift start_s d' = target_shift start_s d) /\
  target_shift start_s (d + 28) = ((target_shift start_s d + 1) mod 3)%nat /\
  target_shift start_s (d + 84) = target_shift start_s d /\
  (0 <= start_s <= 2 -> (d < 28)%nat -> Z.of_nat (target_shift start_s d) = start_s).
Proof.
  assert (Hblock : forall k, ((d + 28 * k) / 28 = d / 28 + k)%nat).
  { intros k. rewrite (Nat.mul_comm 28 k). apply Nat.div_add. discriminate. }
  unfold target_shift, num_shifts.
  split; [| split; [| split; [| split]]].
  - pose proof (Z.mod_pos_bound (start_s + Z.of_nat (d / 28)) (Z.of_nat 3)
                                ltac:(lia)).
    lia.
  - intros d' Heq. rewrite Heq. reflexivity.
  - replace (d + 28)%nat with (d + 28 * 1)%nat by lia. rewrite Hblock.
    change (Z.of_nat 3) with 3.
    replace (start_s + Z.of_nat (d / 28 + 1))
      with (start_s + Z.of_nat (d / 28) + 1) by lia.
    rewrite <- (Z.add_mod_idemp_l (start_s + Z.of_nat (d / 28)) 1 3) by lia.
    pose proof (Z.mod_pos_bound (start_s + Z.of_nat (d / 28)) 3 ltac:(lia))
      as Hb.
    generalize dependent ((start_s + Z.of_nat (d / 28)) mod 3). intros b Hb.
    assert (Hcase : b = 0 \/ b = 1 \/ b = 2) by lia.
    destruct Hcase as [-> | [-> | ->]]; reflexivity.
  - replace (d + 84)%nat with (d + 28 * 3)%nat by lia. rewrite Hblock.
    f_equal. change (Z.of_nat 3) with 3.
    rewrite Nat2Z.inj_add. change (Z.of_nat 3) with 3.
    replace (start_s + (Z.of_nat (d / 28) + 3))
      with (start_s + Z.of_nat (d / 28) + 1 * 3) by lia.
    apply Z.mod_add. lia.
  - intros Hs Hd. rewrite (Nat.div_small d 28 Hd).
    change (Z.of_nat 0) with 0. change (Z.of_nat 3) with 3.
    rewrite Z.add_0_r, Z.mod_small by lia. lia.
Qed.
